(** * Wafer labeling manager: index store, detail stores, reconciliation, export

    A shallow embedding of [outer_layer_manager.py] (classes [OuterLayerManager]
    and [WebInterface]) and the properties of its two-tier persistence engine.

    The global index database ([wafer_global_index.db], table [wafer_metadata])
    is a finite map from [wafer_id] to a row; every wafer folder holds the text
    report [raw_data.txt], the two images and the SQLite file [database.db]
    with its table [defect_info].  Python exceptions are values of [result];
    [datetime.now()] reads a clock carried by the state. *)

From Stdlib Require Import ZArith NArith String Ascii List Bool Lia Sorted.
From Stdlib Require Import Floats.SpecFloat.
From stdpp Require Import base option strings gmap list pretty.

Local Open Scope Z_scope.

(** ** Python exceptions *)

Inductive pyexc :=
| Exception_ (msg : string)
| FileNotFoundError (msg : string)
| OverflowError (msg : string)
| ZeroDivisionError (msg : string)
| OperationalError (msg : string)      (* sqlite3.OperationalError *)
| ProgrammingError (msg : string)      (* sqlite3.ProgrammingError *)
| IntegrityError (msg : string).       (* sqlite3.IntegrityError *)

(** [str(e)] *)
Definition str_exc (e : pyexc) : string :=
  match e with
  | Exception_ m | FileNotFoundError m | OverflowError m | ZeroDivisionError m
  | OperationalError m | ProgrammingError m | IntegrityError m => m
  end.

(** [isinstance(e, sqlite3.Error)] *)
Definition is_sqlite_error (e : pyexc) : bool :=
  match e with
  | OperationalError _ | ProgrammingError _ | IntegrityError _ => true
  | _ => false
  end.

Inductive result (A : Type) :=
| Ok (a : A)
| Raise (e : pyexc).
Arguments Ok {A} a.
Arguments Raise {A} e.

Global Instance result_bind : MBind result := fun A B k r =>
  match r with
  | Ok a => k a
  | Raise e => Raise e
  end.

(** ** Python string primitives used by the report parser *)

Module Py.

(** [str.isspace] on one ASCII character: TAB, LF, VT, FF, CR, the four
    separators 0x1c-0x1f and the space.  Strings are strings of bytes here;
    on text outside ASCII Python's [str.isspace] also holds of U+0085,
    U+00A0 and the other Unicode blanks, which are not modelled: the
    properties that depend on what a line parses to are stated for
    [ascii_text]. *)
Definition isspace (c : ascii) : bool :=
  let n := N_of_ascii c in
  ((9 <=? n) && (n <=? 13) || (28 <=? n) && (n <=? 32))%N.

Fixpoint lstrip (s : string) : string :=
  match s with
  | EmptyString => EmptyString
  | String c s' => if isspace c then lstrip s' else s
  end.

Definition rstrip (s : string) : string :=
  String.rev (lstrip (String.rev s)).

(** [s.strip()] on ASCII text *)
Definition strip (s : string) : string := lstrip (rstrip s).

(** [s.startswith(c)] for a one-character prefix *)
Definition startswith (c : ascii) (s : string) : bool :=
  match s with
  | String c' _ => Ascii.eqb c' c
  | EmptyString => false
  end.

Fixpoint split_go (sep : ascii) (cur : string) (s : string) : list string :=
  match s with
  | EmptyString => [String.rev cur]
  | String c s' =>
      if Ascii.eqb c sep then String.rev cur :: split_go sep EmptyString s'
      else split_go sep (String c cur) s'
  end.

(** [s.split(sep)] for a one-character separator: never the empty list *)
Definition split (sep : ascii) (s : string) : list string :=
  split_go sep EmptyString s.

Definition newline : ascii := "010"%char.

Fixpoint readlines_go (cur : string) (s : string) : list string :=
  match s with
  | EmptyString =>
      match cur with
      | EmptyString => []
      | _ => [String.rev cur]
      end
  | String c s' =>
      if Ascii.eqb c newline
      then String.rev (String c cur) :: readlines_go EmptyString s'
      else readlines_go (String c cur) s'
  end.

(** What a file opened in text mode hands out (universal newlines, the
    default [newline=None] of [open]): [CR LF] and a lone [CR] are read as
    [LF]. *)
Fixpoint universal_newlines (s : string) : string :=
  match s with
  | EmptyString => EmptyString
  | String c s' =>
      if Ascii.eqb c "013"%char
      then String newline
             match s' with
             | String c' s'' =>
                 if Ascii.eqb c' newline then universal_newlines s''
                 else universal_newlines s'
             | EmptyString => EmptyString
             end
      else String c (universal_newlines s')
  end.

(** [f.readlines()] on a file opened with [open(path, 'r')], also the lines
    of [for line in f]: every line keeps its terminating newline, the last
    one may lack it. *)
Definition readlines (content : string) : list string :=
  readlines_go EmptyString (universal_newlines content).

Definition digit (c : ascii) : option Z :=
  let n := N_of_ascii c in
  if ((48 <=? n) && (n <=? 57))%N then Some (Z.of_N n - 48) else None.

(** Digits with single underscores between them, as [int] accepts them. *)
Fixpoint digits_go (acc : Z) (after_digit : bool) (s : string) : option Z :=
  match s with
  | EmptyString => if after_digit then Some acc else None
  | String c s' =>
      match digit c with
      | Some d => digits_go (acc * 10 + d) true s'
      | None =>
          if Ascii.eqb c "_"%char && after_digit
          then digits_go acc false s'
          else None
      end
  end.

(** [int(s)] in base ten on a stripped string of ASCII; [None] is
    [ValueError].  The interpreter also raises [ValueError] for a numeral of
    more than 4300 digits, and accepts the decimal digits of other scripts:
    neither is modelled, and the properties that depend on what a line
    parses to are stated for [plain_report], whose lines are too short for
    the limit. *)
Definition int (s : string) : option Z :=
  match s with
  | String "-" s' => Z.opp <$> digits_go 0 false s'
  | String "+" s' => digits_go 0 false s'
  | _ => digits_go 0 false s
  end.

Fixpoint basename_go (cur : string) (s : string) : string :=
  match s with
  | EmptyString => String.rev cur
  | String c s' =>
      if Ascii.eqb c "/"%char then basename_go EmptyString s'
      else basename_go (String c cur) s'
  end.

(** [os.path.basename(p)]: what follows the last slash *)
Definition basename (p : string) : string := basename_go EmptyString p.

Definition endswith_slash (p : string) : bool :=
  match String.rev p with
  | String c _ => Ascii.eqb c "/"%char
  | EmptyString => false
  end.

(** [os.path.join(a, b)] (posixpath) *)
Definition join (a b : string) : string :=
  if startswith "/"%char b then b
  else if (String.eqb a EmptyString || endswith_slash a)%bool then a +:+ b
  else a +:+ "/" +:+ b.

End Py.

(** ** Python numbers: [int] and binary64 [float] *)

Module F64.

Definition prec : Z := 53.
Definition emax : Z := 1024.

(** [float(z)] *)
Definition of_Z (z : Z) : spec_float := binary_normalize prec emax z 0 false.

(** The double nearest to [n / d] (ties to even) for positive integers. *)
Definition div_pos (s : bool) (n d : Z) : spec_float :=
  let '(q, e, l) := SFdiv_core_binary prec emax n 0 d 0 in
  binary_round_aux prec emax s q e l.

(** [a / b] on Python integers: true division, correctly rounded. *)
Definition truediv (a b : Z) : result spec_float :=
  if b =? 0 then Raise (ZeroDivisionError "division by zero")
  else
    let s := xorb (a <? 0) (b <? 0) in
    if a =? 0 then Ok (S754_zero s)
    else
      match div_pos s (Z.abs a) (Z.abs b) with
      | S754_infinity _ =>
          Raise (OverflowError "integer division result too large for a float")
      | f => Ok f
      end.

Definition mul (x y : spec_float) : spec_float := SFmul prec emax x y.

(** Nearest integer to [n / d], ties to even, for [0 <= n] and [0 < d]. *)
Definition round_half_even (n d : Z) : Z :=
  let q := n / d in
  match (2 * (n mod d)) ?= d with
  | Lt => q
  | Gt => q + 1
  | Eq => if Z.even q then q else q + 1
  end.

(** [round(x, ndigits)] on a float, [0 <= ndigits]: the decimal with
    [ndigits] places nearest to the exact value of [x] (ties to even),
    converted back to the nearest double. *)
Definition round (x : spec_float) (ndigits : Z) : spec_float :=
  match x with
  | S754_finite s m e =>
      let scale := 10 ^ ndigits in
      let n :=
        match e with
        | Zneg k => round_half_even (Zpos m * scale) (2 ^ Zpos k)
        | _ => Zpos m * scale * 2 ^ e
        end in
      if n =? 0 then S754_zero s else div_pos s n scale
  | _ => x
  end.

Definition eqb (x y : spec_float) : bool := SFeqb x y.

End F64.

Inductive pynum :=
| PyInt (z : Z)
| PyFloat (f : spec_float).

(** [round(x, ndigits)]: an [int] is returned as it is when [ndigits >= 0]. *)
Definition py_round (x : pynum) (ndigits : Z) : pynum :=
  match x with
  | PyInt z => PyInt z
  | PyFloat f => PyFloat (F64.round f ndigits)
  end.

(** [x == k] for an integer literal [k] *)
Definition py_eq_int (x : pynum) (k : Z) : bool :=
  match x with
  | PyInt z => z =? k
  | PyFloat f => F64.eqb f (F64.of_Z k)
  end.

(** The value SQLite keeps in a REAL column. *)
Definition to_real (x : pynum) : spec_float :=
  match x with
  | PyInt z => F64.of_Z z
  | PyFloat f => f
  end.

(** [labeled / total * 100] as Python evaluates it *)
Definition percent (labeled total : Z) : result spec_float :=
  q ← F64.truediv labeled total; Ok (F64.mul q (F64.of_Z 100)).

(** ** Data model *)

(** A row of [defect_info].  The four optional columns are added by the first
    labeling call ([ALTER TABLE ... ADD COLUMN]); a row of a table without the
    column holds [None] there. *)
Record defect := {
  defect_id : string;
  center_x : Z;
  center_y : Z;
  ai_adc_type : Z;
  adc_type : option Z;
  severity : option string;
  comment : option string;
  label_time : option Z;
  label_count : option Z
}.

(** The table [defect_info]: its column names ([PRAGMA table_info]) and its
    rows in the order of their row ids, which is the order of insertion (a
    row replaced by [INSERT OR REPLACE] gets a new row id).  A [SELECT *]
    without [ORDER BY] walks the rows in that order; a query that reads
    [defect_id] only is answered from the index of the primary key and
    fetches the ids in ascending order, see [select_defect_id]. *)
Record table := {
  columns : list string;
  rows : list defect
}.

(** A wafer folder.  [raw_data_txt] is the content of the report, a file
    that can be decoded as text.  [database_db] is [None] when the file
    [database.db] is absent, [Some None] when it is a database without the
    table [defect_info] (the empty file [sqlite3.connect] creates), and
    [Some (Some t)] when it holds the table.  A [database.db] that SQLite
    cannot read and a report that cannot be decoded are not states of this
    model. *)
Record folder := {
  raw_data_txt : option string;
  bright_field_png : bool;
  dark_field_png : bool;
  database_db : option (option table)
}.

(** A row of [wafer_metadata], keyed by [wafer_id] in the index. *)
Record wafer_metadata := {
  wafer_name : string;
  folder_path : string;
  total_defects : Z;
  labeled_defects : Z;
  progress : spec_float;
  label_status : Z;
  parsed_status : Z;
  parse_error : option string;
  last_operated : Z;
  create_time : Z
}.

(** What [tempfile.mkdtemp()] directories hold. *)
Inductive scratch_file :=
| KflFile (content : string)
| ZipFile (entries : list (string * string)).

Record world := {
  index : gmap string wafer_metadata;
  fs : gmap string folder;
  scratch : gmap string scratch_file;
  next_tmp : N;
  clock : Z
}.

Definition set_index (i : gmap string wafer_metadata) (w : world) : world :=
  {| index := i; fs := fs w; scratch := scratch w;
     next_tmp := next_tmp w; clock := clock w |}.

Definition set_fs (f : gmap string folder) (w : world) : world :=
  {| index := index w; fs := f; scratch := scratch w;
     next_tmp := next_tmp w; clock := clock w |}.

Definition set_scratch (s : gmap string scratch_file) (w : world) : world :=
  {| index := index w; fs := fs w; scratch := s;
     next_tmp := next_tmp w; clock := clock w |}.

(** [datetime.now()]: the reading, and the world one tick later. *)
Definition now (w : world) : Z * world :=
  (clock w,
   {| index := index w; fs := fs w; scratch := scratch w;
      next_tmp := next_tmp w; clock := clock w + 1 |}).

(** [tempfile.mkdtemp()]: a directory name no earlier call returned. *)
Definition mkdtemp (w : world) : string * world :=
  ("/tmp/tmp" +:+ pretty (next_tmp w),
   {| index := index w; fs := fs w; scratch := scratch w;
      next_tmp := N.succ (next_tmp w); clock := clock w |}).

(** ** The file [database.db] of a folder *)

Definition empty_folder : folder :=
  {| raw_data_txt := None; bright_field_png := false;
     dark_field_png := false; database_db := None |}.

Definition set_database (d : option (option table)) (f : folder) : folder :=
  {| raw_data_txt := raw_data_txt f; bright_field_png := bright_field_png f;
     dark_field_png := dark_field_png f; database_db := d |}.

(** [os.path.exists(os.path.join(folder_path, 'database.db'))] *)
Definition inner_db_exists (folder_path : string) (f : gmap string folder) : bool :=
  match f !! folder_path with
  | Some d => bool_decide (is_Some (database_db d))
  | None => false
  end.

(** [os.path.exists(os.path.join(folder_path, 'raw_data.txt'))] *)
Definition raw_data_exists (folder_path : string) (f : gmap string folder) : bool :=
  match f !! folder_path with
  | Some d => bool_decide (is_Some (raw_data_txt d))
  | None => false
  end.

(** [os.remove(inner_db_path)] *)
Definition remove_inner_db (folder_path : string) (f : gmap string folder)
  : gmap string folder :=
  match f !! folder_path with
  | Some d => <[folder_path := set_database None d]> f
  | None => f
  end.

(** Writing the file [database.db] of an existing folder. *)
Definition write_inner_db (folder_path : string) (t : option table)
    (f : gmap string folder) : gmap string folder :=
  match f !! folder_path with
  | Some d => <[folder_path := set_database (Some t) d]> f
  | None => f
  end.

(** ** SQL on [defect_info] *)

Definition base_columns : list string :=
  ["defect_id"; "center_x"; "center_y"; "ai_adc_type"; "adc_type"].

Definition has_column (c : string) (cols : list string) : bool :=
  bool_decide (c ∈ cols).

(** [INSERT OR REPLACE]: a row with the same primary key is deleted, the new
    row is appended. *)
Definition insert_or_replace (r : defect) (rs : list defect) : list defect :=
  filter (fun r' => defect_id r' ≠ defect_id r) rs ++ [r].

(** [executemany("INSERT OR REPLACE ...", insert_data)] *)
Definition executemany_insert (data rs : list defect) : list defect :=
  foldl (fun acc r => insert_or_replace r acc) rs data.

(** A Python integer that SQLite can bind as INTEGER. *)
Definition fits_int64 (z : Z) : bool :=
  (- 2 ^ 63 <=? z) && (z <? 2 ^ 63).

Definition bindable (r : defect) : bool :=
  fits_int64 (center_x r) && fits_int64 (center_y r) && fits_int64 (ai_adc_type r).

(** [ai_adc_type != adc_type] as a WHERE condition: NULL is not true. *)
Definition type_differs (r : defect) : bool :=
  match adc_type r with
  | Some a => negb (ai_adc_type r =? a)
  | None => false
  end.

(** [severity IS NOT NULL AND severity != ''] *)
Definition has_severity (r : defect) : bool :=
  match severity r with
  | Some s => negb (String.eqb s "")
  | None => false
  end.

(** [label_count >= 1] *)
Definition label_count_ge_1 (r : defect) : bool :=
  match label_count r with
  | Some n => 1 <=? n
  | None => false
  end.

(** [SELECT COUNT( * ) FROM defect_info WHERE p] *)
Definition count_where (p : defect -> bool) (t : table) : Z :=
  Z.of_nat (length (filter (fun r => p r = true) (rows t))).

(** [SELECT COUNT( * ) FROM defect_info] *)
Definition count_all (t : table) : Z := Z.of_nat (length (rows t)).

(** [x] put into a list that is in ascending order of bytes. *)
Fixpoint insert_in_order (x : string) (l : list string) : list string :=
  match l with
  | [] => [x]
  | y :: l' => if String.leb x y then x :: l else y :: insert_in_order x l'
  end.

(** [SELECT defect_id FROM defect_info]: SQLite answers the query from the
    index of the primary key, so the ids come in ascending order of their
    bytes (collation BINARY), not in the order of insertion. *)
Definition select_defect_id (t : table) : list string :=
  foldr insert_in_order [] (defect_id <$> rows t).

(** ** Parsing the report and creating the detail store *)

(** [[line.strip() for line in f if line.strip() and not line.strip().startswith('#')]] *)
Definition report_lines (content : string) : list string :=
  filter (fun l => l ≠ "" ∧ Py.startswith "#" l = false)
         (Py.strip <$> Py.readlines content).

(** One data line of the report: the tuple appended to [insert_data], or
    [None] when the line is skipped (fewer than four fields, empty id, a field
    [int] rejects). *)
Definition parse_line (line : string) : option defect :=
  match Py.split "," line with
  | p0 :: p1 :: p2 :: p3 :: _ =>
      let id := Py.strip p0 in
      if String.eqb id "" then None
      else
        x ← Py.int (Py.strip p1);
        y ← Py.int (Py.strip p2);
        a ← Py.int (Py.strip p3);
        Some {| defect_id := id; center_x := x; center_y := y; ai_adc_type := a;
                adc_type := None; severity := None; comment := None;
                label_time := None; label_count := None |}
  | _ => None
  end.

(** The list [insert_data] built from the lines after the header. *)
Definition insert_data (lines : list string) : list defect :=
  omap parse_line (tail lines).

(** The transaction of [_create_inner_database]: [Ok (Some rows)] when it
    commits, [Ok None] when the report has no line at all (rollback and
    return), [Raise] when opening the report or binding a row fails. *)
Definition import_raw_data (folder_path : string) (f : gmap string folder)
  : result (option (list defect)) :=
  match f !! folder_path ≫= raw_data_txt with
  | None => Raise (FileNotFoundError "No such file or directory")
  | Some content =>
      let lines := report_lines content in
      match lines with
      | [] => Ok None
      | _ =>
          let data := insert_data lines in
          if forallb bindable data
          then Ok (Some (executemany_insert data []))
          else Raise (OverflowError "Python int too large to convert to SQLite INTEGER")
      end
  end.

(** [OuterLayerManager._create_inner_database].  [actual_count] is [None]
    when the assignment of the Python variable is not reached. *)
Definition _create_inner_database (folder_path : string) (defect_count : Z)
    (f : gmap string folder) : gmap string folder :=
  (* os.makedirs(folder_path) when the folder is missing *)
  let f := match f !! folder_path with
           | Some _ => f
           | None => <[folder_path := empty_folder]> f
           end in
  (* delete the old database file *)
  let f := if inner_db_exists folder_path f then remove_inner_db folder_path f else f in
  (* try: connect, CREATE TABLE, CREATE INDEX, BEGIN TRANSACTION *)
  let f := write_inner_db folder_path (Some {| columns := base_columns; rows := [] |}) f in
  let '(f, actual_count) :=
    match import_raw_data folder_path f with
    | Ok (Some rs) =>
        (* commit, then SELECT COUNT *)
        let t := {| columns := base_columns; rows := rs |} in
        (write_inner_db folder_path (Some t) f, Some (count_all t))
    | Ok None => (f, None)        (* rollback; return *)
    | Raise _ => (f, None)        (* except: rollback *)
    end in
  (* finally *)
  if match actual_count with None => true | Some n => n =? 0 end
  then (if inner_db_exists folder_path f then remove_inner_db folder_path f else f)
  else f.

(** [OuterLayerManager._parse_wafer_folder] *)
Definition _parse_wafer_folder (folder_path : string) (f : gmap string folder)
  : gmap string folder * result Z :=
  match f !! folder_path ≫= raw_data_txt with
  | None => (f, Raise (Exception_ "raw_data.txt文件不存在"))
  | Some content =>
      if negb (from_option bright_field_png false (f !! folder_path))
         || negb (from_option dark_field_png false (f !! folder_path))
      then (f, Raise (Exception_ "明场/暗场图像文件缺失"))
      else
        let lines := Py.readlines content in
        let defect_count := Z.of_nat (length lines) - 1 in
        (_create_inner_database folder_path defect_count f, Ok defect_count)
  end.

(** ** SQL on [wafer_metadata] *)

Inductive sqlval :=
| SqlNull
| SqlInt (z : Z)
| SqlReal (x : spec_float)
| SqlText (s : string)
| SqlTime (t : Z).

Definition assoc (a : list (string * sqlval)) (c : string) : option sqlval :=
  (fun p => snd (snd p)) <$> list_find (fun p => fst p = c) a.

Definition col_text (a : list (string * sqlval)) (c : string) : option string :=
  match assoc a c with
  | Some (SqlText s) => Some s
  | _ => None
  end.

Definition col_int (a : list (string * sqlval)) (c : string) (d : Z) : Z :=
  match assoc a c with
  | Some (SqlInt z) => z
  | _ => d
  end.

Definition col_real (a : list (string * sqlval)) (c : string) (d : spec_float)
  : spec_float :=
  match assoc a c with
  | Some (SqlReal x) => x
  | Some (SqlInt z) => F64.of_Z z
  | _ => d
  end.

Definition col_time (a : list (string * sqlval)) (c : string) (d : Z) : Z :=
  match assoc a c with
  | Some (SqlTime t) => t
  | _ => d
  end.

(** [cursor.execute("INSERT INTO wafer_metadata (cols) VALUES (?, ...)", vals)]
    with [nparams] question marks.  The statement is compiled first (column
    list against value list), then the parameters are bound, then the row is
    checked against NOT NULL, PRIMARY KEY and UNIQUE.  [ts] is the
    CURRENT_TIMESTAMP of the column defaults. *)
Definition execute_insert (cols : list string) (nparams : nat)
    (vals : list sqlval) (ts : Z) (idx : gmap string wafer_metadata)
  : result (gmap string wafer_metadata) :=
  if negb (length cols =? nparams)%nat
  then Raise (OperationalError
                (pretty nparams +:+ " values for " +:+ pretty (length cols) +:+ " columns"))
  else if negb (length vals =? nparams)%nat
  then Raise (ProgrammingError "Incorrect number of bindings supplied")
  else
    let a := zip cols vals in
    match col_text a "wafer_id", col_text a "wafer_name", col_text a "folder_path" with
    | Some id, Some name, Some path =>
        if bool_decide (is_Some (idx !! id))
        then Raise (IntegrityError "UNIQUE constraint failed: wafer_metadata.wafer_id")
        else if bool_decide (map_Exists (fun _ r => folder_path r = path) idx)
        then Raise (IntegrityError "UNIQUE constraint failed: wafer_metadata.folder_path")
        else
          Ok (<[id := {| wafer_name := name;
                         folder_path := path;
                         total_defects := col_int a "total_defects" 0;
                         labeled_defects := col_int a "labeled_defects" 0;
                         progress := col_real a "progress" (S754_zero false);
                         label_status := col_int a "label_status" 0;
                         parsed_status := col_int a "parsed_status" 0;
                         parse_error := col_text a "parse_error";
                         last_operated := col_time a "last_operated" ts;
                         create_time := col_time a "create_time" ts |}]> idx)
    | _, _, _ => Raise (IntegrityError "NOT NULL constraint failed")
    end.

(** [UPDATE wafer_metadata SET parsed_status = 2, parse_error = ?,
    last_operated = ? WHERE wafer_id = ?] *)
Definition update_error (wafer_id msg : string) (t : Z)
    (idx : gmap string wafer_metadata) : gmap string wafer_metadata :=
  alter (fun r =>
    {| wafer_name := wafer_name r; folder_path := folder_path r;
       total_defects := total_defects r; labeled_defects := labeled_defects r;
       progress := progress r; label_status := label_status r;
       parsed_status := 2; parse_error := Some msg;
       last_operated := t; create_time := create_time r |}) wafer_id idx.

(** [UPDATE wafer_metadata SET total_defects = ?, labeled_defects = ?,
    progress = ?, label_status = ?, parsed_status = 1, parse_error = NULL,
    last_operated = ? WHERE wafer_id = ?] *)
Definition update_progress (wafer_id : string) (total labeled : Z) (p : pynum)
    (status : Z) (t : Z) (idx : gmap string wafer_metadata)
  : gmap string wafer_metadata :=
  alter (fun r =>
    {| wafer_name := wafer_name r; folder_path := folder_path r;
       total_defects := total; labeled_defects := labeled;
       progress := to_real p; label_status := status;
       parsed_status := 1; parse_error := None;
       last_operated := t; create_time := create_time r |}) wafer_id idx.

(** [UPDATE wafer_metadata SET parsed_status = 0, parse_error = NULL,
    last_operated = ? WHERE wafer_id = ?] *)
Definition update_reset (wafer_id : string) (t : Z)
    (idx : gmap string wafer_metadata) : gmap string wafer_metadata :=
  alter (fun r =>
    {| wafer_name := wafer_name r; folder_path := folder_path r;
       total_defects := total_defects r; labeled_defects := labeled_defects r;
       progress := progress r; label_status := label_status r;
       parsed_status := 0; parse_error := None;
       last_operated := t; create_time := create_time r |}) wafer_id idx.

(** ** Reconciliation *)

(** [sqlite3.connect(inner_db_path)] followed by the first statement: the
    file is created empty when it is missing; the call fails when the folder
    itself is missing. *)
Definition connect_inner (folder_path : string) (f : gmap string folder)
  : result (gmap string folder * option table) :=
  match f !! folder_path with
  | None => Raise (OperationalError "unable to open database file")
  | Some d =>
      match database_db d with
      | Some t => Ok (f, t)
      | None => Ok (write_inner_db folder_path None f, None)
      end
  end.

(** The three ways [_sync_progress] counts the labeled rows, chosen by the
    columns the table has. *)
Definition count_labeled (t : table) : Z :=
  if has_column "label_count" (columns t)
  then count_where label_count_ge_1 t
  else if has_column "severity" (columns t)
  then count_where (fun r => type_differs r || has_severity r) t
  else count_where type_differs t.

(** [progress = (labeled / total * 100) if total > 0 else 0], then
    [round(progress, 2)] *)
Definition compute_progress (labeled_defects total_defects : Z) : result pynum :=
  p ← (if total_defects >? 0
       then x ← percent labeled_defects total_defects; Ok (PyFloat x)
       else Ok (PyInt 0));
  Ok (py_round p 2).

(** [2 if progress == 100 else (1 if labeled_defects > 0 else 0)] *)
Definition derive_label_status (progress : pynum) (labeled_defects : Z) : Z :=
  if py_eq_int progress 100 then 2
  else if labeled_defects >? 0 then 1
  else 0.

(** The error exits of [_sync_progress]: one UPDATE stamped [datetime.now()]. *)
Definition mark_error (wafer_id msg : string) (w : world) : world :=
  let '(t, w) := now w in
  set_index (update_error wafer_id msg t (index w)) w.

(** [OuterLayerManager._sync_progress].  The connection [inner_conn] keeps
    reading the file it opened, so the count queried again after the retry is
    the count of the table [t] opened before it. *)
Definition _sync_progress (wafer_id folder_path : string) (w : world) : world :=
  if negb (raw_data_exists folder_path (fs w))
  then mark_error wafer_id "raw_data.txt文件不存在" w
  else
    let w := if inner_db_exists folder_path (fs w)
             then set_fs (remove_inner_db folder_path (fs w)) w else w in
    match fs w !! folder_path ≫= raw_data_txt with
    | None =>
        mark_error wafer_id ("创建数据库失败: " +:+ "No such file or directory") w
    | Some content =>
        let lines := report_lines content in
        if (Z.of_nat (length lines) <? 1)
        then mark_error wafer_id "raw_data.txt文件为空或格式不正确" w
        else
          let defect_count := Z.of_nat (length lines) - 1 in
          let defect_count := if defect_count <? 0 then 0 else defect_count in
          let w := set_fs (_create_inner_database folder_path defect_count (fs w)) w in
          if negb (inner_db_exists folder_path (fs w))
          then mark_error wafer_id "内层数据库创建失败" w
          else
            match connect_inner folder_path (fs w) with
            | Raise e => mark_error wafer_id ("同步失败: " +:+ str_exc e) w
            | Ok (f, None) =>
                mark_error wafer_id "数据库表结构不完整" (set_fs f w)
            | Ok (f, Some t) =>
                let w := set_fs f w in
                let total_defects := count_all t in
                let '(w, total_defects) :=
                  if (total_defects =? 0) && (defect_count >? 0)
                  then (set_fs (_create_inner_database folder_path defect_count (fs w)) w,
                        count_all t)
                  else (w, total_defects) in
                let labeled_defects := count_labeled t in
                match compute_progress labeled_defects total_defects with
                | Raise e => mark_error wafer_id ("同步失败: " +:+ str_exc e) w
                | Ok progress =>
                    let label_status := derive_label_status progress labeled_defects in
                    let '(current_time, w) := now w in
                    set_index (update_progress wafer_id total_defects labeled_defects
                                 progress label_status current_time (index w)) w
                end
            end
    end.

(** [OuterLayerManager.sync_wafer_progress] *)
Definition sync_wafer_progress (wafer_id : string) (w : world) : world * bool :=
  match index w !! wafer_id with
  | Some r => (_sync_progress wafer_id (folder_path r) w, true)
  | None => (w, false)
  end.

(** [OuterLayerManager.reset_wafer_status] *)
Definition reset_wafer_status (wafer_id : string) (w : world) : world * bool :=
  match index w !! wafer_id with
  | Some r =>
      let w := if inner_db_exists (folder_path r) (fs w)
               then set_fs (remove_inner_db (folder_path r) (fs w)) w else w in
      let '(t, w) := now w in
      (set_index (update_reset wafer_id t (index w)) w, true)
  | None => (w, false)
  end.

(** ** Discovery and ingestion *)

Record load_result := {
  total_processed : Z;
  success : Z;
  failed : Z
}.

(** [root] is [p] or an ancestor directory of [p]: what [os.walk(root_dir)]
    visits. *)
Definition walked (root_dir p : string) : bool :=
  String.eqb root_dir p
  || String.prefix (if Py.endswith_slash root_dir then root_dir else root_dir +:+ "/") p.

(** The list [wafer_folders]: the directories that hold a [raw_data.txt],
    under [root_dir] at any depth or only its immediate children, by the
    paths of the folders in the state.  [root_dir] is a directory that
    exists, given as the folders' paths spell it: for a missing [root_dir]
    [os.listdir] raises [FileNotFoundError] and [os.walk] visits nothing, and
    for a [root_dir] with a trailing slash [os.walk] yields the root itself
    with that slash; neither case is modelled. *)
Definition discover (root_dir : string) (recursive : bool) (f : gmap string folder)
  : list string :=
  filter (fun p =>
            raw_data_exists p f
            && (if recursive then walked root_dir p
                else negb (String.eqb p root_dir)
                     && String.eqb (Py.join root_dir (Py.basename p)) p) = true)
         (map_to_list f).*1.

Section Ingestion.

(** [hashlib.sha256(s.encode()).hexdigest()] *)
Variable sha256_hex : string -> string.

(** [OuterLayerManager._calculate_wafer_id] *)
Definition _calculate_wafer_id (folder_path : string) : string :=
  sha256_hex folder_path.

(** The INSERT of a newly parsed wafer: eight column names, nine question
    marks, nine values. *)
Definition insert_parsed (wafer_id wafer_name folder_path : string)
    (total_defects : Z) (w : world) : world * result unit :=
  let '(t, w) := now w in
  match execute_insert
          ["wafer_id"; "wafer_name"; "folder_path"; "total_defects";
           "progress"; "label_status"; "parsed_status"; "last_operated"]
          9
          [SqlText wafer_id; SqlText wafer_name; SqlText folder_path;
           SqlInt total_defects; SqlInt 0; SqlReal (S754_zero false); SqlInt 0;
           SqlInt 1; SqlTime t]
          (clock w) (index w) with
  | Ok idx => (set_index idx w, Ok ())
  | Raise e => (w, Raise e)
  end.

(** The body of the [try] in the loop of [load_wafer_folders] *)
Definition load_try (wafer_id wafer_name folder_path : string) (w : world)
  : world * result unit :=
  let existing_record := index w !! wafer_id in
  let has_inner_db := inner_db_exists folder_path (fs w) in
  if negb (bool_decide (is_Some existing_record)) && negb has_inner_db then
    match _parse_wafer_folder folder_path (fs w) with
    | (f, Raise e) => (set_fs f w, Raise e)
    | (f, Ok total_defects) =>
        insert_parsed wafer_id wafer_name folder_path total_defects (set_fs f w)
    end
  else if bool_decide (is_Some existing_record) || has_inner_db then
    if negb (bool_decide (is_Some existing_record)) then
      match _parse_wafer_folder folder_path (fs w) with
      | (f, Raise e) => (set_fs f w, Raise e)
      | (f, Ok total_defects) =>
          insert_parsed wafer_id wafer_name folder_path total_defects (set_fs f w)
      end
    else (_sync_progress wafer_id folder_path w, Ok ())
  else (w, Ok ()).

(** One iteration of the loop: the [try], and the [except] that records the
    failure.  An exception of the handler's own INSERT leaves the loop. *)
Definition load_folder (folder_path : string) (st : world * load_result)
  : world * result load_result :=
  let '(w, c) := st in
  let wafer_id := _calculate_wafer_id folder_path in
  let wafer_name := Py.basename folder_path in
  let existing_record := index w !! wafer_id in
  match load_try wafer_id wafer_name folder_path w with
  | (w, Ok _) =>
      (w, Ok {| total_processed := total_processed c + 1;
                success := success c + 1; failed := failed c |})
  | (w, Raise e) =>
      let error_msg := str_exc e in
      let '(t, w) := now w in
      let r := if bool_decide (is_Some existing_record)
               then Ok (update_error wafer_id error_msg t (index w))
               else execute_insert
                      ["wafer_id"; "wafer_name"; "folder_path"; "parsed_status";
                       "parse_error"; "last_operated"]
                      6
                      [SqlText wafer_id; SqlText wafer_name; SqlText folder_path;
                       SqlInt 2; SqlText error_msg; SqlTime t]
                      (clock w) (index w) in
      match r with
      | Ok idx =>
          (set_index idx w,
           Ok {| total_processed := total_processed c + 1;
                 success := success c; failed := failed c + 1 |})
      | Raise e' => (w, Raise e')
      end
  end.

Fixpoint load_loop (wafer_folders : list string) (st : world * load_result)
  : world * result load_result :=
  match wafer_folders with
  | [] => (st.1, Ok st.2)
  | folder_path :: rest =>
      match load_folder folder_path st with
      | (w, Ok c) => load_loop rest (w, c)
      | (w, Raise e) => (w, Raise e)
      end
  end.

(** The loop of [load_wafer_folders] over the folders already discovered.
    [conn.commit()] is reached only when the loop ends: an exception that
    leaves it loses every change made to the index through [conn]. *)
Definition load_discovered (wafer_folders : list string) (w : world)
  : world * result load_result :=
  match load_loop wafer_folders
          (w, {| total_processed := 0; success := 0; failed := 0 |}) with
  | (w', Ok c) => (w', Ok c)
  | (w', Raise e) => (set_index (index w) w', Raise e)
  end.

(** [OuterLayerManager.load_wafer_folders] *)
Definition load_wafer_folders (root_dir : string) (recursive : bool) (w : world)
  : world * result load_result :=
  load_discovered (discover root_dir recursive (fs w)) w.

End Ingestion.

(** ** Export *)

(** [f"{x}"] for a column value that may be NULL *)
Definition fmt_opt (o : option Z) : string :=
  match o with
  | Some z => pretty z
  | None => "None"
  end.

Definition nl : string := String Py.newline "".

(** One line of the export file *)
Definition kfl_line (r : defect) : string :=
  defect_id r +:+ "," +:+ pretty (center_x r) +:+ "," +:+ pretty (center_y r)
  +:+ "," +:+ pretty (ai_adc_type r) +:+ "," +:+ fmt_opt (adc_type r) +:+ nl.

(** The text written to the export file *)
Definition kfl_content (wafer_name : string) (defects : list defect) : string :=
  "KFL Export for " +:+ wafer_name +:+ nl
  +:+ "defect_id,center_x,center_y,ai_adc_type,adc_type" +:+ nl
  +:+ foldr (fun r acc => kfl_line r +:+ acc) "" defects.

(** The rows the export query fetches: all of them, or those of
    [WHERE ai_adc_type != adc_type]. *)
Definition export_rows (export_all : bool) (label_status : Z) (t : table)
  : list defect :=
  if export_all || (label_status =? 2) then rows t
  else filter (fun r => type_differs r = true) (rows t).

(** [OuterLayerManager.export_wafer_kfl]: [inl export_file] is the pair
    [(export_file, None)], [inr error] the pair [(None, error)]. *)
Definition export_wafer_kfl (wafer_id : string) (export_all : bool) (w : world)
  : world * result (string + string) :=
  match index w !! wafer_id with
  | None => (w, Ok (inr "晶圆不存在"))
  | Some r =>
      if negb (inner_db_exists (folder_path r) (fs w))
      then (w, Ok (inr "内层数据库不存在"))
      else
        match fs w !! folder_path r ≫= database_db with
        | Some (Some t) =>
            let defects := export_rows export_all (label_status r) t in
            let '(temp_dir, w) := mkdtemp w in
            let export_file := Py.join temp_dir (wafer_name r +:+ "_defects.kfl") in
            (set_scratch (<[export_file := KflFile (kfl_content (wafer_name r) defects)]>
                            (scratch w)) w,
             Ok (inl export_file))
        | _ => (w, Raise (OperationalError "no such table: defect_info"))
        end
  end.

(** [shutil.copy(src, dst)] *)
Definition copy_file (src dst : string) (s : gmap string scratch_file)
  : gmap string scratch_file :=
  match s !! src with
  | Some c => <[dst := c]> s
  | None => s
  end.

(** What [zf.write(file, arcname)] stores: the bytes of [file] when the
    archive is written. *)
Definition zip_entry (s : gmap string scratch_file) (file : string)
  : string * string :=
  (Py.basename file,
   match s !! file with
   | Some (KflFile c) => c
   | _ => ""
   end).

(** The loop of [batch_export_kfl]; an exception of one export leaves it. *)
Fixpoint batch_loop (temp_dir : string) (wafer_ids : list string)
    (export_files : list string) (w : world) : world * result (list string) :=
  match wafer_ids with
  | [] => (w, Ok export_files)
  | wafer_id :: rest =>
      match export_wafer_kfl wafer_id false w with
      | (w, Raise e) => (w, Raise e)
      | (w, Ok (inr error)) => batch_loop temp_dir rest export_files w
      | (w, Ok (inl export_file)) =>
          let dst := Py.join temp_dir (Py.basename export_file) in
          batch_loop temp_dir rest (export_files ++ [dst])
            (set_scratch (copy_file export_file dst (scratch w)) w)
      end
  end.

(** [OuterLayerManager.batch_export_kfl] *)
Definition batch_export_kfl (wafer_ids : list string) (w : world)
  : world * result (string + string) :=
  let '(temp_dir, w) := mkdtemp w in
  match batch_loop temp_dir wafer_ids [] w with
  | (w, Raise e) => (w, Raise e)
  | (w, Ok export_files) =>
      match export_files with
      | [] => (w, Ok (inr "没有找到可导出的晶圆"))
      | _ =>
          let zip_file := Py.join temp_dir "batch_export.zip" in
          (set_scratch (<[zip_file := ZipFile (zip_entry (scratch w) <$> export_files)]>
                          (scratch w)) w,
           Ok (inl zip_file))
      end
  end.

(** ** Labeling *)

Inductive response :=
| Success (message : string)
| Failure (error : string).

(** [type_map.get(adc_type, 0)] *)
Definition type_map (adc_type : string) : Z :=
  if String.eqb adc_type "Particle" then 1
  else if String.eqb adc_type "Scratch" then 2
  else if String.eqb adc_type "Stain" then 3
  else if String.eqb adc_type "Pinhole" then 4
  else if String.eqb adc_type "Other" then 5
  else 0.

(** [ALTER TABLE defect_info ADD COLUMN label_count INTEGER DEFAULT 0]:
    the rows already there read the default. *)
Definition add_label_count (t : table) : table :=
  {| columns := columns t ++ ["label_count"];
     rows := (fun r =>
       {| defect_id := defect_id r; center_x := center_x r; center_y := center_y r;
          ai_adc_type := ai_adc_type r; adc_type := adc_type r;
          severity := severity r; comment := comment r;
          label_time := label_time r; label_count := Some 0 |}) <$> rows t |}.

(** [ALTER TABLE defect_info ADD COLUMN c] for a column without default:
    the rows already there read NULL, which they hold already. *)
Definition add_column (c : string) (t : table) : table :=
  {| columns := columns t ++ [c]; rows := rows t |}.

(** The four [if c not in columns: ALTER TABLE ...] of [save_label]; the
    list [columns] was read once, before the first of them. *)
Definition ensure_label_columns (t : table) : table :=
  let cols := columns t in
  let t := if has_column "severity" cols then t else add_column "severity" t in
  let t := if has_column "comment" cols then t else add_column "comment" t in
  let t := if has_column "label_time" cols then t else add_column "label_time" t in
  if has_column "label_count" cols then t else add_label_count t.

(** [UPDATE defect_info SET adc_type = ?, severity = ?, comment = ?,
    label_time = ?, label_count = label_count + 1 WHERE defect_id = ?] *)
Definition update_label (target : string) (adc_type_num : Z)
    (sev com : string) (ts : Z) (t : table) : table :=
  {| columns := columns t;
     rows := (fun r =>
       if String.eqb (defect_id r) target
       then {| defect_id := defect_id r; center_x := center_x r;
               center_y := center_y r; ai_adc_type := ai_adc_type r;
               adc_type := Some adc_type_num; severity := Some sev;
               comment := Some com; label_time := Some ts;
               label_count := Z.succ <$> label_count r |}
       else r) <$> rows t |}.

(** The block of [save_label] that writes the label: nothing is written when
    [defect_index] is outside [0 <= defect_index < len(defect_ids)]. *)
Definition write_label (folder_path : string) (defect_index : Z)
    (adc_type_num : Z) (sev com : string) (t : table) (w : world) : world :=
  let defect_ids := select_defect_id t in
  if (0 <=? defect_index) && (defect_index <? Z.of_nat (length defect_ids))
  then
    match defect_ids !! Z.to_nat defect_index with
    | Some target_defect_id =>
        let t := ensure_label_columns t in
        let '(ts, w) := now w in
        set_fs (write_inner_db folder_path
                  (Some (update_label target_defect_id adc_type_num sev com ts t))
                  (fs w)) w
    | None => w
    end
  else w.

(** [WebInterface.save_label] *)
Definition save_label (wafer_id : string) (defect_index : Z) (adc_type : string)
    (severity comment : option string) (w : world) : world * response :=
  let severity := default "" severity in
  let comment := default "" comment in
  match index w !! wafer_id with
  | None => (w, Failure "晶圆不存在")
  | Some r =>
      let folder_path := folder_path r in
      let adc_type_num := type_map adc_type in
      match connect_inner folder_path (fs w) with
      | Raise e => (w, Failure (str_exc e))
      | Ok (f, None) => (set_fs f w, Failure "no such table: defect_info")
      | Ok (f, Some t) =>
          let w := write_label folder_path defect_index adc_type_num
                     severity comment t (set_fs f w) in
          let '(w, _) := sync_wafer_progress wafer_id w in
          (w, Success "标注保存成功")
      end
  end.

(** ** The test-data generator ([generate_test_data.py]) *)

Fixpoint zeros (n : nat) : string :=
  match n with
  | O => ""
  | S n' => String "0" (zeros n')
  end.

(** [f"{n:0{width}d}"] for [0 <= n] *)
Definition zero_padded (width : nat) (n : N) : string :=
  zeros (width - String.length (pretty n)) +:+ pretty n.

(** [f"{wafer_type}-{i:02d}"] *)
Definition generated_wafer_name (wafer_type : string) (i : N) : string :=
  wafer_type +:+ "-" +:+ zero_padded 2 i.

(** [f"DEF_{wafer_type}{i:02d}_{j:03d}"] *)
Definition generated_defect_id (wafer_type : string) (i j : N) : string :=
  "DEF_" +:+ wafer_type +:+ zero_padded 2 i +:+ "_" +:+ zero_padded 3 j.

(** What the three [random.randint] calls of one iteration return. *)
Record draw := {
  draw_x : Z;
  draw_y : Z;
  draw_type : Z
}.

(** [randint(100, 500)], [randint(100, 300)], [randint(1, 5)] *)
Definition possible_draw (d : draw) : Prop :=
  100 ≤ draw_x d ≤ 500 ∧ 100 ≤ draw_y d ≤ 300 ∧ 1 ≤ draw_type d ≤ 5.

(** The lines the loop over [j] writes, from [j] on, one per draw. *)
Fixpoint generated_lines (wafer_type : string) (i j : N) (draws : list draw)
  : string :=
  match draws with
  | [] => ""
  | d :: rest =>
      generated_defect_id wafer_type i j +:+ "," +:+ pretty (draw_x d) +:+ ","
      +:+ pretty (draw_y d) +:+ "," +:+ pretty (draw_type d) +:+ nl
      +:+ generated_lines wafer_type i (N.succ j) rest
  end.

(** The text of [raw_data.txt] of wafer [i]; [defect_count] is the length
    of [draws]. *)
Definition generated_report (wafer_type : string) (i : N) (draws : list draw)
  : string :=
  "defect_id,center_x,center_y,ai_adc_type" +:+ nl
  +:+ generated_lines wafer_type i 1 draws.

(** One iteration of the loop over [i] of [generate_wafer_data]: the folder
    is made if it is missing, both images are saved and the report is
    written; a [database.db] already there is not touched. *)
Definition generate_wafer (base_path wafer_type : string) (i : N)
    (draws : list draw) (f : gmap string folder) : gmap string folder :=
  let wafer_name := generated_wafer_name wafer_type i in
  let wafer_dir := Py.join base_path wafer_name in
  <[wafer_dir := {| raw_data_txt := Some (generated_report wafer_type i draws);
                    bright_field_png := true; dark_field_png := true;
                    database_db := f !! wafer_dir ≫= database_db |}]> f.

Fixpoint generate_loop (base_path wafer_type : string) (i : N)
    (draws : list (list draw)) (f : gmap string folder) : gmap string folder :=
  match draws with
  | [] => f
  | d :: rest =>
      generate_loop base_path wafer_type (N.succ i) rest
        (generate_wafer base_path wafer_type i d f)
  end.

(** [generate_wafer_data(base_path, wafer_prefix, count)]: [count] is the
    length of [draws], which holds the random draws of each wafer. *)
Definition generate_wafer_data (base_path wafer_prefix : string)
    (draws : list (list draw)) (f : gmap string folder) : gmap string folder :=
  generate_loop base_path wafer_prefix 1 draws f.

(** The rows of [defect_info] for the defects the generator wrote. *)
Fixpoint generated_rows (wafer_type : string) (i j : N) (draws : list draw)
  : list defect :=
  match draws with
  | [] => []
  | d :: rest =>
      {| defect_id := generated_defect_id wafer_type i j;
         center_x := draw_x d; center_y := draw_y d;
         ai_adc_type := draw_type d;
         adc_type := None; severity := None; comment := None;
         label_time := None; label_count := None |}
      :: generated_rows wafer_type i (N.succ j) rest
  end.

(** ** Entering the inner layer *)

(** The [except] branch of [enter_inner_layer] *)
Definition enter_failed (wafer_id : string) (e : pyexc) (w : world)
  : world * (bool * string) :=
  let '(t, w) := now w in
  (set_index (update_error wafer_id ("进入内层失败: " +:+ str_exc e) t (index w)) w,
   (false, str_exc e)).

(** [OuterLayerManager.enter_inner_layer]: the pair [(success, message)].
    In the states of [folder] nothing raises once the report was found, so
    the [except] branch is taken on no path below; the code takes it for a
    report that cannot be decoded and for a [database.db] that is not a
    database, with a message that is the text of the exception. *)
Definition enter_inner_layer (wafer_id : string) (w : world)
  : world * (bool * string) :=
  match index w !! wafer_id with
  | None => (w, (false, "晶圆不存在"))
  | Some r =>
      let folder_path := folder_path r in
      if negb (raw_data_exists folder_path (fs w))
      then (w, (false, "原始数据文件不存在"))
      else
        (* the detail store is rebuilt when its file is missing *)
        let rebuilt :=
          if negb (inner_db_exists folder_path (fs w))
          then
            match fs w !! folder_path ≫= raw_data_txt with
            | None => Raise (FileNotFoundError "No such file or directory")
            | Some content =>
                let lines := report_lines content in
                let defect_count :=
                  if Z.of_nat (length lines) >? 0
                  then Z.of_nat (length lines) - 1 else 0 in
                Ok (set_fs (_create_inner_database folder_path defect_count (fs w)) w)
            end
          else Ok w in
        match rebuilt with
        | Raise e => enter_failed wafer_id e w
        | Ok w =>
            match connect_inner folder_path (fs w) with
            | Raise e => enter_failed wafer_id e w
            | Ok (f, None) => (set_fs f w, (false, "内层数据库表结构不完整"))
            | Ok (f, Some t) =>
                if count_all t =? 0
                then (set_fs f w, (false, "内层数据库没有缺陷数据"))
                else (set_fs f w, (true, "成功进入内层标注"))
            end
        end
  end.

(** ** Reading the defects of a wafer *)

(** The Python values [get_wafer_data] compares. *)
Inductive pyval :=
| VNone
| VInt (z : Z)
| VStr (s : string).

(** [bool(v)] *)
Definition truthy (v : pyval) : bool :=
  match v with
  | VNone => false
  | VInt z => negb (z =? 0)
  | VStr s => negb (String.eqb s "")
  end.

(** [a != b]: values of different types are never equal. *)
Definition py_ne (a b : pyval) : bool :=
  match a, b with
  | VNone, VNone => false
  | VInt x, VInt y => negb (x =? y)
  | VStr x, VStr y => negb (String.eqb x y)
  | _, _ => true
  end.

(** [ai_type_map.get(n)] *)
Definition ai_type_map (n : Z) : option string :=
  if n =? 1 then Some "Particle"
  else if n =? 2 then Some "Scratch"
  else if n =? 3 then Some "Stain"
  else if n =? 4 then Some "Pinhole"
  else if n =? 5 then Some "Other"
  else None.

(** The dictionary [get_wafer_data] returns for one row: the keys it sets,
    and the columns of the row it leaves as they are ([defect_id],
    [center_x], [center_y], [label_time]). *)
Record defect_view := {
  view_defect_id : string;
  view_center_x : Z;
  view_center_y : Z;
  view_label_time : option Z;
  view_id : string;
  view_x : Z;
  view_y : Z;
  view_ai_adc_type : string;
  view_adc_type : string;
  view_label_count : option Z;
  view_size : string;
  view_intensity : string;
  view_category : string;
  view_severity : string;
  view_comment : string
}.

(** The body of the loop over the rows.  The key [ai_adc_type] holds the
    name of the predicted class when [adc_type] is compared with it. *)
Definition view_of (cols : list string) (r : defect) : defect_view :=
  let ai_name := default "--" (ai_type_map (ai_adc_type r)) in
  let adc := match adc_type r with Some a => VInt a | None => VNone end in
  {| view_defect_id := defect_id r;
     view_center_x := center_x r;
     view_center_y := center_y r;
     view_label_time := label_time r;
     view_id := defect_id r;
     view_x := center_x r;
     view_y := center_y r;
     view_ai_adc_type := ai_name;
     view_adc_type :=
       if truthy adc && py_ne adc (VStr ai_name)
       then default "" (ai_type_map (default 0 (adc_type r)))
       else "";
     view_label_count :=
       if has_column "label_count" cols then label_count r else Some 0;
     view_size := "--";
     view_intensity := "--";
     view_category := "--";
     view_severity := "";
     view_comment := "" |}.

Inductive wafer_data :=
| WaferData (data : list defect_view) (wafer_name folder_path : string)
    (progress label_status : Z)
| WaferDataError (error : string).

(** [WebInterface.get_wafer_data] *)
Definition get_wafer_data (wafer_id : string) (w : world) : world * wafer_data :=
  match index w !! wafer_id with
  | None => (w, WaferDataError "晶圆不存在")
  | Some r =>
      match connect_inner (folder_path r) (fs w) with
      | Raise e => (w, WaferDataError (str_exc e))
      | Ok (f, None) => (set_fs f w, WaferDataError "no such table: defect_info")
      | Ok (f, Some t) =>
          (set_fs f w,
           WaferData (view_of (columns t) <$> rows t)
             (wafer_name r) (folder_path r) 0 1)
      end
  end.

(** ** Derived definitions used to state the properties *)

(** [x] occurs in [data] and no later element of [data] has its id. *)
Definition last_with_id (data : list defect) (x : defect) : Prop :=
  ∃ l1 l2, data = l1 ++ x :: l2 ∧ ∀ r', r' ∈ l2 → defect_id r' ≠ defect_id x.

(** A row as the report parser inserts it: no classification, no label. *)
Definition unlabeled (r : defect) : Prop :=
  adc_type r = None ∧ severity r = None ∧ comment r = None
  ∧ label_time r = None ∧ label_count r = None.

(** The table [_create_inner_database] leaves on disk, if any, as a function
    of the report it read. *)
Definition built_table (raw : option string) : option table :=
  content ← raw;
  match report_lines content with
  | [] => None
  | lines =>
      let data := insert_data lines in
      if forallb bindable data then
        match executemany_insert data [] with
        | [] => None
        | rs => Some {| columns := base_columns; rows := rs |}
        end
      else None
  end.
Global Arguments built_table : simpl never.

(** The file system after the rebuild of [_sync_progress]. *)
Definition rebuild (folder_path : string) (f : gmap string folder)
  : gmap string folder :=
  match f !! folder_path with
  | Some d =>
      <[folder_path := set_database (Some <$> built_table (raw_data_txt d)) d]> f
  | None => f
  end.

(** The success exit of [_sync_progress] for the rebuilt table [t]. *)
Definition mark_synced (wafer_id : string) (t : table) (w : world) : world :=
  let '(ts, w) := now w in
  set_index (update_progress wafer_id (count_all t) 0 (PyFloat (S754_zero false)) 0
               ts (index w)) w.

(** The four derived fields of a row of [wafer_metadata]. *)
Definition summary (r : wafer_metadata) : Z * Z * spec_float * Z :=
  (total_defects r, labeled_defects r, progress r, label_status r).

(** The report of a folder, if it has one. *)
Definition report (folder_path : string) (f : gmap string folder) : option string :=
  f !! folder_path ≫= raw_data_txt.

(** The detail-store file of a folder, if it has one. *)
Definition store (folder_path : string) (f : gmap string folder)
  : option (option table) :=
  f !! folder_path ≫= database_db.

(** The row [_sync_progress] leaves for a report [raw], from the row [r] it
    found, stamped [ts]. *)
Definition synced_row (raw : option string) (ts : Z) (r : wafer_metadata)
  : wafer_metadata :=
  match built_table raw with
  | Some t =>
      {| wafer_name := wafer_name r; folder_path := folder_path r;
         total_defects := count_all t; labeled_defects := 0;
         progress := S754_zero false; label_status := 0;
         parsed_status := 1; parse_error := None;
         last_operated := ts; create_time := create_time r |}
  | None =>
      {| wafer_name := wafer_name r; folder_path := folder_path r;
         total_defects := total_defects r; labeled_defects := labeled_defects r;
         progress := progress r; label_status := label_status r;
         parsed_status := 2;
         parse_error := Some
           (match raw with
            | None => "raw_data.txt文件不存在"
            | Some content =>
                match report_lines content with
                | [] => "raw_data.txt文件为空或格式不正确"
                | _ => "内层数据库创建失败"
                end
            end);
         last_operated := ts; create_time := create_time r |}
  end.

(** The row the [except] branch of [load_wafer_folders] inserts. *)
Definition error_row (name path msg : string) (t ts : Z) : wafer_metadata :=
  {| wafer_name := name; folder_path := path;
     total_defects := 0; labeled_defects := 0;
     progress := S754_zero false; label_status := 0;
     parsed_status := 2; parse_error := Some msg;
     last_operated := t; create_time := ts |}.

(** What lines 536-547 of [_sync_progress] compute from the two counts:
    0 not started, 1 in progress, 2 complete. *)
Definition label_status_of (labeled_defects total_defects : Z) : result Z :=
  p ← compute_progress labeled_defects total_defects;
  Ok (derive_label_status p labeled_defects).

(** The rule of the specification: complete iff labeled = total > 0,
    in progress iff 0 < labeled < total, not started iff labeled = 0. *)
Definition status_rule (labeled total : Z) : Z :=
  if (labeled =? total) && (0 <? total) then 2
  else if 0 <? labeled then 1
  else 0.

(** The code agrees with the rule on every pair [labeled <= total <= bound]. *)
Definition status_agrees_upto (bound : nat) : bool :=
  forallb (fun total =>
    forallb (fun labeled =>
      match label_status_of (Z.of_nat labeled) (Z.of_nat total) with
      | Ok s => s =? status_rule (Z.of_nat labeled) (Z.of_nat total)
      | Raise _ => false
      end) (seq 0 (S total))) (seq 0 (S bound)).

(** The row [reset_wafer_status] leaves: [parsed_status] 0, no
    [parse_error], stamped [ts]. *)
Definition reset_row (ts : Z) (r : wafer_metadata) : wafer_metadata :=
  {| wafer_name := wafer_name r; folder_path := folder_path r;
     total_defects := total_defects r; labeled_defects := labeled_defects r;
     progress := progress r; label_status := label_status r;
     parsed_status := 0; parse_error := None;
     last_operated := ts; create_time := create_time r |}.

Definition report_header : string := "defect_id,center_x,center_y,ai_adc_type".

(** A report of a header and five well-formed lines. *)
Definition report5 : string :=
  report_header +:+ nl
  +:+ "D1,100,200,1" +:+ nl +:+ "D2,110,210,2" +:+ nl +:+ "D3,120,220,3" +:+ nl
  +:+ "D4,130,230,4" +:+ nl +:+ "D5,140,240,5" +:+ nl.

(** A report of a header, three well-formed lines and the malformed [X,1,2]. *)
Definition report3_malformed : string :=
  report_header +:+ nl
  +:+ "D1,100,200,1" +:+ nl +:+ "D2,110,210,2" +:+ nl +:+ "D3,120,220,3" +:+ nl
  +:+ "X,1,2" +:+ nl.


(** A report whose second row holds a number SQLite cannot bind. *)
Definition report_overflow : string :=
  report_header +:+ nl +:+ "D1,100,200,1" +:+ nl
  +:+ "D2,9223372036854775808,240,5" +:+ nl.

(** A folder with its report and both images, not yet ingested. *)
Definition unit_folder (content : string) : folder :=
  {| raw_data_txt := Some content; bright_field_png := true;
     dark_field_png := true; database_db := None |}.

(** An empty index and the single folder [/data/W01]. *)
Definition fresh_world (content : string) : world :=
  {| index := ∅; fs := {[ "/data/W01" := unit_folder content ]};
     scratch := ∅; next_tmp := 0; clock := 0 |}.

(** The unit [w01] of folder [/data/W01] as a reconciliation at time 3 left
    it, at time 7. *)
Definition synced_world : world :=
  {| index := {[ "w01" := {| wafer_name := "W01"; folder_path := "/data/W01";
                             total_defects := 5; labeled_defects := 0;
                             progress := S754_zero false; label_status := 0;
                             parsed_status := 1; parse_error := None;
                             last_operated := 3; create_time := 2 |} ]};
     fs := rebuild "/data/W01" {[ "/data/W01" := unit_folder report5 ]};
     scratch := ∅; next_tmp := 0; clock := 7 |}.

Definition sample_row (id : string) (ai : Z) (adc : option Z) : defect :=
  {| defect_id := id; center_x := 100; center_y := 200; ai_adc_type := ai;
     adc_type := adc; severity := None; comment := None;
     label_time := None; label_count := None |}.

(** A detail store with one row reclassified (D1), one confirmed as
    predicted (D2) and one not labeled (D3). *)
Definition reviewed_table : table :=
  {| columns := base_columns;
     rows := [sample_row "D1" 1 (Some 2); sample_row "D2" 2 (Some 2);
              sample_row "D3" 3 None] |}.

(** The unit [w01] with that store and [label_status] 1, and the unit [w02]
    of folder [/data/W02] that has no detail store. *)
Definition reviewed_world : world :=
  {| index :=
       {[ "w01" := {| wafer_name := "W01"; folder_path := "/data/W01";
                      total_defects := 3; labeled_defects := 2;
                      progress := S754_zero false; label_status := 1;
                      parsed_status := 1; parse_error := None;
                      last_operated := 3; create_time := 2 |};
          "w02" := {| wafer_name := "W02"; folder_path := "/data/W02";
                      total_defects := 0; labeled_defects := 0;
                      progress := S754_zero false; label_status := 0;
                      parsed_status := 0; parse_error := None;
                      last_operated := 3; create_time := 2 |} ]};
     fs := {[ "/data/W01" := set_database (Some (Some reviewed_table))
                               (unit_folder report5);
              "/data/W02" := unit_folder report5 ]};
     scratch := ∅; next_tmp := 0; clock := 7 |}.

(** Both units ingested and reconciled, each with its detail store. *)
Definition two_unit_world : world :=
  {| index :=
       {[ "w01" := {| wafer_name := "W01"; folder_path := "/data/W01";
                      total_defects := 3; labeled_defects := 2;
                      progress := S754_zero false; label_status := 1;
                      parsed_status := 1; parse_error := None;
                      last_operated := 3; create_time := 2 |};
          "w02" := {| wafer_name := "W02"; folder_path := "/data/W02";
                      total_defects := 5; labeled_defects := 0;
                      progress := S754_zero false; label_status := 0;
                      parsed_status := 1; parse_error := None;
                      last_operated := 3; create_time := 2 |} ]};
     fs := {[ "/data/W01" := set_database (Some (Some reviewed_table))
                               (unit_folder report5);
              "/data/W02" := set_database (Some (built_table (Some report5)))
                               (unit_folder report5) ]};
     scratch := ∅; next_tmp := 0; clock := 7 |}.

(** Two units whose folders have the same name, [W01], in two lots. *)
Definition same_name_world : world :=
  {| index :=
       {[ "w01" := {| wafer_name := "W01"; folder_path := "/data/lot1/W01";
                      total_defects := 3; labeled_defects := 2;
                      progress := S754_zero false; label_status := 2;
                      parsed_status := 1; parse_error := None;
                      last_operated := 3; create_time := 2 |};
          "w02" := {| wafer_name := "W01"; folder_path := "/data/lot2/W01";
                      total_defects := 1; labeled_defects := 1;
                      progress := S754_zero false; label_status := 2;
                      parsed_status := 1; parse_error := None;
                      last_operated := 3; create_time := 2 |} ]};
     fs := {[ "/data/lot1/W01" := set_database (Some (Some reviewed_table))
                                    (unit_folder report5);
              "/data/lot2/W01" :=
                set_database
                  (Some (Some {| columns := base_columns;
                                 rows := [sample_row "E1" 4 (Some 5)] |}))
                  (unit_folder report5) ]};
     scratch := ∅; next_tmp := 0; clock := 7 |}.

(** The export of [wafer_id] returns a file: the unit is indexed and its
    detail store holds the table. *)
Definition exportable (w : world) (wafer_id : string) : Prop :=
  ∃ r t, index w !! wafer_id = Some r
         ∧ store (folder_path r) (fs w) = Some (Some t).

(** The export of [wafer_id] raises: the unit is indexed and its detail
    store file holds no table [defect_info]. *)
Definition export_raises (w : world) (wafer_id : string) : Prop :=
  ∃ r, index w !! wafer_id = Some r
       ∧ store (folder_path r) (fs w) = Some None.

(** ** Derived definitions on strings *)

(** Every character of [s] satisfies [p]. *)
Fixpoint all_chars (p : ascii → bool) (s : string) : bool :=
  match s with
  | EmptyString => true
  | String c s' => p c && all_chars p s'
  end.

(** A character that is not whitespace for [str.strip]. *)
Definition not_space (c : ascii) : bool := negb (Py.isspace c).

(** A character of a report field: neither whitespace nor the comma. *)
Definition field_char (c : ascii) : bool :=
  negb (Py.isspace c) && negb (Ascii.eqb c ",").

(** A report of ASCII text: every byte is below 128, so that reading the
    file as text gives these bytes, whatever the encoding of the locale. *)
Definition ascii_text (content : string) : bool :=
  all_chars (fun c => (N_of_ascii c <? 128)%N) content.

(** A report on which [Py.strip] and [Py.int] are Python's: ASCII text
    whose lines, as the parser keeps them, have at most 4300 characters, the
    number of digits [int] converts. *)
Definition plain_report (content : string) : bool :=
  ascii_text content
  && forallb (fun l => (String.length l <=? 4300)%nat) (report_lines content).

(** A character inside a line: neither LF nor CR. *)
Definition line_char (c : ascii) : bool :=
  negb (Ascii.eqb c Py.newline) && negb (Ascii.eqb c "013").

(** The text of a report from its lines, each ended by LF or, where the
    flag is set, by CR LF. *)
Fixpoint text_of_lines (ls : list (string * bool)) : string :=
  match ls with
  | [] => ""
  | (l, crlf) :: ls' =>
      l +:+ (if crlf : bool then String "013" nl else nl) +:+ text_of_lines ls'
  end.

(** A decimal digit. *)
Definition is_digit (c : ascii) : bool := bool_decide (is_Some (Py.digit c)).

(** The row a labeling call leaves at the selected position, from the row
    [r] it found there (after the missing columns were added). *)
Definition labeled_row (adc_type_num : Z) (sev com : string) (ts : Z)
    (r : defect) : defect :=
  {| defect_id := defect_id r; center_x := center_x r; center_y := center_y r;
     ai_adc_type := ai_adc_type r;
     adc_type := Some adc_type_num; severity := Some sev; comment := Some com;
     label_time := Some ts; label_count := Z.succ <$> label_count r |}.

(** Every row of the index [i] is still in [i'], under the same id, with
    the same name, folder path and creation time. *)
Definition index_extends (i i' : gmap string wafer_metadata) : Prop :=
  ∀ id r, i !! id = Some r →
    ∃ r', i' !! id = Some r' ∧ wafer_name r' = wafer_name r
          ∧ folder_path r' = folder_path r ∧ create_time r' = create_time r.

(** A character of a file name: not the slash. *)
Definition no_slash (c : ascii) : bool := negb (Ascii.eqb c "/").

(** [exportable] as a test on the index and the folders. *)
Definition exportableb (w : world) (wafer_id : string) : bool :=
  match index w !! wafer_id with
  | Some r =>
      match store (folder_path r) (fs w) with
      | Some (Some _) => true
      | _ => false
      end
  | None => false
  end.

(** The name of the export file of a unit: [f"{wafer_name}_defects.kfl"] *)
Definition export_name (w : world) (wafer_id : string) : string :=
  from_option wafer_name "" (index w !! wafer_id) +:+ "_defects.kfl".

(** * Properties *)

(** ** The Python primitives on samples *)

Example strip_line : Py.strip (" D1,1,2,3 " +:+ String Py.newline "") = "D1,1,2,3".
Proof. reflexivity. Qed.

Example split_malformed : Py.split ","%char "X,1,2" = ["X"; "1"; "2"].
Proof. reflexivity. Qed.

Example int_samples :
  (Py.int "42", Py.int "-7", Py.int "+1_000", Py.int "", Py.int "4a", Py.int "1__0")
  = (Some 42, Some (-7), Some 1000, None, None, None).
Proof. reflexivity. Qed.

Example readlines_sample :
  Py.readlines ("a" +:+ String Py.newline "b") = ["a" +:+ String Py.newline ""; "b"].
Proof. reflexivity. Qed.

Example basename_sample : Py.basename "/data/lot1/W01" = "W01".
Proof. reflexivity. Qed.

Example percent_1_5 : percent 1 5 = Ok (F64.of_Z 20).
Proof. reflexivity. Qed.

Example round_one_eighth :
  F64.round (F64.div_pos false 1 8) 2 = F64.div_pos false 12 100.
Proof. reflexivity. Qed.

Example round_2_675 :
  F64.round (F64.div_pos false 2675 1000) 2 = F64.div_pos false 267 100.
Proof. reflexivity. Qed.

(** ** INSERT OR REPLACE keeps one row per [defect_id]: the last one *)

Section InsertOrReplace.

Implicit Types (r x : defect) (rs data : list defect).

Lemma elem_of_insert_or_replace r x rs :
  x ∈ insert_or_replace r rs ↔ (x ∈ rs ∧ defect_id x ≠ defect_id r) ∨ x = r.
Proof.
  unfold insert_or_replace.
  rewrite elem_of_app, list_elem_of_filter, list_elem_of_singleton.
  tauto.
Qed.

Lemma insert_or_replace_NoDup r rs :
  NoDup (defect_id <$> rs) → NoDup (defect_id <$> insert_or_replace r rs).
Proof.
  intros Hnd. unfold insert_or_replace. rewrite fmap_app. simpl.
  apply NoDup_app. split; [| split].
  - induction rs as [| a rs IH]; simpl; [constructor |].
    apply NoDup_cons in Hnd as [Ha Hnd].
    rewrite filter_cons. destruct (decide _); [| auto].
    simpl. apply NoDup_cons. split; [| auto].
    intros Hin. apply Ha.
    apply list_elem_of_fmap in Hin as (y & -> & Hy).
    apply list_elem_of_filter in Hy as [_ Hy].
    apply list_elem_of_fmap. eauto.
  - intros i Hi ->%list_elem_of_singleton.
    apply list_elem_of_fmap in Hi as (y & Hy1 & Hy2).
    apply list_elem_of_filter in Hy2 as [Hne _]. congruence.
  - apply NoDup_singleton.
Qed.

Lemma executemany_insert_NoDup data rs :
  NoDup (defect_id <$> rs) → NoDup (defect_id <$> executemany_insert data rs).
Proof.
  revert rs. induction data as [| r data IH]; intros rs Hnd; simpl; [done |].
  apply IH, insert_or_replace_NoDup, Hnd.
Qed.

Lemma last_with_id_nil x : ¬ last_with_id [] x.
Proof. intros (l1 & l2 & H & _). by destruct l1. Qed.

Lemma last_with_id_cons r data x :
  last_with_id (r :: data) x ↔
  (x = r ∧ ∀ r', r' ∈ data → defect_id r' ≠ defect_id r) ∨ last_with_id data x.
Proof.
  split.
  - intros (l1 & l2 & Heq & Hl2). destruct l1 as [| a l1]; simplify_eq/=.
    + left. done.
    + right. by exists l1, l2.
  - intros [[-> H] | (l1 & l2 & -> & Hl2)].
    + by exists [], data.
    + by exists (r :: l1), l2.
Qed.

Lemma last_with_id_elem_of data x : last_with_id data x → x ∈ data.
Proof. intros (l1 & l2 & -> & _). set_solver. Qed.

Lemma elem_of_executemany_insert data rs x :
  x ∈ executemany_insert data rs ↔
  last_with_id data x ∨ (x ∈ rs ∧ ∀ r', r' ∈ data → defect_id r' ≠ defect_id x).
Proof.
  revert rs. induction data as [| r data IH]; intros rs; simpl.
  - split.
    + intros Hx. right. split; [done |]. intros r' Hr'. by apply elem_of_nil in Hr'.
    + intros [H%last_with_id_nil | [H _]]; done.
  - rewrite IH, last_with_id_cons, elem_of_insert_or_replace. split.
    + intros [H | [[[Hx Hne] | ->] Hall]].
      * left. by right.
      * right. split; [done |]. intros r' [-> | Hr']%elem_of_cons; auto.
      * left. left. split; [done |]. done.
    + intros [[[-> Hall] | H] | [Hx Hall]].
      * right. split; [by right | done].
      * by left.
      * right. split.
        -- left. split; [done |]. intros Heq. eapply (Hall r); [left | done].
        -- intros r' Hr'. apply Hall. by right.
Qed.

Lemma executemany_insert_nil_inv data :
  executemany_insert data [] = [] → data = [].
Proof.
  intros Hnil. destruct data as [| r data] using rev_ind; [done |].
  exfalso.
  assert (r ∈ executemany_insert (data ++ [r]) []) as Hin.
  { apply elem_of_executemany_insert. left. exists data, [].
    split; [done |]. intros r' Hr'. by apply elem_of_nil in Hr'. }
  rewrite Hnil in Hin. by apply elem_of_nil in Hin.
Qed.

End InsertOrReplace.

(** ** The detail store after [_create_inner_database] *)

Section FileSystem.

Implicit Types (f g : gmap string folder) (p q : string) (d : folder).

Lemma remove_inner_db_insert p d g :
  remove_inner_db p (<[p := d]> g) = <[p := set_database None d]> g.
Proof.
  unfold remove_inner_db. rewrite lookup_insert_eq. apply insert_insert_eq.
Qed.

Lemma write_inner_db_insert p t d g :
  write_inner_db p t (<[p := d]> g) = <[p := set_database (Some t) d]> g.
Proof.
  unfold write_inner_db. rewrite lookup_insert_eq. apply insert_insert_eq.
Qed.

Lemma inner_db_exists_insert p d g :
  inner_db_exists p (<[p := d]> g) = bool_decide (is_Some (database_db d)).
Proof. unfold inner_db_exists. by rewrite lookup_insert_eq. Qed.

Lemma raw_data_exists_insert p d g :
  raw_data_exists p (<[p := d]> g) = bool_decide (is_Some (raw_data_txt d)).
Proof. unfold raw_data_exists. by rewrite lookup_insert_eq. Qed.

Lemma import_raw_data_insert p d g :
  import_raw_data p (<[p := d]> g) =
  match raw_data_txt d with
  | None => Raise (FileNotFoundError "No such file or directory")
  | Some content =>
      match report_lines content with
      | [] => Ok None
      | lines =>
          if forallb bindable (insert_data lines)
          then Ok (Some (executemany_insert (insert_data lines) []))
          else Raise (OverflowError "Python int too large to convert to SQLite INTEGER")
      end
  end.
Proof.
  unfold import_raw_data. rewrite lookup_insert_eq. simpl.
  destruct (raw_data_txt d); [| done]. by destruct (report_lines _).
Qed.

Lemma set_database_set_database x y d :
  set_database x (set_database y d) = set_database x d.
Proof. done. Qed.

Lemma create_inner_database_insert p n d g :
  _create_inner_database p n (<[p := d]> g) =
  <[p := set_database (Some <$> built_table (raw_data_txt d)) d]> g.
Proof.
  unfold _create_inner_database. rewrite lookup_insert_eq.
  assert (∀ h, (if inner_db_exists p (<[p := d]> g)
                then remove_inner_db p (<[p := d]> g) else <[p := d]> g) = h →
               ∃ d', h = <[p := d']> g ∧ raw_data_txt d' = raw_data_txt d
                     ∧ ∀ x, set_database x d' = set_database x d) as Hstep.
  { intros h <-. rewrite inner_db_exists_insert, remove_inner_db_insert.
    destruct (bool_decide _); eauto. }
  destruct (Hstep _ eq_refl) as (d' & -> & Hraw & Hset). clear Hstep.
  rewrite write_inner_db_insert, import_raw_data_insert. simpl.
  rewrite Hset. unfold built_table. rewrite <- Hraw. clear Hraw.
  destruct (raw_data_txt d') as [content |]; simpl.
  - destruct (report_lines content) as [| l ls] eqn:Hl; simpl.
    + by rewrite inner_db_exists_insert, remove_inner_db_insert.
    + destruct (forallb bindable _); simpl.
      * rewrite write_inner_db_insert. simpl.
        destruct (executemany_insert _ _) as [| r rs]; simpl.
        -- by rewrite inner_db_exists_insert, remove_inner_db_insert.
        -- unfold count_all. simpl.
           done.
      * by rewrite inner_db_exists_insert, remove_inner_db_insert.
  - by rewrite inner_db_exists_insert, remove_inner_db_insert.
Qed.

Lemma create_inner_database_eq p n f :
  _create_inner_database p n f =
  <[p := set_database
           (Some <$> built_table (raw_data_txt (default empty_folder (f !! p))))
           (default empty_folder (f !! p))]> f.
Proof.
  destruct (f !! p) as [d |] eqn:Hp; simpl.
  - rewrite <- (insert_id f p d Hp) at 1.
    by rewrite create_inner_database_insert.
  - transitivity (_create_inner_database p n (<[p := empty_folder]> f)).
    + unfold _create_inner_database. by rewrite Hp, lookup_insert_eq.
    + by rewrite create_inner_database_insert.
Qed.

End FileSystem.

(** ** A rebuilt table holds no label *)

Section Rebuilt.

Implicit Types (t : table) (r : defect).

Lemma parse_line_unlabeled line r : parse_line line = Some r → unlabeled r.
Proof.
  unfold parse_line. intros H.
  destruct (Py.split _ _) as [| p0 [| p1 [| p2 [| p3 ps]]]]; try done.
  destruct (String.eqb _ _); [done |].
  destruct (Py.int (Py.strip p1)); [| done].
  destruct (Py.int (Py.strip p2)); [| done].
  destruct (Py.int (Py.strip p3)); [| done].
  simpl in H. by simplify_eq.
Qed.

Lemma insert_data_unlabeled lines r : r ∈ insert_data lines → unlabeled r.
Proof.
  unfold insert_data. intros (line & _ & H)%list_elem_of_omap.
  eauto using parse_line_unlabeled.
Qed.

Lemma built_table_Some raw t :
  built_table raw = Some t →
  ∃ content,
    raw = Some content ∧
    report_lines content ≠ [] ∧
    forallb bindable (insert_data (report_lines content)) = true ∧
    columns t = base_columns ∧
    rows t = executemany_insert (insert_data (report_lines content)) [] ∧
    rows t ≠ [].
Proof.
  unfold built_table. destruct raw as [content |]; [| done]. simpl.
  destruct (report_lines content) as [| l ls] eqn:Hl; [done |].
  destruct (forallb bindable _) eqn:Hb; [| done].
  destruct (executemany_insert _ _) as [| r rs] eqn:He; [done |].
  intros [= <-]. exists content. simpl. by rewrite Hl, He.
Qed.

Lemma built_table_unlabeled raw t r :
  built_table raw = Some t → r ∈ rows t → unlabeled r.
Proof.
  intros (content & _ & _ & _ & _ & Hrows & _)%built_table_Some Hr.
  rewrite Hrows in Hr.
  apply elem_of_executemany_insert in Hr as [H%last_with_id_elem_of | [H _]].
  - eauto using insert_data_unlabeled.
  - by apply elem_of_nil in H.
Qed.

Lemma built_table_count_all raw t : built_table raw = Some t → 0 < count_all t.
Proof.
  intros (_ & _ & _ & _ & _ & _ & Hne)%built_table_Some.
  unfold count_all. destruct (rows t); [done | simpl; lia].
Qed.

Lemma count_where_none (p : defect → bool) t :
  (∀ r, r ∈ rows t → p r = false) → count_where p t = 0.
Proof.
  intros H. unfold count_where.
  destruct (filter _ (rows t)) as [| x l] eqn:Hf; [done |].
  assert (x ∈ filter (fun r => p r = true) (rows t)) as Hx by (rewrite Hf; left).
  apply list_elem_of_filter in Hx as [Hp Hx]. by rewrite (H x Hx) in Hp.
Qed.

Lemma built_table_count_labeled raw t :
  built_table raw = Some t → count_labeled t = 0.
Proof.
  intros Hb. pose proof (built_table_Some _ _ Hb) as (_ & _ & _ & _ & Hc & _ & _).
  unfold count_labeled. rewrite Hc. simpl.
  apply count_where_none. intros r Hr.
  destruct (built_table_unlabeled _ _ _ Hb Hr) as (Ha & _).
  unfold type_differs. by rewrite Ha.
Qed.

Lemma compute_progress_zero total :
  compute_progress 0 total =
  Ok (if total >? 0 then PyFloat (S754_zero false) else PyInt 0).
Proof.
  unfold compute_progress, percent, F64.truediv.
  destruct (total >? 0) eqn:Ht; [| done].
  assert ((total =? 0) = false) as -> by lia.
  assert ((total <? 0) = false) as -> by lia.
  reflexivity.
Qed.

End Rebuilt.

(** ** What reconciliation does, as a function of the report *)

Section Reconcile.

Implicit Types (w : world) (f : gmap string folder).

Lemma set_database_None_id (d : folder) :
  database_db d = None → set_database None d = d.
Proof. destruct d. simpl. by intros ->. Qed.

Lemma sync_progress_eq wafer_id folder_path w :
  _sync_progress wafer_id folder_path w =
  match fs w !! folder_path ≫= raw_data_txt with
  | None => mark_error wafer_id "raw_data.txt文件不存在" w
  | Some content =>
      let w1 := set_fs (rebuild folder_path (fs w)) w in
      match report_lines content, built_table (Some content) with
      | [], _ => mark_error wafer_id "raw_data.txt文件为空或格式不正确" w1
      | _, None => mark_error wafer_id "内层数据库创建失败" w1
      | _, Some t => mark_synced wafer_id t w1
      end
  end.
Proof.
  unfold _sync_progress, raw_data_exists, rebuild.
  destruct (fs w !! folder_path) as [d |] eqn:Hd; simpl; [| done].
  destruct (raw_data_txt d) as [content |] eqn:Hraw; simpl; [| done].
  assert (∃ d', (if inner_db_exists folder_path (fs w)
                 then set_fs (remove_inner_db folder_path (fs w)) w else w)
                = set_fs (<[folder_path := d']> (fs w)) w
                ∧ raw_data_txt d' = Some content
                ∧ database_db d' = None
                ∧ ∀ x, set_database x d' = set_database x d) as (d' & -> & Hraw' & Hdb' & Hset).
  { unfold inner_db_exists, remove_inner_db. rewrite Hd.
    destruct (database_db d) as [x |] eqn:Hdb.
    - exists (set_database None d). done.
    - exists d. simpl. rewrite insert_id by done. by destruct w. }
  simpl. rewrite lookup_insert_eq. simpl. rewrite Hraw'. simpl.
  remember (built_table (Some content)) as bt eqn:Hb. symmetry in Hb.
  destruct (report_lines content) as [| l ls] eqn:Hl; simpl.
  { assert (bt = None) as ->.
    { subst bt. unfold built_table. simpl. by rewrite Hl. }
    simpl. rewrite <- (Hset None), set_database_None_id by done. done. }
  rewrite create_inner_database_insert, inner_db_exists_insert, Hraw', Hset, Hb.
  assert ((Z.of_nat (S (length ls)) <? 1) = false) as -> by (apply Z.ltb_ge; lia).
  destruct bt as [t |]; simpl.
  - unfold connect_inner. rewrite lookup_insert_eq. simpl.
    pose proof (built_table_count_all _ _ Hb) as Hpos.
    assert ((count_all t =? 0) = false) as -> by lia. simpl.
    rewrite (built_table_count_labeled _ _ Hb), compute_progress_zero.
    assert ((count_all t >? 0) = true) as -> by lia. simpl.
    reflexivity.
  - reflexivity.
Qed.

End Reconcile.

(** ** The index row after reconciliation *)

Section ReconcileIndex.

Implicit Types (w : world) (r : wafer_metadata).

Lemma built_table_nil content :
  report_lines content = [] → built_table (Some content) = None.
Proof. intros H. unfold built_table. simpl. by rewrite H. Qed.

Lemma sync_progress_index wafer_id folder_path w :
  index (_sync_progress wafer_id folder_path w) =
  alter (synced_row (report folder_path (fs w)) (clock w)) wafer_id (index w).
Proof.
  rewrite sync_progress_eq. unfold report, synced_row.
  destruct (fs w !! folder_path ≫= raw_data_txt) as [content |]; [| done].
  simpl. destruct (report_lines content) as [| l ls] eqn:Hl.
  - by rewrite built_table_nil.
  - by destruct (built_table (Some content)).
Qed.

Lemma sync_progress_fs wafer_id folder_path w :
  fs (_sync_progress wafer_id folder_path w) =
  match report folder_path (fs w) with
  | Some _ => rebuild folder_path (fs w)
  | None => fs w
  end.
Proof.
  rewrite sync_progress_eq. unfold report.
  destruct (fs w !! folder_path ≫= raw_data_txt) as [content |]; [| done].
  simpl. destruct (report_lines content); [done |].
  by destruct (built_table (Some content)).
Qed.

Lemma sync_progress_clock wafer_id folder_path w :
  clock (_sync_progress wafer_id folder_path w) = clock w + 1.
Proof.
  rewrite sync_progress_eq.
  destruct (fs w !! folder_path ≫= raw_data_txt) as [content |]; [| done].
  simpl. destruct (report_lines content); [done |].
  by destruct (built_table (Some content)).
Qed.

Lemma report_rebuild p q f : report q (rebuild p f) = report q f.
Proof.
  unfold report, rebuild. destruct (f !! p) as [d |] eqn:Hd; [| done].
  destruct (decide (p = q)) as [-> |].
  - by rewrite lookup_insert_eq, Hd.
  - by rewrite lookup_insert_ne.
Qed.

Lemma store_rebuild p f :
  is_Some (f !! p) → store p (rebuild p f) = Some <$> built_table (report p f).
Proof.
  intros [d Hd]. unfold store, report, rebuild. rewrite Hd.
  rewrite lookup_insert_eq. simpl. by destruct (built_table _).
Qed.

Lemma store_rebuild_ne p q f : p ≠ q → store q (rebuild p f) = store q f.
Proof.
  intros Hne. unfold store, rebuild. destruct (f !! p); [| done].
  by rewrite lookup_insert_ne.
Qed.

Lemma report_sync_progress wafer_id p q w :
  report q (fs (_sync_progress wafer_id p w)) = report q (fs w).
Proof.
  rewrite sync_progress_fs. destruct (report p (fs w)); [| done].
  apply report_rebuild.
Qed.

Lemma summary_synced_row raw ts r :
  summary (synced_row raw ts r) =
  match built_table raw with
  | Some t => (count_all t, 0, S754_zero false, 0)
  | None => summary r
  end.
Proof. unfold synced_row. by destruct (built_table raw). Qed.

Lemma folder_path_synced_row raw ts r :
  folder_path (synced_row raw ts r) = folder_path r.
Proof. unfold synced_row. by destruct (built_table raw). Qed.

Lemma parsed_status_synced_row raw ts r :
  parsed_status (synced_row raw ts r) = 1 ↔ is_Some (built_table raw).
Proof.
  unfold synced_row. destruct (built_table raw); simpl.
  - split; eauto.
  - split; [done | by intros [? ?]].
Qed.

End ReconcileIndex.

(** ** Reconciling twice *)

Section Idempotence.

Implicit Types (w : world) (r : wafer_metadata).

Lemma sync_wafer_progress_lookup wafer_id w r :
  index w !! wafer_id = Some r →
  index (sync_wafer_progress wafer_id w).1 !! wafer_id =
  Some (synced_row (report (folder_path r) (fs w)) (clock w) r).
Proof.
  intros Hr. unfold sync_wafer_progress. rewrite Hr. simpl.
  rewrite sync_progress_index, lookup_alter_eq, Hr. done.
Qed.

Lemma sync_wafer_progress_missing wafer_id w :
  index w !! wafer_id = None → sync_wafer_progress wafer_id w = (w, false).
Proof. intros Hr. unfold sync_wafer_progress. by rewrite Hr. Qed.

(** C3. Reconciling a unit twice in a row, with nothing done in between,
    leaves the same (total_defects, labeled_defects, progress, label_status)
    in the index as reconciling it once; a unit without index row has none
    after either. *)
Theorem C3_reconcile_twice_same_summary (wafer_id : string) (w : world) :
  let w1 := (sync_wafer_progress wafer_id w).1 in
  let w2 := (sync_wafer_progress wafer_id w1).1 in
  summary <$> index w2 !! wafer_id = summary <$> index w1 !! wafer_id.
Proof.
  intros w1 w2. destruct (index w !! wafer_id) as [r |] eqn:Hr.
  - pose proof (sync_wafer_progress_lookup _ _ _ Hr) as H1. fold w1 in H1.
    pose proof (sync_wafer_progress_lookup _ _ _ H1) as H2. fold w2 in H2.
    rewrite H1, H2. simpl. f_equal.
    rewrite folder_path_synced_row.
    assert (report (folder_path r) (fs w1) = report (folder_path r) (fs w)) as ->.
    { unfold w1, sync_wafer_progress. rewrite Hr. simpl.
      apply report_sync_progress. }
    rewrite !summary_synced_row.
    by destruct (built_table (report (folder_path r) (fs w))).
  - assert (w1 = w) as Hw1.
    { unfold w1. by rewrite sync_wafer_progress_missing. }
    unfold w2. by rewrite Hw1, sync_wafer_progress_missing.
Qed.

End Idempotence.

(** ** The progress value *)

Section Progress.

Lemma truediv_no_zero_division a b msg :
  b ≠ 0 → F64.truediv a b ≠ Raise (ZeroDivisionError msg).
Proof.
  intros Hb. unfold F64.truediv.
  assert ((b =? 0) = false) as -> by lia.
  destruct (a =? 0); [done |].
  by destruct (F64.div_pos _ _ _).
Qed.

Lemma compute_progress_positive labeled total :
  0 < total →
  compute_progress labeled total =
  q ← F64.truediv labeled total;
  Ok (PyFloat (F64.round (F64.mul q (F64.of_Z 100)) 2)).
Proof.
  intros Ht. unfold compute_progress, percent.
  assert ((total >? 0) = true) as -> by lia.
  by destruct (F64.truediv labeled total).
Qed.

Lemma compute_progress_nonpositive labeled total :
  total ≤ 0 → compute_progress labeled total = Ok (PyInt 0).
Proof.
  intros Ht. unfold compute_progress.
  by assert ((total >? 0) = false) as -> by lia.
Qed.

(** C5. The progress that reconciliation computes from (labeled, total) is
    round(labeled / total * 100, 2) when total > 0 and the integer 0 when
    total is 0, and the division never faults on a zero divisor; the row a
    successful reconciliation writes (parsed_status 1) stores that value,
    0.0 when total_defects is 0. *)
Theorem C5_progress_is_rounded_percentage :
  (∀ labeled total : Z,
     (0 < total →
      compute_progress labeled total =
        (q ← F64.truediv labeled total;
         Ok (PyFloat (F64.round (F64.mul q (F64.of_Z 100)) 2)))
      ∧ ∀ msg, compute_progress labeled total ≠ Raise (ZeroDivisionError msg))
     ∧ (total = 0 → compute_progress labeled total = Ok (PyInt 0)))
  ∧
  (∀ (wafer_id : string) (w : world) (r' : wafer_metadata),
     index (sync_wafer_progress wafer_id w).1 !! wafer_id = Some r' →
     parsed_status r' = 1 →
     (0 < total_defects r' →
      ∃ q, F64.truediv (labeled_defects r') (total_defects r') = Ok q
           ∧ progress r' = F64.round (F64.mul q (F64.of_Z 100)) 2)
     ∧ (total_defects r' = 0 → progress r' = S754_zero false)).
Proof.
  split.
  - intros labeled total. split.
    + intros Ht. rewrite compute_progress_positive by done. split; [done |].
      intros msg.
      pose proof (truediv_no_zero_division labeled total msg) as Hz.
      destruct (F64.truediv labeled total); simpl; [done |].
      intros [= ->]. apply Hz; [lia | done].
    + intros ->. by apply compute_progress_nonpositive.
  - intros wafer_id w r' Hr' Hps.
    destruct (index w !! wafer_id) as [r |] eqn:Hr.
    + rewrite (sync_wafer_progress_lookup _ _ _ Hr) in Hr'.
      injection Hr' as <-.
      apply parsed_status_synced_row in Hps as [t Ht].
      unfold synced_row. rewrite Ht. simpl.
      pose proof (built_table_count_all _ _ Ht) as Hpos.
      split; [| lia]. intros _. exists (S754_zero false). split; [| done].
      unfold F64.truediv.
      assert ((count_all t =? 0) = false) as -> by lia.
      by assert ((count_all t <? 0) = false) as -> by lia.
    + rewrite sync_wafer_progress_missing in Hr' by done. simpl in Hr'.
      congruence.
Qed.

End Progress.

(** ** The ids in the order of the primary key *)

Section KeyOrder.

Implicit Types (x y : string) (l : list string) (t : table).

Lemma length_insert_in_order x l :
  length (insert_in_order x l) = S (length l).
Proof.
  induction l as [| y l IH]; simpl; [done |].
  destruct (String.leb x y); simpl; [done | by rewrite IH].
Qed.

Lemma elem_of_insert_in_order x y l :
  y ∈ insert_in_order x l ↔ y = x ∨ y ∈ l.
Proof.
  induction l as [| z l IH]; simpl.
  - rewrite list_elem_of_singleton, elem_of_nil. tauto.
  - destruct (String.leb x z).
    + rewrite !elem_of_cons. tauto.
    + rewrite !elem_of_cons, IH. tauto.
Qed.

Lemma length_select_defect_id t :
  length (select_defect_id t) = length (rows t).
Proof.
  unfold select_defect_id. rewrite <- (length_fmap defect_id (rows t)).
  induction (defect_id <$> rows t) as [| x l IH]; simpl; [done |].
  by rewrite length_insert_in_order, IH.
Qed.

Lemma elem_of_select_defect_id t x :
  x ∈ select_defect_id t ↔ x ∈ defect_id <$> rows t.
Proof.
  unfold select_defect_id.
  induction (defect_id <$> rows t) as [| y l IH]; simpl; [done |].
  rewrite elem_of_insert_in_order, elem_of_cons, IH. tauto.
Qed.

End KeyOrder.

(** ** Labeling, then the reconciliation it triggers *)

Section Labeling.

Implicit Types (w : world) (r : wafer_metadata) (d : folder) (t : table).

Lemma set_fs_fs w : set_fs (fs w) w = w.
Proof. by destruct w. Qed.

Lemma connect_inner_table p w d t :
  fs w !! p = Some d → database_db d = Some (Some t) →
  connect_inner p (fs w) = Ok (fs w, Some t).
Proof. intros Hd Ht. unfold connect_inner. by rewrite Hd, Ht. Qed.

Lemma save_label_table wafer_id defect_index adc sev com w r d t :
  index w !! wafer_id = Some r →
  fs w !! folder_path r = Some d →
  database_db d = Some (Some t) →
  save_label wafer_id defect_index adc sev com w =
  ((sync_wafer_progress wafer_id
      (write_label (folder_path r) defect_index (type_map adc)
         (default "" sev) (default "" com) t w)).1,
   Success "标注保存成功").
Proof.
  intros Hr Hd Ht. unfold save_label. rewrite Hr.
  rewrite (connect_inner_table _ _ _ _ Hd Ht), set_fs_fs.
  by destruct (sync_wafer_progress _ _).
Qed.

Lemma write_label_out_of_range p defect_index n sev com t w :
  defect_index < 0 ∨ Z.of_nat (length (rows t)) ≤ defect_index →
  write_label p defect_index n sev com t w = w.
Proof.
  intros Hr. unfold write_label. rewrite length_select_defect_id.
  destruct (0 <=? defect_index) eqn:H0; simpl; [| done].
  by assert ((defect_index <? Z.of_nat (length (rows t))) = false) as -> by lia.
Qed.

Lemma write_label_index p defect_index n sev com t w :
  index (write_label p defect_index n sev com t w) = index w.
Proof.
  unfold write_label.
  destruct (_ && _); [| done].
  by destruct (select_defect_id t !! Z.to_nat defect_index).
Qed.

Lemma write_label_report p q defect_index n sev com t w :
  report q (fs (write_label p defect_index n sev com t w)) = report q (fs w).
Proof.
  unfold write_label.
  destruct (_ && _); [| done].
  destruct (select_defect_id t !! Z.to_nat defect_index); [| done]. simpl.
  unfold report, write_inner_db. destruct (fs w !! p) as [d |] eqn:Hd; [| done].
  destruct (decide (p = q)) as [-> |].
  - by rewrite lookup_insert_eq, Hd.
  - by rewrite lookup_insert_ne.
Qed.

Lemma write_label_folder p defect_index n sev com t w :
  is_Some (fs w !! p) →
  is_Some (fs (write_label p defect_index n sev com t w) !! p).
Proof.
  intros [d Hd]. unfold write_label.
  destruct (_ && _); [| by eauto].
  destruct (select_defect_id t !! Z.to_nat defect_index); [| by eauto]. simpl.
  unfold write_inner_db. rewrite Hd, lookup_insert_eq. eauto.
Qed.

(** After a reconciliation that found the report, the detail store of the
    folder is the rebuilt one: every row it holds is unlabeled. *)
Lemma sync_wafer_progress_store wafer_id w r :
  index w !! wafer_id = Some r →
  is_Some (fs w !! folder_path r) →
  is_Some (report (folder_path r) (fs w)) →
  store (folder_path r) (fs (sync_wafer_progress wafer_id w).1) =
  Some <$> built_table (report (folder_path r) (fs w)).
Proof.
  intros Hr Hd [c Hc]. unfold sync_wafer_progress. rewrite Hr. simpl.
  rewrite sync_progress_fs, Hc, store_rebuild by done. by rewrite Hc.
Qed.

(** C10. A labeling call whose row selector is below 0 or not below the
    number of rows of the unit's [defect_info] table writes nothing: the
    block that applies the classification leaves the state as it is, no
    defect record is changed; the call then reconciles that unchanged state
    in full and returns the success response, no out-of-range error. *)
Theorem C10_out_of_range_selector_still_reconciles
    (wafer_id : string) (defect_index : Z) (adc : string)
    (sev com : option string) (w : world)
    (r : wafer_metadata) (d : folder) (t : table) :
  index w !! wafer_id = Some r →
  fs w !! folder_path r = Some d →
  database_db d = Some (Some t) →
  defect_index < 0 ∨ Z.of_nat (length (rows t)) ≤ defect_index →
  write_label (folder_path r) defect_index (type_map adc)
    (default "" sev) (default "" com) t w = w
  ∧ save_label wafer_id defect_index adc sev com w =
      (_sync_progress wafer_id (folder_path r) w, Success "标注保存成功").
Proof.
  intros Hr Hd Ht Hrange.
  pose proof (write_label_out_of_range (folder_path r) defect_index
                (type_map adc) (default "" sev) (default "" com) t w Hrange) as Hw.
  split; [done |].
  rewrite (save_label_table _ _ _ _ _ _ _ _ _ Hr Hd Ht), Hw.
  unfold sync_wafer_progress. by rewrite Hr.
Qed.

End Labeling.

(** ** First ingestion of a folder *)

Section FirstIngestion.

Variable sha256_hex : string → string.
Implicit Types (w : world) (c : load_result).

Local Arguments insert_parsed : simpl never.
Local Arguments execute_insert : simpl never.
Local Arguments _parse_wafer_folder : simpl never.

Lemma execute_insert_parsed_raises wafer_id name path total t ts idx :
  execute_insert
    ["wafer_id"; "wafer_name"; "folder_path"; "total_defects";
     "progress"; "label_status"; "parsed_status"; "last_operated"]
    9
    [SqlText wafer_id; SqlText name; SqlText path;
     SqlInt total; SqlInt 0; SqlReal (S754_zero false); SqlInt 0;
     SqlInt 1; SqlTime t]
    ts idx
  = Raise (OperationalError "9 values for 8 columns").
Proof. vm_compute. reflexivity. Qed.

Lemma execute_insert_error_row wafer_id name path msg t ts idx :
  idx !! wafer_id = None →
  ¬ map_Exists (fun _ r => folder_path r = path) idx →
  execute_insert
    ["wafer_id"; "wafer_name"; "folder_path"; "parsed_status";
     "parse_error"; "last_operated"]
    6
    [SqlText wafer_id; SqlText name; SqlText path;
     SqlInt 2; SqlText msg; SqlTime t]
    ts idx
  = Ok (<[wafer_id := error_row name path msg t ts]> idx).
Proof.
  intros Hid Hpath. unfold execute_insert. cbn.
  repeat match goal with
         | |- context [col_text ?a ?c] =>
             let v := eval vm_compute in (col_text a c) in
             change (col_text a c) with v
         | |- context [col_int ?a ?c ?d] =>
             let v := eval vm_compute in (col_int a c d) in
             change (col_int a c d) with v
         | |- context [col_real ?a ?c ?d] =>
             let v := eval vm_compute in (col_real a c d) in
             change (col_real a c d) with v
         | |- context [col_time ?a ?c ?d] =>
             let v := eval vm_compute in (col_time a c d) in
             change (col_time a c d) with v
         end.
  cbv beta iota. rewrite Hid. cbn.
  rewrite bool_decide_eq_false_2 by done. reflexivity.
Qed.

Lemma insert_parsed_raises wafer_id name path total w :
  insert_parsed wafer_id name path total w =
  ((now w).2, Raise (OperationalError "9 values for 8 columns")).
Proof.
  unfold insert_parsed, now. cbv beta iota.
  by rewrite execute_insert_parsed_raises.
Qed.

(** The first discovery of a folder, with neither index row nor detail
    store, always ends in the [except] branch: the parse may fail, and when
    it succeeds the INSERT that follows it raises. *)
Lemma load_folder_first p w c :
  index w !! sha256_hex p = None →
  inner_db_exists p (fs w) = false →
  ¬ map_Exists (fun _ r => folder_path r = p) (index w) →
  load_folder sha256_hex p (w, c) =
  let '(f, res) := _parse_wafer_folder p (fs w) in
  let '(msg, k) := match res with
                   | Ok _ => ("9 values for 8 columns", 1)
                   | Raise e => (str_exc e, 0)
                   end in
  ({| index := <[sha256_hex p :=
                   error_row (Py.basename p) p msg (clock w + k) (clock w + k + 1)]>
                 (index w);
      fs := f; scratch := scratch w; next_tmp := next_tmp w;
      clock := clock w + k + 1 |},
   Ok {| total_processed := total_processed c + 1;
         success := success c; failed := failed c + 1 |}).
Proof.
  intros Hid Hdb Hpath. unfold load_folder, load_try, _calculate_wafer_id.
  rewrite Hid, Hdb. simpl.
  destruct (_parse_wafer_folder p (fs w)) as [f [n | e]]; simpl.
  - change (pretty 9%nat +:+ " values for " +:+ pretty 8%nat +:+ " columns")
      with "9 values for 8 columns".
    by rewrite execute_insert_error_row.
  - rewrite execute_insert_error_row by done. by rewrite Z.add_0_r.
Qed.

End FirstIngestion.

(** ** Sample units *)

Section SampleIngestion.

Variable sha256_hex : string → string.

Lemma load_fresh_world content :
  load_wafer_folders sha256_hex "/data" true (fresh_world content) =
  load_folder sha256_hex "/data/W01"
    (fresh_world content, {| total_processed := 0; success := 0; failed := 0 |}).
Proof.
  unfold load_wafer_folders, load_discovered.
  change (discover "/data" true (fs (fresh_world content))) with ["/data/W01"].
  unfold load_loop.
  rewrite load_folder_first;
    [| done | done | apply map_Exists_empty].
  by destruct (_parse_wafer_folder _ _) as [f [n | e]].
Qed.

End SampleIngestion.

(** ** First ingestion: what the index records *)

Section IngestedIndex.

Variable sha256_hex : string → string.

(** Whatever the report holds, the first discovery of a folder that has
    neither index row nor detail store leaves an index row with
    [parsed_status = 2] and [total_defects = 0]. *)
Lemma first_ingestion_records_error p w c :
  index w !! sha256_hex p = None →
  inner_db_exists p (fs w) = false →
  ¬ map_Exists (fun _ r => folder_path r = p) (index w) →
  ∃ w' c' r,
    load_folder sha256_hex p (w, c) = (w', Ok c')
    ∧ failed c' = failed c + 1 ∧ success c' = success c
    ∧ index w' !! sha256_hex p = Some r
    ∧ parsed_status r = 2 ∧ total_defects r = 0.
Proof.
  intros Hid Hdb Hpath. rewrite load_folder_first by done.
  destruct (_parse_wafer_folder p (fs w)) as [f [n | e]];
    eexists _, _, _; (split; [reflexivity |]); simpl;
    rewrite lookup_insert_eq; done.
Qed.

(** C2. A folder with both images and a report of a header, three
    well-formed lines and the malformed line [X,1,2], known neither to the
    index nor by a detail store, is discovered and ingested: the detail
    store is built with the three parsed rows, but the index row is the one
    of a failure, with parsed_status 2 (error), total_defects 0 and the
    message of the INSERT that raised; the count the parser returned for
    total_defects was 4, the number of lines after the first. *)
Theorem C2_first_ingestion_header_3_rows_1_malformed :
  let w0 := fresh_world report3_malformed in
  let '(w, res) := load_wafer_folders sha256_hex "/data" true w0 in
  res = Ok {| total_processed := 1; success := 0; failed := 1 |}
  ∧ index w !! sha256_hex "/data/W01"
    = Some (error_row "W01" "/data/W01" "9 values for 8 columns" 1 2)
  ∧ (∃ t, store "/data/W01" (fs w) = Some (Some t)
          ∧ defect_id <$> rows t = ["D1"; "D2"; "D3"])
  ∧ (_parse_wafer_folder "/data/W01" (fs w0)).2 = Ok 4.
Proof.
  intros w0. unfold w0. rewrite load_fresh_world.
  rewrite load_folder_first; [| done | done | apply map_Exists_empty].
  set (parsed := _parse_wafer_folder "/data/W01" (fs (fresh_world report3_malformed))).
  assert (parsed.2 = Ok 4) as H2 by (vm_compute; reflexivity).
  assert (∃ t, store "/data/W01" parsed.1 = Some (Some t)
               ∧ defect_id <$> rows t = ["D1"; "D2"; "D3"]) as H1.
  { eexists. split; vm_compute; reflexivity. }
  destruct parsed as [f [n | e]]; simpl in *; [| done].
  split; [done |]. split; [by rewrite lookup_insert_eq |]. done.
Qed.

End IngestedIndex.

(** ** Labeling a row: the label does not survive the reconciliation *)

Section LabelLost.

Implicit Types (w : world) (r : wafer_metadata) (d : folder) (t : table).

(** For a unit whose report parses to at least one row, a labeling call
    returns with the detail store rebuilt from the report: whatever the
    selector, [labeled_defects], [progress] and [label_status] are 0 and no
    row holds a classification or a label count. *)
Lemma save_label_leaves_rebuilt_store
    wafer_id defect_index adc sev com w r d t content t' :
  index w !! wafer_id = Some r →
  fs w !! folder_path r = Some d →
  database_db d = Some (Some t) →
  raw_data_txt d = Some content →
  built_table (Some content) = Some t' →
  ∃ w' r',
    save_label wafer_id defect_index adc sev com w = (w', Success "标注保存成功")
    ∧ index w' !! wafer_id = Some r'
    ∧ summary r' = (count_all t', 0, S754_zero false, 0)
    ∧ parsed_status r' = 1
    ∧ store (folder_path r) (fs w') = Some (Some t')
    ∧ ∀ row, row ∈ rows t' → unlabeled row.
Proof.
  intros Hr Hd Ht Hraw Hb.
  rewrite (save_label_table _ _ _ _ _ _ _ _ _ Hr Hd Ht).
  set (w1 := write_label _ _ _ _ _ _ _).
  assert (index w1 !! wafer_id = Some r) as Hr1.
  { unfold w1. by rewrite write_label_index. }
  assert (report (folder_path r) (fs w1) = Some content) as Hc1.
  { unfold w1. rewrite write_label_report. unfold report. by rewrite Hd. }
  assert (is_Some (fs w1 !! folder_path r)) as Hd1.
  { unfold w1. apply write_label_folder. eauto. }
  eexists _, _. split; [reflexivity |].
  split; [by apply sync_wafer_progress_lookup |].
  rewrite summary_synced_row, Hc1, Hb.
  split; [done |].
  split; [apply parsed_status_synced_row; rewrite Hb; eauto |].
  split; [| by eauto using built_table_unlabeled].
  rewrite sync_wafer_progress_store by eauto. by rewrite Hc1, Hb.
Qed.

End LabelLost.

Section LabelRowZero.

Variable sha256_hex : string → string.

(** C1. On the unit freshly ingested from a report of five rows, the
    labeling block applied to row 0 does set that row's adc_type and its
    label_count to 1; but [save_label] returns only after the
    reconciliation, which rebuilt the detail store: the index row then has
    total_defects 5, labeled_defects 0, progress 0.0 and label_status 0
    (not 20.00 and in_progress), and the five rows of the store hold no
    classification and no label count. *)
Theorem C1_label_row_0_of_fresh_5_row_unit :
  let id := sha256_hex "/data/W01" in
  let w1 := (load_wafer_folders sha256_hex "/data" true (fresh_world report5)).1 in
  (∃ t0 t1 row,
     store "/data/W01" (fs w1) = Some (Some t0)
     ∧ store "/data/W01" (fs (write_label "/data/W01" 0 (type_map "Scratch") "" "" t0 w1))
       = Some (Some t1)
     ∧ rows t1 !! 0%nat = Some row
     ∧ adc_type row = Some 2 ∧ label_count row = Some 1)
  ∧ ∃ w2 r t,
      save_label id 0 "Scratch" None None w1 = (w2, Success "标注保存成功")
      ∧ index w2 !! id = Some r
      ∧ total_defects r = 5 ∧ labeled_defects r = 0
      ∧ progress r = S754_zero false ∧ label_status r = 0
      ∧ store "/data/W01" (fs w2) = Some (Some t)
      ∧ length (rows t) = 5%nat
      ∧ ∀ row, row ∈ rows t → adc_type row = None ∧ label_count row = None.
Proof.
  intros id w1. unfold w1. rewrite load_fresh_world.
  rewrite load_folder_first; [| done | done | apply map_Exists_empty].
  set (parsed := _parse_wafer_folder "/data/W01" (fs (fresh_world report5))).
  assert (∃ d t0, parsed.1 !! "/data/W01" = Some d
                  ∧ database_db d = Some (Some t0)
                  ∧ raw_data_txt d = Some report5
                  ∧ ∃ t1 row,
                      store "/data/W01"
                        (write_inner_db "/data/W01"
                           (Some (update_label "D1" 2 "" "" 2 (ensure_label_columns t0)))
                           parsed.1) = Some (Some t1)
                      ∧ select_defect_id t0 !! 0%nat = Some "D1"
                      ∧ length (rows t0) = 5%nat
                      ∧ rows t1 !! 0%nat = Some row
                      ∧ adc_type row = Some 2 ∧ label_count row = Some 1)
    as (d & t0 & Hd & Ht0 & Hraw & t1 & row & Ht1 & Hid0 & Hlen & Hrow & Ha & Hl).
  { eexists _, _. split; [vm_compute; reflexivity |].
    split; [vm_compute; reflexivity |]. split; [vm_compute; reflexivity |].
    eexists _, _. repeat split; vm_compute; reflexivity. }
  assert (∃ t', built_table (Some report5) = Some t' ∧ count_all t' = 5
                ∧ length (rows t') = 5%nat) as (t' & Hb & Hcount & Hlen').
  { eexists. repeat split; vm_compute; reflexivity. }
  destruct parsed as [f [n | e]] eqn:Hp; simpl in *.
  2: { exfalso. assert (parsed.2 = Ok 5) as H by (vm_compute; reflexivity).
       rewrite Hp in H. done. }
  split.
  - exists t0, t1, row. unfold store at 1. simpl. rewrite Hd. simpl.
    split; [done |]. split; [| done].
    unfold write_label. rewrite length_select_defect_id, Hlen.
    change (Z.to_nat 0) with 0%nat. rewrite Hid0. simpl. exact Ht1.
  - match goal with
    | |- context [save_label _ _ _ _ _ ?W] =>
        destruct (save_label_leaves_rebuilt_store id 0 "Scratch" None None
                    W _ d t0 report5 t'
                    (lookup_insert_eq _ _ _) Hd Ht0 Hraw Hb)
          as (w2 & r & Hsave & Hr & Hsum & _ & Hstore & Hun)
    end.
    simpl in *. exists w2, r, t'. split; [exact Hsave |].
    split; [exact Hr |]. unfold summary in Hsum. rewrite Hcount in Hsum.
    injection Hsum as -> -> -> ->.
    repeat (split; [done |]).
    intros row' Hrow'. destruct (Hun row' Hrow') as (? & _ & _ & _ & ?). done.
Qed.

End LabelRowZero.

(** ** The label status derived from (labeled, total) *)

Section LabelStatus.

Lemma div_core_same n :
  0 < n →
  SFdiv_core_binary F64.prec F64.emax n 0 n 0 = (2 ^ 53, -53, loc_Exact).
Proof.
  intros Hn. unfold SFdiv_core_binary.
  replace (Zdigits2 n + 0 - (Zdigits2 n + 0)) with 0 by lia.
  change (Z.min (fexp F64.prec F64.emax 0) (0 - 0)) with (-53).
  change (0 - 0 - -53) with 53.
  rewrite Z.shiftl_mul_pow2 by lia.
  assert (Z.div_eucl (n * 2 ^ 53) n = (2 ^ 53, 0)) as ->.
  { pose proof (Z.div_mul (2 ^ 53) n ltac:(lia)) as Hq.
    pose proof (Z.mod_mul (2 ^ 53) n ltac:(lia)) as Hm.
    rewrite (Z.mul_comm (2 ^ 53) n) in Hq, Hm.
    unfold Z.div, Z.modulo in Hq, Hm.
    destruct (Z.div_eucl (n * 2 ^ 53) n) as [q r]. simpl in *. congruence. }
  unfold new_location, new_location_even, new_location_odd.
  by destruct (Z.even n).
Qed.

Lemma truediv_same n : 0 < n → F64.truediv n n = Ok (F64.of_Z 1).
Proof.
  intros Hn. unfold F64.truediv.
  assert ((n =? 0) = false) as -> by lia.
  assert ((n <? 0) = false) as -> by lia.
  rewrite Z.abs_eq by lia. unfold F64.div_pos.
  by rewrite div_core_same.
Qed.

(** All rows labeled, and at least one row: complete. *)
Lemma label_status_all_labeled n : 0 < n → label_status_of n n = Ok 2.
Proof.
  intros Hn. unfold label_status_of.
  rewrite compute_progress_positive by done.
  by rewrite truediv_same.
Qed.

(** No row labeled: not started; and not started only then. *)
Lemma label_status_not_started labeled total :
  0 ≤ labeled → (label_status_of labeled total = Ok 0 ↔ labeled = 0).
Proof.
  intros Hl. unfold label_status_of. split.
  - destruct (compute_progress labeled total) as [p |]; [| done]. simpl.
    unfold derive_label_status.
    destruct (py_eq_int p 100); [done |].
    destruct (labeled >? 0) eqn:Hgt; [done |]. lia.
  - intros ->. rewrite compute_progress_zero.
    by destruct (total >? 0).
Qed.

(** The status is complete exactly when the rounded progress equals 100. *)
Lemma label_status_complete_iff labeled total :
  label_status_of labeled total = Ok 2 ↔
  ∃ p, compute_progress labeled total = Ok p ∧ py_eq_int p 100 = true.
Proof.
  unfold label_status_of. split.
  - destruct (compute_progress labeled total) as [p |]; [| done]. simpl.
    unfold derive_label_status.
    destruct (py_eq_int p 100) eqn:Hp; [by eauto |].
    by destruct (labeled >? 0).
  - intros (p & -> & Hp). simpl. unfold derive_label_status. by rewrite Hp.
Qed.

(** Lines 536-547 taken as a function of two arbitrary counts test the
    rounded percentage, not the counts: at 19999 of 20000 the progress rounds
    to 100.0 and the status would be 2.  [_sync_progress] never calls them
    with such a pair: it counts the labeled rows of the table it has just
    rebuilt. *)
Example status_of_19999_of_20000 :
  compute_progress 19999 20000 = Ok (PyFloat (F64.of_Z 100))
  ∧ label_status_of 19999 20000 = Ok 2.
Proof. split; vm_compute; reflexivity. Qed.



End LabelStatus.

Section SmallUnits.

Lemma status_agrees_upto_25 : status_agrees_upto 25 = true.
Proof. vm_compute. reflexivity. Qed.

(** Up to 25 rows the derived status follows the rule of the
    specification. *)
Lemma label_status_small labeled total :
  0 ≤ labeled ≤ total → total ≤ 25 →
  label_status_of labeled total = Ok (status_rule labeled total).
Proof.
  intros Hl Ht.
  pose proof status_agrees_upto_25 as H. unfold status_agrees_upto in H.
  rewrite forallb_forall in H.
  specialize (H (Z.to_nat total)). rewrite forallb_forall in H.
  specialize (H ltac:(apply in_seq; lia) (Z.to_nat labeled) ltac:(apply in_seq; lia)).
  rewrite !Z2Nat.id in H by lia.
  destruct (label_status_of labeled total) as [s |]; [| done].
  apply Z.eqb_eq in H. by subst.
Qed.

End SmallUnits.

(** ** Creation of the detail store: all or nothing *)

Section Creation.

Implicit Types (f : gmap string folder) (p q : string) (t : table).

Lemma built_table_rows raw t :
  built_table raw = Some t →
  NoDup (defect_id <$> rows t)
  ∧ ∀ content, raw = Some content →
      ∀ r, r ∈ rows t ↔ last_with_id (insert_data (report_lines content)) r.
Proof.
  intros (content & -> & _ & _ & _ & Hrows & _)%built_table_Some. split.
  - rewrite Hrows. apply executemany_insert_NoDup. constructor.
  - intros c [= <-] r. rewrite Hrows, elem_of_executemany_insert.
    split; [| by left]. intros [H | [H _]]; [done |].
    by apply elem_of_nil in H.
Qed.


Lemma create_inner_database_store p n f :
  store p (_create_inner_database p n f) = Some <$> built_table (report p f).
Proof.
  rewrite create_inner_database_eq. unfold store, report.
  rewrite lookup_insert_eq. simpl.
  by destruct (f !! p) as [d |].
Qed.




(** One row that SQLite cannot bind: no file is left, the row before it is
    not kept. *)
Example create_overflow_leaves_no_file :
  store "/data/W01"
    (_create_inner_database "/data/W01" 2
       {[ "/data/W01" := unit_folder report_overflow ]}) = None
  ∧ length (insert_data (report_lines report_overflow)) = 2%nat.
Proof. split; vm_compute; reflexivity. Qed.

(** A malformed line is skipped: the store keeps the other rows. *)
Example create_skips_malformed_line :
  ∃ t, store "/data/W01"
         (_create_inner_database "/data/W01" 4
            {[ "/data/W01" := unit_folder report3_malformed ]}) = Some (Some t)
       ∧ defect_id <$> rows t = ["D1"; "D2"; "D3"].
Proof. eexists. split; vm_compute; reflexivity. Qed.

End Creation.

(** ** Reset *)

Section Reset.

Implicit Types (w : world) (r : wafer_metadata).

Lemma lookup_remove_inner_db p q f :
  remove_inner_db p f !! q =
  if decide (p = q) then set_database None <$> f !! p else f !! q.
Proof.
  unfold remove_inner_db. destruct (f !! p) as [d |] eqn:Hp.
  - rewrite lookup_insert. by destruct (decide (p = q)).
  - destruct (decide (p = q)) as [<- |]; [by rewrite Hp | done].
Qed.

Lemma store_remove_inner_db p f : store p (remove_inner_db p f) = None.
Proof.
  unfold store. rewrite lookup_remove_inner_db.
  rewrite decide_True by done. by destruct (f !! p).
Qed.

Lemma report_remove_inner_db p q f : report q (remove_inner_db p f) = report q f.
Proof.
  unfold report. rewrite lookup_remove_inner_db.
  destruct (decide (p = q)) as [<- |]; [| done]. by destruct (f !! p).
Qed.

Lemma inner_db_exists_false p f : inner_db_exists p f = false → store p f = None.
Proof.
  unfold inner_db_exists, store. destruct (f !! p) as [d |]; [| done].
  simpl. destruct (database_db d); [| done].
  rewrite bool_decide_eq_true_2 by eauto. done.
Qed.

(** Reset does touch a third field, [last_operated]: reset at time 7 of a row
    last operated at time 3 leaves 7 there. *)
Lemma C9_reset_changes_last_operated :
  ∃ r r',
    index synced_world !! "w01" = Some r
    ∧ index (reset_wafer_status "w01" synced_world).1 !! "w01" = Some r'
    ∧ last_operated r = 3 ∧ last_operated r' = 7
    ∧ r' ≠ {| wafer_name := wafer_name r; folder_path := folder_path r;
              total_defects := total_defects r;
              labeled_defects := labeled_defects r;
              progress := progress r; label_status := label_status r;
              parsed_status := 0; parse_error := None;
              last_operated := last_operated r; create_time := create_time r |}.
Proof.
  eexists _, _. split; [vm_compute; reflexivity |].
  split; [vm_compute; reflexivity |]. simpl. repeat split. congruence.
Qed.

(** C9 (amended). For a unit id present in the index, reset reports
    success, deletes the detail store file if there is one, sets
    parsed_status to 0 (unparsed), parse_error to NULL and last_operated to
    the current time, and leaves every other field of the row
    (total_defects, labeled_defects, progress, label_status, name, path,
    create_time), every other row, the report and every other folder as
    they were; for an id without index row it reports failure and changes
    nothing. *)
Theorem C9_reset_keeps_row_and_counters (wafer_id : string) (w : world) :
  (∀ r, index w !! wafer_id = Some r →
     ∃ w', reset_wafer_status wafer_id w = (w', true)
           ∧ index w' = <[wafer_id := reset_row (clock w) r]> (index w)
           ∧ store (folder_path r) (fs w') = None
           ∧ (∀ q, report q (fs w') = report q (fs w))
           ∧ (∀ q, q ≠ folder_path r → fs w' !! q = fs w !! q))
  ∧ (index w !! wafer_id = None → reset_wafer_status wafer_id w = (w, false)).
Proof.
  split.
  - intros r Hr. unfold reset_wafer_status. rewrite Hr.
    eexists. split; [reflexivity |]. simpl.
    split; [| destruct (inner_db_exists (folder_path r) (fs w)) eqn:Hdb; simpl].
    + destruct (inner_db_exists _ _); simpl; unfold update_reset;
        apply map_eq; intros k; destruct (decide (k = wafer_id)) as [-> |];
        by rewrite ?lookup_alter_eq, ?lookup_alter_ne, ?lookup_insert_eq,
             ?lookup_insert_ne, ?Hr by done.
    + split; [apply store_remove_inner_db |].
      split; [intros q; apply report_remove_inner_db |].
      intros q Hq. rewrite lookup_remove_inner_db. by rewrite decide_False.
    + split; [by apply inner_db_exists_false |]. done.
  - intros Hr. unfold reset_wafer_status. by rewrite Hr.
Qed.

Lemma C9_reset_witness :
  ∃ w', reset_wafer_status "w01" synced_world = (w', true)
        ∧ (parsed_status <$> index w' !! "w01") = Some 0
        ∧ (total_defects <$> index w' !! "w01") = Some 5
        ∧ store "/data/W01" (fs w') = None.
Proof.
  destruct (C9_reset_keeps_row_and_counters "w01" synced_world) as [H _].
  destruct (H _ ltac:(vm_compute; reflexivity)) as (w' & Hreset & Hidx & Hstore & _).
  exists w'. split; [exact Hreset |]. rewrite Hidx, lookup_insert_eq.
  split; [done |]. split; [done |]. exact Hstore.
Defined.

End Reset.

(** ** Export of one unit *)

Section ExportUnit.

Implicit Types (w : world) (r : wafer_metadata) (t : table).

Lemma type_differs_iff (row : defect) :
  type_differs row = true ↔
  adc_type row ≠ None ∧ adc_type row ≠ Some (ai_adc_type row).
Proof.
  unfold type_differs. destruct (adc_type row) as [a |].
  - rewrite negb_true_iff, Z.eqb_neq. split.
    + intros Hne. split; [done |]. congruence.
    + intros [_ Hne] Heq. apply Hne. by rewrite Heq.
  - split; [done | by intros [? _]].
Qed.

Lemma store_Some_exists p f x :
  store p f = Some x → inner_db_exists p f = true.
Proof.
  unfold store, inner_db_exists. destruct (f !! p) as [d |]; [| done].
  simpl. intros ->. by rewrite bool_decide_eq_true_2 by eauto.
Qed.

Lemma store_None_exists p f :
  store p f = None → inner_db_exists p f = false.
Proof.
  unfold store, inner_db_exists. destruct (f !! p) as [d |]; [| done].
  simpl. intros ->. by rewrite bool_decide_eq_false_2 by (by intros [? ?]).
Qed.

Lemma export_wafer_kfl_table wafer_id export_all w r t :
  index w !! wafer_id = Some r →
  store (folder_path r) (fs w) = Some (Some t) →
  export_wafer_kfl wafer_id export_all w =
  let path := Py.join (mkdtemp w).1 (wafer_name r +:+ "_defects.kfl") in
  (set_scratch
     (<[path := KflFile (kfl_content (wafer_name r)
                           (export_rows export_all (label_status r) t))]>
        (scratch w))
     (mkdtemp w).2,
   Ok (inl path)).
Proof.
  intros Hr Hs. unfold export_wafer_kfl. rewrite Hr.
  rewrite (store_Some_exists _ _ _ Hs). simpl.
  unfold store in Hs. by rewrite Hs.
Qed.

Lemma export_wafer_kfl_no_store wafer_id export_all w r :
  index w !! wafer_id = Some r →
  store (folder_path r) (fs w) = None →
  export_wafer_kfl wafer_id export_all w = (w, Ok (inr "内层数据库不存在")).
Proof.
  intros Hr Hs. unfold export_wafer_kfl. rewrite Hr.
  by rewrite (store_None_exists _ _ Hs).
Qed.

Lemma export_wafer_kfl_no_table wafer_id export_all w r :
  index w !! wafer_id = Some r →
  store (folder_path r) (fs w) = Some None →
  export_wafer_kfl wafer_id export_all w =
  (w, Raise (OperationalError "no such table: defect_info")).
Proof.
  intros Hr Hs. unfold export_wafer_kfl. rewrite Hr.
  rewrite (store_Some_exists _ _ _ Hs). simpl.
  unfold store in Hs. by rewrite Hs.
Qed.

(** What the export does when the detail store holds the table
    [defect_info], and when the folder has no [database.db]: in the first
    case it writes a file whose lines are the title, the header and one line
    per exported row, where every row is exported if [export_all] is set or
    the unit's label_status is 2 (complete), and otherwise exactly the rows
    whose adc_type is set and differs from ai_adc_type; in the second it
    returns the error of the missing detail store and writes nothing. *)
Lemma export_all_or_reclassified_rows
    (wafer_id : string) (export_all : bool) (w : world) (r : wafer_metadata) :
  index w !! wafer_id = Some r →
  (∀ t, store (folder_path r) (fs w) = Some (Some t) →
     ∃ w' path,
       export_wafer_kfl wafer_id export_all w = (w', Ok (inl path))
       ∧ scratch w' !! path =
           Some (KflFile
                   (kfl_content (wafer_name r)
                      (if decide (export_all = true ∨ label_status r = 2)
                       then rows t
                       else filter (fun row =>
                                      adc_type row ≠ None
                                      ∧ adc_type row ≠ Some (ai_adc_type row))
                                   (rows t))))
       ∧ index w' = index w ∧ fs w' = fs w)
  ∧ (store (folder_path r) (fs w) = None →
     export_wafer_kfl wafer_id export_all w = (w, Ok (inr "内层数据库不存在"))).
Proof.
  intros Hr. split.
  - intros t Hs. rewrite (export_wafer_kfl_table _ _ _ _ _ Hr Hs).
    eexists _, _. split; [reflexivity |]. simpl.
    rewrite lookup_insert_eq. split; [| done]. do 3 f_equal.
    unfold export_rows.
    destruct (decide (export_all = true ∨ label_status r = 2)) as [[-> | Hls] | Hn].
    + done.
    + rewrite Hls. by destruct export_all.
    + assert (export_all = false) as -> by (destruct export_all; tauto).
      assert ((label_status r =? 2) = false) as -> by (apply Z.eqb_neq; tauto).
      simpl. apply list_filter_iff. intros row. apply type_differs_iff.
  - intros Hs. by apply (export_wafer_kfl_no_store _ _ _ _ Hr).
Qed.

Example export_sample_units :
  (∃ w' path,
     export_wafer_kfl "w01" false reviewed_world = (w', Ok (inl path))
     ∧ scratch w' !! path =
         Some (KflFile
                 ("KFL Export for W01" +:+ nl
                  +:+ "defect_id,center_x,center_y,ai_adc_type,adc_type" +:+ nl
                  +:+ "D1,100,200,1,2" +:+ nl)))
  ∧ export_wafer_kfl "w02" true reviewed_world
    = (reviewed_world, Ok (inr "内层数据库不存在")).
Proof.
  split.
  - destruct (export_all_or_reclassified_rows "w01" false reviewed_world _
                ltac:(vm_compute; reflexivity)) as [H _].
    destruct (H reviewed_table ltac:(vm_compute; reflexivity))
      as (w' & path & He & Hs & _).
    exists w', path. split; [exact He |]. rewrite Hs. vm_compute. reflexivity.
  - destruct (export_all_or_reclassified_rows "w02" true reviewed_world _
                ltac:(vm_compute; reflexivity)) as [_ H].
    apply H. vm_compute. reflexivity.
Qed.

(** C7. The unit w02 is in the index and was reconciled.  After a reset
    of it, either a labeling call on it or a read of its defects fails and
    leaves a [database.db] without the table [defect_info].  The unit is
    still in the index, and its export, with [export_all] set or not, then
    raises [no such table: defect_info]: it exports no row and writes no
    file, and it does not return the error of the missing detail store
    either. *)
Theorem C7_export_raises_on_store_without_table :
  let w1 := (reset_wafer_status "w02" two_unit_world).1 in
  let w2 := (save_label "w02" 0 "Scratch" None None w1).1 in
  let w3 := (get_wafer_data "w02" w1).1 in
  (∃ r, index w2 !! "w02" = Some r ∧ folder_path r = "/data/W02")
  ∧ store "/data/W02" (fs w1) = None
  ∧ store "/data/W02" (fs w2) = Some None
  ∧ store "/data/W02" (fs w3) = Some None
  ∧ index w3 = index w1
  ∧ ∀ export_all,
      export_wafer_kfl "w02" export_all w2
      = (w2, Raise (OperationalError "no such table: defect_info"))
      ∧ export_wafer_kfl "w02" export_all w3
        = (w3, Raise (OperationalError "no such table: defect_info")).
Proof.
  intros w1 w2 w3.
  split; [eexists; split; vm_compute; reflexivity |].
  split; [vm_compute; reflexivity |].
  split; [vm_compute; reflexivity |].
  split; [vm_compute; reflexivity |].
  split; [vm_compute; reflexivity |].
  intros export_all. split.
  - eapply export_wafer_kfl_no_table; vm_compute; reflexivity.
  - eapply export_wafer_kfl_no_table; vm_compute; reflexivity.
Qed.

End ExportUnit.

(** ** Batch export *)

Section BatchExport.

Implicit Types (w : world) (ids files : list string).

Lemma export_cases w wafer_id :
  exportable w wafer_id ∨ export_raises w wafer_id
  ∨ (∃ error, ∀ export_all,
       export_wafer_kfl wafer_id export_all w = (w, Ok (inr error))).
Proof.
  destruct (index w !! wafer_id) as [r |] eqn:Hr.
  - destruct (store (folder_path r) (fs w)) as [[t |] |] eqn:Hs.
    + left. by exists r, t.
    + right. left. by exists r.
    + right. right. eexists. intros export_all.
      by apply (export_wafer_kfl_no_store _ _ _ _ Hr).
  - right. right. eexists. intros export_all.
    unfold export_wafer_kfl. by rewrite Hr.
Qed.

Lemma exportable_not_raises w wafer_id :
  exportable w wafer_id → ¬ export_raises w wafer_id.
Proof. intros (r & t & Hr & Hs) (r' & Hr' & Hs'). congruence. Qed.

Lemma export_exportable w wafer_id export_all :
  exportable w wafer_id →
  ∃ w' path, export_wafer_kfl wafer_id export_all w = (w', Ok (inl path))
             ∧ index w' = index w ∧ fs w' = fs w.
Proof.
  intros (r & t & Hr & Hs). rewrite (export_wafer_kfl_table _ _ _ _ _ Hr Hs).
  by eexists _, _.
Qed.

Lemma export_raises_raise w wafer_id export_all :
  export_raises w wafer_id →
  export_wafer_kfl wafer_id export_all w =
  (w, Raise (OperationalError "no such table: defect_info")).
Proof. intros (r & Hr & Hs). by apply (export_wafer_kfl_no_table _ _ _ _ Hr). Qed.

Lemma exportable_ext w w' wafer_id :
  index w' = index w → fs w' = fs w →
  exportable w' wafer_id ↔ exportable w wafer_id.
Proof. intros Hi Hf. unfold exportable. by rewrite Hi, Hf. Qed.

Lemma export_raises_ext w w' wafer_id :
  index w' = index w → fs w' = fs w →
  export_raises w' wafer_id ↔ export_raises w wafer_id.
Proof. intros Hi Hf. unfold export_raises. by rewrite Hi, Hf. Qed.

(** The loop without a raising export: it ends, and it has appended one
    file per exportable id. *)
Lemma batch_loop_ok temp_dir ids files w :
  (∀ id, id ∈ ids → ¬ export_raises w id) →
  ∃ w' files',
    batch_loop temp_dir ids files w = (w', Ok (files ++ files'))
    ∧ index w' = index w ∧ fs w' = fs w
    ∧ (files' = [] ↔ ∀ id, id ∈ ids → ¬ exportable w id).
Proof.
  revert files w. induction ids as [| id ids IH]; intros files w Hno.
  - exists w, []. simpl. rewrite app_nil_r. repeat split; try done.
    intros _ id Hid. by apply elem_of_nil in Hid.
  - simpl. destruct (export_cases w id) as [Hex | [Hra | [error He]]].
    + destruct (export_exportable w id false Hex) as (w1 & path & -> & Hi & Hf).
      set (w2 := set_scratch _ w1).
      assert (index w2 = index w) as Hi2 by done.
      assert (fs w2 = fs w) as Hf2 by done.
      destruct (IH (files ++ [Py.join temp_dir (Py.basename path)]) w2)
        as (w' & files' & Hloop & Hi' & Hf' & Hnil).
      { intros id' Hid' Hra. apply (Hno id'); [by right |].
        by apply (export_raises_ext w w2 id' Hi2 Hf2). }
      exists w', (Py.join temp_dir (Py.basename path) :: files').
      rewrite Hloop. rewrite <- app_assoc. simpl.
      split; [done |]. split; [by rewrite Hi' |]. split; [by rewrite Hf' |].
      split; [done |]. intros Hall. exfalso. apply (Hall id); [by left | done].
    + exfalso. apply (Hno id); [by left | done].
    + rewrite (He false).
      destruct (IH files w) as (w' & files' & Hloop & Hi' & Hf' & Hnil).
      { intros id' Hid'. apply Hno. by right. }
      exists w', files'. rewrite Hloop. repeat split; try done.
      * intros Hfn id' [-> | Hid']%elem_of_cons.
        -- intros (r & t & Hr & Hs).
           pose proof (export_wafer_kfl_table _ false _ _ _ Hr Hs) as Heq.
           rewrite (He false) in Heq. simpl in Heq. congruence.
        -- by apply Hnil.
      * intros Hall. apply Hnil. intros id' Hid'. apply Hall. by right.
Qed.

(** The loop with a raising export: the exception leaves it. *)
Lemma batch_loop_raise temp_dir ids files w :
  (∃ id, id ∈ ids ∧ export_raises w id) →
  ∃ w', batch_loop temp_dir ids files w =
        (w', Raise (OperationalError "no such table: defect_info")).
Proof.
  revert files w. induction ids as [| id ids IH]; intros files w (id' & Hin & Hra).
  - by apply elem_of_nil in Hin.
  - simpl. destruct (export_cases w id) as [Hex | [Hra' | [error He]]].
    + destruct (export_exportable w id false Hex) as (w1 & path & -> & Hi & Hf).
      apply IH. exists id'. split.
      * apply elem_of_cons in Hin as [-> |]; [| done].
        by destruct (exportable_not_raises _ _ Hex).
      * by apply (export_raises_ext w (set_scratch _ w1) id').
    + rewrite (export_raises_raise _ _ _ Hra'). by eexists.
    + rewrite (He false). apply IH. exists id'. split; [| done].
      apply elem_of_cons in Hin as [-> |]; [| done].
      destruct Hra as (r & Hr & Hs).
      pose proof (export_wafer_kfl_no_table _ false _ _ Hr Hs) as Heq.
      rewrite (He false) in Heq. congruence.
Qed.

(** When no export raises, the batch returns the archive, or the batch
    error exactly when no id could be exported; index and folders stay. *)
Lemma batch_export_without_exception ids w :
  (∀ id, id ∈ ids → ¬ export_raises w id) →
  ∃ w' res,
    batch_export_kfl ids w = (w', Ok res)
    ∧ index w' = index w ∧ fs w' = fs w
    ∧ (res = inr "没有找到可导出的晶圆" ↔ ∀ id, id ∈ ids → ¬ exportable w id)
    ∧ ((∃ id, id ∈ ids ∧ exportable w id) →
       ∃ zip_file entries, res = inl zip_file
                           ∧ scratch w' !! zip_file = Some (ZipFile entries)).
Proof.
  intros Hno. unfold batch_export_kfl.
  destruct (mkdtemp w) as [temp_dir w0] eqn:Hmk.
  assert (index w0 = index w ∧ fs w0 = fs w) as [Hi0 Hf0].
  { unfold mkdtemp in Hmk. by injection Hmk as <- <-. }
  destruct (batch_loop_ok temp_dir ids [] w0)
    as (w' & files' & Hloop & Hi & Hf & Hnil).
  { intros id Hid Hra. apply (Hno id Hid).
    by apply (export_raises_ext w w0 id Hi0 Hf0). }
  rewrite Hloop. simpl.
  assert ((∀ id, id ∈ ids → ¬ exportable w0 id) ↔
          (∀ id, id ∈ ids → ¬ exportable w id)) as Hext.
  { split; intros H id Hid Hex; apply (H id Hid);
      by apply (exportable_ext w w0 id Hi0 Hf0). }
  destruct files' as [| file files'].
  - exists w', (inr "没有找到可导出的晶圆").
    split; [done |]. split; [congruence |]. split; [congruence |].
    split.
    + split; [| done]. intros _. apply Hext, Hnil. done.
    + intros (id & Hid & Hex). exfalso.
      eapply (proj1 Hext); [by apply Hnil | exact Hid | exact Hex].
  - eexists _, _. split; [reflexivity |]. simpl.
    split; [congruence |]. split; [congruence |]. split.
    + split; [done |]. intros Hall.
      assert (file :: files' = []) as H by (apply Hnil, Hext, Hall). done.
    + intros _. eexists _, _. split; [done |]. by rewrite lookup_insert_eq.
Qed.

(** C8. After a reset of unit w02 and a labeling call on it, which fails
    but has created an empty [database.db], the batch export of [w01; w02]
    does not skip w02: the export of w02 raises, the exception leaves
    [batch_export_kfl], and neither the archive with w01's file nor a batch
    error is returned.  The export of w01 alone succeeds in that state. *)
Theorem C8_batch_export_aborts_on_store_without_table :
  let w1 := (reset_wafer_status "w02" two_unit_world).1 in
  let '(w2, response) := save_label "w02" 0 "Scratch" None None w1 in
  response = Failure "no such table: defect_info"
  ∧ store "/data/W02" (fs w2) = Some None
  ∧ (∃ w' path, export_wafer_kfl "w01" false w2 = (w', Ok (inl path)))
  ∧ (batch_export_kfl ["w01"; "w02"] w2).2
    = Raise (OperationalError "no such table: defect_info").
Proof.
  vm_compute. split; [reflexivity |]. split; [reflexivity |].
  split; [by eexists _, _ | reflexivity].
Qed.

(** The example of the specification: w02 has no detail store, the archive
    holds the file of w01 only and the batch succeeds. *)
Example batch_export_skips_unit_without_store :
  ∃ w' zip_file content,
    batch_export_kfl ["w01"; "w02"] reviewed_world = (w', Ok (inl zip_file))
    ∧ scratch w' !! zip_file = Some (ZipFile [("W01_defects.kfl", content)]).
Proof. eexists _, _, _. split; vm_compute; reflexivity. Qed.

(** Two units of the same folder name: the second copy overwrites the
    first in the batch directory, and the archive holds the second unit's
    export twice. *)
Example batch_export_same_name_units :
  ∃ w' zip_file content,
    batch_export_kfl ["w01"; "w02"] same_name_world = (w', Ok (inl zip_file))
    ∧ scratch w' !! zip_file
      = Some (ZipFile [("W01_defects.kfl", content); ("W01_defects.kfl", content)])
    ∧ content = kfl_content "W01" [sample_row "E1" 4 (Some 5)].
Proof. eexists _, _, _. repeat split; vm_compute; reflexivity. Qed.

End BatchExport.

(** ** The theorems at sample units *)

Section Samples.

Lemma C10_out_of_range_witness :
  ∃ r, index two_unit_world !! "w01" = Some r
       ∧ save_label "w01" 7 "Scratch" None None two_unit_world =
         (_sync_progress "w01" (folder_path r) two_unit_world,
          Success "标注保存成功").
Proof.
  eexists. split; [vm_compute; reflexivity |].
  eapply (C10_out_of_range_selector_still_reconciles
            "w01" 7 "Scratch" None None two_unit_world _ _ reviewed_table).
  - vm_compute. reflexivity.
  - vm_compute. reflexivity.
  - reflexivity.
  - right. simpl. lia.
Defined.

Lemma C5_progress_witness :
  ∃ r', index (sync_wafer_progress "w01" synced_world).1 !! "w01" = Some r'
        ∧ total_defects r' = 5
        ∧ ∃ q, F64.truediv (labeled_defects r') (total_defects r') = Ok q
               ∧ progress r' = F64.round (F64.mul q (F64.of_Z 100)) 2.
Proof.
  eexists. split; [vm_compute; reflexivity |]. split; [reflexivity |].
  eapply (proj2 C5_progress_is_rounded_percentage "w01" synced_world).
  - vm_compute. reflexivity.
  - reflexivity.
  - simpl. lia.
Defined.


End Samples.

(** ** Strings: reversal, stripping, splitting, numerals *)

Section Strings.

Implicit Types (s t cur : string) (c : ascii) (p : ascii → bool).

Lemma str_app_cons c s t : String c s +:+ t = String c (s +:+ t).
Proof. reflexivity. Qed.

Lemma str_app_nil_l t : "" +:+ t = t.
Proof. reflexivity. Qed.

Lemma str_app_nil_r s : s +:+ "" = s.
Proof. induction s as [| c s IH]; [done |]. by rewrite str_app_cons, IH. Qed.

Lemma str_app_assoc s t u : (s +:+ t) +:+ u = s +:+ t +:+ u.
Proof. induction s as [| c s IH]; [done |]. by rewrite !str_app_cons, IH. Qed.

Lemma str_rev_app_spec s t : String.rev_app s t = String.rev s +:+ t.
Proof.
  unfold String.rev. revert t.
  induction s as [| c s IH]; intros t; simpl; [done |].
  rewrite (IH (String c "")), IH, str_app_assoc. done.
Qed.

Lemma str_rev_cons c s : String.rev (String c s) = String.rev s +:+ String c "".
Proof. unfold String.rev at 1. simpl. apply str_rev_app_spec. Qed.

Lemma str_rev_app_distr s t : String.rev (s +:+ t) = String.rev t +:+ String.rev s.
Proof.
  induction s as [| c s IH].
  - by rewrite str_app_nil_l, str_app_nil_r.
  - by rewrite str_app_cons, !str_rev_cons, IH, str_app_assoc.
Qed.

Lemma str_rev_involutive s : String.rev (String.rev s) = s.
Proof.
  induction s as [| c s IH]; [done |].
  by rewrite str_rev_cons, str_rev_app_distr, IH.
Qed.

Lemma all_chars_app p s t :
  all_chars p (s +:+ t) = all_chars p s && all_chars p t.
Proof.
  induction s as [| c s IH]; [done |].
  by rewrite str_app_cons; simpl; rewrite IH, andb_assoc.
Qed.

Lemma all_chars_rev p s : all_chars p (String.rev s) = all_chars p s.
Proof.
  induction s as [| c s IH]; [done |].
  rewrite str_rev_cons, all_chars_app, IH. simpl.
  by rewrite andb_true_r, andb_comm.
Qed.

Lemma all_chars_impl p q s :
  (∀ c, p c = true → q c = true) → all_chars p s = true → all_chars q s = true.
Proof.
  intros Hpq. induction s as [| c s IH]; simpl; [done |].
  intros [Hc Hs]%andb_true_iff. rewrite (Hpq _ Hc). auto.
Qed.

Lemma lstrip_not_space s : all_chars not_space s = true → Py.lstrip s = s.
Proof.
  destruct s as [| c s]; simpl; [done |].
  unfold not_space at 1. intros [Hc _]%andb_true_iff.
  by destruct (Py.isspace c).
Qed.

Lemma strip_not_space s : all_chars not_space s = true → Py.strip s = s.
Proof.
  intros Hs. unfold Py.strip, Py.rstrip.
  rewrite (lstrip_not_space (String.rev s)) by by rewrite all_chars_rev.
  rewrite str_rev_involutive. by apply lstrip_not_space.
Qed.

(** A line as [readlines] returns it: the newline is stripped. *)
Lemma strip_line_nl s :
  all_chars not_space s = true → Py.strip (s +:+ nl) = s.
Proof.
  intros Hs. unfold Py.strip, Py.rstrip, nl.
  rewrite str_rev_app_distr.
  change (String.rev (String Py.newline "")) with (String Py.newline "").
  rewrite str_app_cons, str_app_nil_l.
  change (Py.lstrip (String Py.newline (String.rev s)))
    with (Py.lstrip (String.rev s)).
  rewrite (lstrip_not_space (String.rev s)) by by rewrite all_chars_rev.
  rewrite str_rev_involutive. by apply lstrip_not_space.
Qed.

Lemma readlines_go_line cur s rest :
  all_chars (fun c => negb (Ascii.eqb c Py.newline)) s = true →
  Py.readlines_go cur (s +:+ String Py.newline rest) =
  (String.rev cur +:+ s +:+ nl) :: Py.readlines_go "" rest.
Proof.
  revert cur. induction s as [| c s IH]; intros cur; simpl.
  - intros _. rewrite str_app_nil_l. simpl. by rewrite str_rev_cons.
  - intros [Hc Hs]%andb_true_iff. rewrite str_app_cons. simpl.
    destruct (Ascii.eqb c Py.newline); [done |].
    rewrite IH by done. by rewrite str_rev_cons, str_app_assoc.
Qed.

Lemma universal_newlines_line s rest :
  all_chars (fun c => negb (Ascii.eqb c "013")) s = true →
  Py.universal_newlines (s +:+ String Py.newline rest)
  = s +:+ String Py.newline (Py.universal_newlines rest).
Proof.
  induction s as [| c s IH]; [done |].
  cbn [all_chars]. intros [Hc Hs]%andb_true_iff.
  rewrite !str_app_cons. cbn [Py.universal_newlines].
  destruct (Ascii.eqb c "013"); [done |]. by rewrite IH.
Qed.

Lemma readlines_line s rest :
  all_chars (fun c => negb (Ascii.eqb c Py.newline)
                      && negb (Ascii.eqb c "013")) s = true →
  Py.readlines (s +:+ nl +:+ rest) = (s +:+ nl) :: Py.readlines rest.
Proof.
  intros Hs. unfold Py.readlines, nl. rewrite str_app_cons, str_app_nil_l.
  rewrite universal_newlines_line
    by (revert Hs; apply all_chars_impl; intros c; by intros [_ ?]%andb_true_iff).
  rewrite readlines_go_line
    by (revert Hs; apply all_chars_impl; intros c; by intros [? _]%andb_true_iff).
  done.
Qed.

Lemma universal_newlines_crlf s rest :
  all_chars (fun c => negb (Ascii.eqb c "013")) s = true →
  Py.universal_newlines (s +:+ String "013" (String Py.newline rest))
  = s +:+ String Py.newline (Py.universal_newlines rest).
Proof.
  induction s as [| c s IH]; [done |].
  cbn [all_chars]. intros [Hc Hs]%andb_true_iff.
  rewrite !str_app_cons. cbn [Py.universal_newlines].
  destruct (Ascii.eqb c "013"); [done |]. by rewrite IH.
Qed.

Lemma readlines_line_crlf s rest :
  all_chars line_char s = true →
  Py.readlines (s +:+ String "013" nl +:+ rest) = (s +:+ nl) :: Py.readlines rest.
Proof.
  intros Hs. unfold Py.readlines, nl. rewrite !str_app_cons, str_app_nil_l.
  rewrite universal_newlines_crlf
    by (revert Hs; apply all_chars_impl; intros c; by intros [_ ?]%andb_true_iff).
  rewrite readlines_go_line
    by (revert Hs; apply all_chars_impl; intros c; by intros [? _]%andb_true_iff).
  done.
Qed.

(** A text of lines ended by LF or CR LF is read back as these lines, each
    ended by LF. *)
Lemma readlines_text_of_lines (ls : list (string * bool)) :
  Forall (fun l => all_chars line_char l.1 = true) ls →
  Py.readlines (text_of_lines ls) = (fun l => l.1 +:+ nl) <$> ls.
Proof.
  induction 1 as [| [l crlf] ls Hl _ IH]; [done |].
  cbn [text_of_lines fmap list_fmap fst]. simpl in Hl.
  destruct crlf.
  - rewrite readlines_line_crlf by done. by rewrite IH.
  - rewrite readlines_line by done. by rewrite IH.
Qed.

Lemma split_go_last sep cur s :
  all_chars (fun c => negb (Ascii.eqb c sep)) s = true →
  Py.split_go sep cur s = [String.rev cur +:+ s].
Proof.
  revert cur. induction s as [| c s IH]; intros cur; simpl.
  - intros _. by rewrite str_app_nil_r.
  - intros [Hc Hs]%andb_true_iff.
    destruct (Ascii.eqb c sep); [done |].
    rewrite IH by done. by rewrite str_rev_cons, str_app_assoc.
Qed.

Lemma split_go_field sep cur s rest :
  all_chars (fun c => negb (Ascii.eqb c sep)) s = true →
  Py.split_go sep cur (s +:+ String sep rest) =
  (String.rev cur +:+ s) :: Py.split_go sep "" rest.
Proof.
  revert cur. induction s as [| c s IH]; intros cur.
  - intros _. rewrite str_app_nil_l, str_app_nil_r. simpl. by rewrite Ascii.eqb_refl.
  - intros [Hc Hs]%andb_true_iff. rewrite str_app_cons.
    change (Py.split_go sep cur (String c (s +:+ String sep rest)))
      with (if Ascii.eqb c sep
            then String.rev cur :: Py.split_go sep "" (s +:+ String sep rest)
            else Py.split_go sep (String c cur) (s +:+ String sep rest)).
    destruct (Ascii.eqb c sep); [done |].
    rewrite IH by done. by rewrite str_rev_cons, str_app_assoc.
Qed.

End Strings.

(** ** Numerals: [int] reads what [str] writes *)

Section Numerals.

Implicit Types (s : string) (c : ascii) (x : N) (z : Z).

Lemma digit_pretty_N_char x :
  (x < 10)%N → Py.digit (pretty_N_char x) = Some (Z.of_N x).
Proof.
  intros Hx.
  assert (x = 0 ∨ x = 1 ∨ x = 2 ∨ x = 3 ∨ x = 4 ∨ x = 5 ∨ x = 6 ∨ x = 7
          ∨ x = 8 ∨ x = 9)%N as H by lia.
  repeat destruct H as [-> | H]; try subst x; reflexivity.
Qed.

Lemma digits_go_pretty_N_go x s acc b :
  (0 < x)%N →
  ∃ m, Py.digits_go acc b (pretty_N_go x s) =
       Py.digits_go (acc * m + Z.of_N x) true s.
Proof.
  revert s acc b. induction (N.lt_wf_0 x) as [x _ IH]; intros s acc b Hx.
  rewrite pretty_N_go_step by done.
  assert (Hd : Py.digit (pretty_N_char (x `mod` 10)) = Some (Z.of_N (x `mod` 10))).
  { apply digit_pretty_N_char, N.mod_lt. done. }
  destruct (decide (x `div` 10 = 0)%N) as [H0 | H0].
  - rewrite H0, pretty_N_go_0. simpl. rewrite Hd.
    exists 10. f_equal.
    rewrite N.div_small_iff in H0 by done.
    rewrite N.mod_small by done. done.
  - assert (0 < x `div` 10)%N as Hq by (by apply N.neq_0_lt_0).
    assert (x `div` 10 < x)%N as Hlt by (apply N.div_lt; lia).
    destruct (IH _ Hlt (String (pretty_N_char (x `mod` 10)) s) acc b Hq)
      as [m Hm].
    rewrite Hm. simpl. rewrite Hd.
    exists (m * 10). f_equal.
    rewrite (N.div_mod x 10) at 3 by done.
    rewrite N2Z.inj_add, N2Z.inj_mul. simpl Z.of_N. ring.
Qed.

Lemma all_chars_pretty_N_go (p : ascii → bool) x s :
  (∀ d, p (pretty_N_char d) = true) →
  all_chars p s = true → all_chars p (pretty_N_go x s) = true.
Proof.
  intros Hp. revert s. induction (N.lt_wf_0 x) as [x _ IH]; intros s Hs.
  destruct (decide (0 < x)%N) as [Hx | Hx].
  - rewrite pretty_N_go_step by done. apply IH.
    + apply N.div_lt; lia.
    + simpl. by rewrite Hp, Hs.
  - assert (x = 0%N) as -> by lia. by rewrite pretty_N_go_0.
Qed.

Lemma is_digit_pretty_N_char d : is_digit (pretty_N_char d) = true.
Proof. unfold pretty_N_char. by repeat case_match. Qed.

Lemma int_digits s :
  all_chars is_digit s = true → Py.int s = Py.digits_go 0 false s.
Proof.
  destruct s as [| c s]; [done |].
  simpl. intros [Hc _]%andb_true_iff.
  by destruct c as [[] [] [] [] [] [] [] []].
Qed.

Lemma int_pretty_pos (q : positive) :
  Py.int (pretty_N_go (Npos q) "") = Some (Zpos q)
  ∧ Py.digits_go 0 false (pretty_N_go (Npos q) "") = Some (Zpos q).
Proof.
  assert (Py.digits_go 0 false (pretty_N_go (Npos q) "") = Some (Zpos q)) as H.
  { destruct (digits_go_pretty_N_go (Npos q) "" 0 false) as [m ->]; [lia |].
    simpl. done. }
  split; [| done].
  rewrite int_digits; [done |].
  apply all_chars_pretty_N_go; [apply is_digit_pretty_N_char | done].
Qed.

(** [int(str(z)) == z] *)
Lemma int_pretty z : Py.int (pretty z) = Some z.
Proof.
  destruct z as [| q | q].
  - reflexivity.
  - unfold pretty, pretty_Z, pretty, pretty_positive, pretty, pretty_N.
    destruct (decide _) as [? | _]; [done |].
    apply int_pretty_pos.
  - unfold pretty, pretty_Z, pretty, pretty_positive, pretty, pretty_N.
    destruct (decide _) as [? | _]; [done |].
    change (Py.int ("-" +:+ pretty_N_go (N.pos q) ""))
      with (Z.opp <$> Py.digits_go 0 false (pretty_N_go (N.pos q) "")).
    by rewrite (proj2 (int_pretty_pos q)).
Qed.

(** The numeral of an integer holds digits and at most a sign: no
    whitespace and no comma. *)
Lemma field_char_pretty z : all_chars field_char (pretty z) = true.
Proof.
  assert (∀ d, field_char (pretty_N_char d) = true) as Hd.
  { intros d. unfold pretty_N_char. by repeat case_match. }
  destruct z as [| q | q].
  - reflexivity.
  - unfold pretty, pretty_Z, pretty, pretty_positive, pretty, pretty_N.
    destruct (decide _) as [? | _]; [done |].
    by apply all_chars_pretty_N_go.
  - unfold pretty, pretty_Z, pretty, pretty_positive, pretty, pretty_N.
    destruct (decide _) as [? | _]; [done |].
    rewrite str_app_cons, str_app_nil_l. simpl.
    by apply all_chars_pretty_N_go.
Qed.

End Numerals.

(** ** Reports in the generator's format are read back row by row *)

Section ReportFormat.

Implicit Types (s id line rest : string) (x y a : Z).

Lemma field_char_not_space s :
  all_chars field_char s = true → all_chars not_space s = true.
Proof.
  apply all_chars_impl. intros c. unfold field_char, not_space.
  by intros [? _]%andb_true_iff.
Qed.

Lemma field_char_no_comma s :
  all_chars field_char s = true →
  all_chars (fun c => negb (Ascii.eqb c ",")) s = true.
Proof.
  apply all_chars_impl. intros c. unfold field_char.
  by intros [_ ?]%andb_true_iff.
Qed.

Lemma not_space_no_newline s :
  all_chars not_space s = true →
  all_chars (fun c => negb (Ascii.eqb c Py.newline)
                      && negb (Ascii.eqb c "013")) s = true.
Proof.
  apply all_chars_impl. intros c. unfold not_space.
  destruct (Ascii.eqb_spec c Py.newline) as [-> | _]; [done |].
  destruct (Ascii.eqb_spec c "013") as [-> | _]; [done | done].
Qed.

Lemma report_lines_nil : report_lines "" = [].
Proof. reflexivity. Qed.

(** A line without whitespace that is not a comment is kept as it is. *)
Lemma report_lines_cons line rest :
  all_chars not_space line = true →
  line ≠ "" → Py.startswith "#" line = false →
  report_lines (line +:+ nl +:+ rest) = line :: report_lines rest.
Proof.
  intros Hs Hne Hc. unfold report_lines.
  rewrite readlines_line by by apply not_space_no_newline.
  rewrite fmap_cons, strip_line_nl by done.
  rewrite filter_cons_True by done. done.
Qed.

(** A line of four fields without whitespace is parsed to its row. *)
Lemma parse_line_fields id x y a :
  all_chars field_char id = true → id ≠ "" →
  parse_line (id +:+ "," +:+ pretty x +:+ "," +:+ pretty y +:+ "," +:+ pretty a)
  = Some {| defect_id := id; center_x := x; center_y := y; ai_adc_type := a;
            adc_type := None; severity := None; comment := None;
            label_time := None; label_count := None |}.
Proof.
  intros Hid Hne. unfold parse_line, Py.split.
  change (id +:+ "," +:+ pretty x +:+ "," +:+ pretty y +:+ "," +:+ pretty a)
    with (id +:+ String "," (pretty x +:+ String ","
            (pretty y +:+ String "," (pretty a)))).
  rewrite !split_go_field by (apply field_char_no_comma;
                              first [done | apply field_char_pretty]).
  rewrite split_go_last by (apply field_char_no_comma, field_char_pretty).
  change (String.rev "") with "". rewrite !str_app_nil_l.
  rewrite !strip_not_space by (apply field_char_not_space;
                               first [done | apply field_char_pretty]).
  rewrite !int_pretty. simpl.
  destruct (String.eqb_spec id ""); [done | done].
Qed.

End ReportFormat.

(** ** The generator's reports *)

Section Generator.

Implicit Types (wafer_type : string) (i j n : N) (draws : list draw).

Lemma field_char_pretty_N n : all_chars field_char (pretty n) = true.
Proof.
  destruct n as [| q]; [done |].
  apply (field_char_pretty (Zpos q)).
Qed.

Lemma field_char_zeros k : all_chars field_char (zeros k) = true.
Proof. induction k as [| k IH]; [done |]. simpl. by rewrite IH. Qed.

Lemma field_char_zero_padded k n : all_chars field_char (zero_padded k n) = true.
Proof.
  unfold zero_padded.
  by rewrite all_chars_app, field_char_zeros, field_char_pretty_N.
Qed.

Lemma field_char_generated_defect_id wafer_type i j :
  all_chars field_char wafer_type = true →
  all_chars field_char (generated_defect_id wafer_type i j) = true.
Proof.
  intros Hw. unfold generated_defect_id.
  rewrite !all_chars_app, Hw, !field_char_zero_padded. done.
Qed.

Lemma digits_go_zeros k b s :
  Py.digits_go 0 b (zeros k +:+ s) =
  Py.digits_go 0 (match k with O => b | S _ => true end) s.
Proof.
  revert b. induction k as [| k IH]; intros b; [done |].
  simpl zeros. rewrite str_app_cons. simpl. rewrite IH. by destruct k.
Qed.

Lemma digits_go_pretty_N n b :
  Py.digits_go 0 b (pretty n) = Some (Z.of_N n).
Proof.
  unfold pretty, pretty_N. destruct (decide (n = 0%N)) as [-> | Hn]; [done |].
  destruct (digits_go_pretty_N_go n "" 0 b) as [m ->]; [lia |]. done.
Qed.

(** The zero-padded numeral is read back by [int]: padding loses nothing. *)
Lemma zero_padded_inj k : Inj (=) (=) (zero_padded k).
Proof.
  intros n1 n2 Heq.
  assert (∀ n, Py.digits_go 0 false (zero_padded k n) = Some (Z.of_N n)) as H.
  { intros n. unfold zero_padded.
    by rewrite digits_go_zeros, digits_go_pretty_N. }
  pose proof (H n1) as H1. rewrite Heq, H in H1. injection H1. lia.
Qed.

Lemma generated_defect_id_inj wafer_type i : Inj (=) (=) (generated_defect_id wafer_type i).
Proof.
  intros j1 j2 Heq. unfold generated_defect_id in Heq.
  do 4 apply String.app_inj in Heq.
  by apply zero_padded_inj in Heq.
Qed.

Lemma omap_cons_Some {A B} (f : A → option B) x y l :
  f x = Some y → omap f (x :: l) = y :: omap f l.
Proof. intros H. simpl. by rewrite H. Qed.

Lemma report_lines_generated_lines wafer_type i j draws :
  all_chars field_char wafer_type = true →
  omap parse_line (report_lines (generated_lines wafer_type i j draws))
  = generated_rows wafer_type i j draws
  ∧ length (Py.readlines (generated_lines wafer_type i j draws)) = length draws
  ∧ length (report_lines (generated_lines wafer_type i j draws)) = length draws.
Proof.
  intros Hw. revert j. induction draws as [| d draws IH]; intros j; [done |].
  simpl generated_lines. simpl generated_rows.
  set (id := generated_defect_id wafer_type i j).
  set (line := id +:+ "," +:+ pretty (draw_x d) +:+ "," +:+ pretty (draw_y d)
               +:+ "," +:+ pretty (draw_type d)).
  assert (all_chars field_char id = true) as Hid
    by by apply field_char_generated_defect_id.
  assert (id ≠ "") as Hne by done.
  assert (all_chars not_space line = true) as Hline.
  { unfold line. rewrite !all_chars_app.
    rewrite (field_char_not_space id) by done.
    by rewrite !(field_char_not_space (pretty _)) by apply field_char_pretty. }
  replace (id +:+ "," +:+ pretty (draw_x d) +:+ "," +:+ pretty (draw_y d)
           +:+ "," +:+ pretty (draw_type d) +:+ nl
           +:+ generated_lines wafer_type i (N.succ j) draws)
    with (line +:+ nl +:+ generated_lines wafer_type i (N.succ j) draws)
    by (unfold line; by rewrite !str_app_assoc).
  destruct (IH (N.succ j)) as (IH1 & IH2 & IH3).
  split; [| split].
  - rewrite report_lines_cons; [| done | done | done].
    unfold line.
    rewrite (omap_cons_Some parse_line _ _ _ (parse_line_fields id _ _ _ Hid Hne)).
    by rewrite IH1.
  - rewrite readlines_line by by apply not_space_no_newline.
    simpl. by rewrite IH2.
  - rewrite report_lines_cons; [| done | done | done].
    simpl. by rewrite IH3.
Qed.

Lemma report_lines_generated_report wafer_type i draws :
  report_lines (generated_report wafer_type i draws) =
  "defect_id,center_x,center_y,ai_adc_type"
  :: report_lines (generated_lines wafer_type i 1 draws).
Proof. unfold generated_report. by rewrite report_lines_cons. Qed.

Lemma defect_id_generated_rows wafer_type i j draws :
  defect_id <$> generated_rows wafer_type i j draws =
  (fun k => generated_defect_id wafer_type i (j + N.of_nat k))
    <$> seq 0 (length draws).
Proof.
  revert j. induction draws as [| d draws IH]; intros j; [done |].
  simpl. rewrite N.add_0_r. f_equal.
  rewrite IH, <- fmap_S_seq, <- list_fmap_compose.
  apply list_fmap_ext. intros _ k _. simpl. f_equal. lia.
Qed.

Lemma generated_rows_NoDup wafer_type i j draws :
  NoDup (defect_id <$> generated_rows wafer_type i j draws).
Proof.
  rewrite defect_id_generated_rows.
  apply NoDup_fmap_2; [| apply NoDup_seq].
  intros k1 k2 Heq. apply generated_defect_id_inj in Heq. lia.
Qed.

Lemma generated_rows_bindable wafer_type i j draws :
  Forall possible_draw draws →
  forallb bindable (generated_rows wafer_type i j draws) = true.
Proof.
  intros H. revert j. induction H as [| d draws (Hx & Hy & Ha) _ IH]; intros j;
    [done |].
  simpl. rewrite IH, andb_true_r.
  unfold bindable, fits_int64. simpl.
  rewrite !andb_true_iff, !Z.leb_le, !Z.ltb_lt. lia.
Qed.

Lemma length_generated_rows wafer_type i j draws :
  length (generated_rows wafer_type i j draws) = length draws.
Proof. revert j. induction draws; intros j; simpl; [done |]. by f_equal. Qed.

End Generator.

(** ** A report with distinct ids is stored line by line *)

Section DistinctIds.

Implicit Types (f : gmap string folder) (p : string) (data rs : list defect).

Lemma insert_or_replace_fresh (r : defect) rs :
  defect_id r ∉ defect_id <$> rs → insert_or_replace r rs = rs ++ [r].
Proof.
  intros Hr. unfold insert_or_replace. f_equal.
  induction rs as [| a rs IH]; [done |].
  rewrite fmap_cons, not_elem_of_cons in Hr. destruct Hr as [Hne Hr].
  rewrite filter_cons_True by done. f_equal. auto.
Qed.

Lemma executemany_insert_distinct data rs :
  NoDup (defect_id <$> (rs ++ data)) → executemany_insert data rs = rs ++ data.
Proof.
  revert rs. induction data as [| r data IH]; intros rs Hnd; simpl.
  - by rewrite app_nil_r.
  - rewrite insert_or_replace_fresh.
    + rewrite IH; rewrite <- app_assoc; done.
    + rewrite fmap_app, fmap_cons in Hnd.
      apply NoDup_app in Hnd as (_ & Hnd & _).
      intros Hin. apply (Hnd _ Hin). left.
Qed.

Lemma built_table_distinct content :
  NoDup (defect_id <$> insert_data (report_lines content)) →
  forallb bindable (insert_data (report_lines content)) = true →
  insert_data (report_lines content) ≠ [] →
  built_table (Some content)
  = Some {| columns := base_columns;
            rows := insert_data (report_lines content) |}.
Proof.
  intros Hnd Hb Hne. unfold built_table. simpl.
  destruct (report_lines content) as [| l ls] eqn:Hl; [done |].
  rewrite Hb, (executemany_insert_distinct _ []) by done. simpl.
  by destruct (insert_data (l :: ls)).
Qed.

(** X1: [_create_inner_database] on a report of ASCII text, with
    lines of at most 4300 characters, whose parsed rows have pairwise
    distinct ids and numbers SQLite can bind leaves a detail store that
    holds exactly the parsed rows, in the order of the report: one row per
    well-formed line, none lost and none merged. *)
Theorem create_stores_parsed_rows_in_order
    (p : string) (n : Z) (f : gmap string folder) (content : string) :
  report p f = Some content →
  plain_report content = true →
  NoDup (defect_id <$> insert_data (report_lines content)) →
  forallb bindable (insert_data (report_lines content)) = true →
  insert_data (report_lines content) ≠ [] →
  store p (_create_inner_database p n f)
  = Some (Some {| columns := base_columns;
                  rows := insert_data (report_lines content) |}).
Proof.
  intros Hr _ Hnd Hb Hne.
  rewrite create_inner_database_store, Hr, built_table_distinct by done.
  done.
Qed.

End DistinctIds.

(** ** What the generator writes is what the parser stores *)

Section GeneratedUnits.

Implicit Types (f : gmap string folder) (wafer_type base_path : string)
  (i : N) (draws : list draw).

Lemma insert_data_generated_report wafer_type i draws :
  all_chars field_char wafer_type = true →
  insert_data (report_lines (generated_report wafer_type i draws))
  = generated_rows wafer_type i 1 draws.
Proof.
  intros Hw. rewrite report_lines_generated_report. unfold insert_data. simpl.
  by apply report_lines_generated_lines.
Qed.

Lemma built_table_generated_report wafer_type i draws :
  all_chars field_char wafer_type = true →
  Forall possible_draw draws → draws ≠ [] →
  built_table (Some (generated_report wafer_type i draws))
  = Some {| columns := base_columns;
            rows := generated_rows wafer_type i 1 draws |}.
Proof.
  intros Hw Hd Hne.
  rewrite built_table_distinct; rewrite insert_data_generated_report by done.
  - done.
  - apply generated_rows_NoDup.
  - by apply generated_rows_bindable.
  - by destruct draws.
Qed.

Lemma parse_wafer_folder_insert (p : string) (d : folder) (g : gmap string folder) :
  _parse_wafer_folder p (<[p := d]> g) =
  match raw_data_txt d with
  | None => (<[p := d]> g, Raise (Exception_ "raw_data.txt文件不存在"))
  | Some content =>
      if negb (bright_field_png d) || negb (dark_field_png d)
      then (<[p := d]> g, Raise (Exception_ "明场/暗场图像文件缺失"))
      else (<[p := set_database (Some <$> built_table (raw_data_txt d)) d]> g,
            Ok (Z.of_nat (length (Py.readlines content)) - 1))
  end.
Proof.
  unfold _parse_wafer_folder. rewrite lookup_insert_eq. simpl.
  destruct (raw_data_txt d) as [content |] eqn:Hraw; [| done].
  destruct (negb (bright_field_png d) || negb (dark_field_png d)); [done |].
  by rewrite create_inner_database_insert, Hraw.
Qed.

(** X2: the report the generator writes for any list of draws is read
    back by the parser of [_create_inner_database] as exactly the generated
    defects, in order: id [DEF_<type><i>_<j>] and the three numbers of each
    draw, no line skipped. *)
Theorem generated_report_read_back
    (wafer_type : string) (i : N) (draws : list draw) :
  all_chars field_char wafer_type = true →
  insert_data (report_lines (generated_report wafer_type i draws))
  = generated_rows wafer_type i 1 draws
  ∧ NoDup (defect_id <$> generated_rows wafer_type i 1 draws)
  ∧ length (generated_rows wafer_type i 1 draws) = length draws.
Proof.
  intros Hw. split; [| split].
  - by apply insert_data_generated_report.
  - apply generated_rows_NoDup.
  - apply length_generated_rows.
Qed.

(** X3: a folder written by the generator is ingested completely:
    [_parse_wafer_folder] returns the number of generated defects and leaves
    a detail store whose rows are the generated defects, in order. *)
Theorem generated_wafer_parsed
    (base_path wafer_type : string) (i : N) (draws : list draw)
    (f : gmap string folder) :
  all_chars field_char wafer_type = true →
  Forall possible_draw draws → draws ≠ [] →
  let wafer_dir := Py.join base_path (generated_wafer_name wafer_type i) in
  let '(f', res) :=
    _parse_wafer_folder wafer_dir (generate_wafer base_path wafer_type i draws f) in
  res = Ok (Z.of_nat (length draws))
  ∧ store wafer_dir f'
    = Some (Some {| columns := base_columns;
                    rows := generated_rows wafer_type i 1 draws |})
  ∧ ∀ q, q ≠ wafer_dir → f' !! q = f !! q.
Proof.
  intros Hw Hd Hne wafer_dir.
  unfold generate_wafer. fold wafer_dir.
  rewrite parse_wafer_folder_insert. cbn [raw_data_txt bright_field_png dark_field_png negb orb].
  rewrite built_table_generated_report by done.
  split; [| split].
  - f_equal. unfold generated_report.
    rewrite readlines_line by done. cbn [length].
    destruct (report_lines_generated_lines wafer_type i 1 draws Hw)
      as (_ & -> & _). lia.
  - unfold store. by rewrite lookup_insert_eq.
  - intros q Hq. by rewrite !lookup_insert_ne.
Qed.

End GeneratedUnits.

Section GeneratedSamples.

Lemma create_stores_parsed_rows_in_order_witness :
  report "/data/W01" {[ "/data/W01" := unit_folder report5 ]} = Some report5
  ∧ store "/data/W01"
      (_create_inner_database "/data/W01" 5
         {[ "/data/W01" := unit_folder report5 ]})
    = Some (Some {| columns := base_columns;
                    rows := insert_data (report_lines report5) |}).
Proof.
  split; [reflexivity |].
  apply (create_stores_parsed_rows_in_order "/data/W01" 5
           {[ "/data/W01" := unit_folder report5 ]} report5).
  - reflexivity.
  - vm_compute. reflexivity.
  - apply (bool_decide_unpack _). vm_compute. exact I.
  - vm_compute. reflexivity.
  - vm_compute. discriminate.
Defined.

Lemma generated_report_read_back_witness :
  all_chars field_char "A" = true
  ∧ defect_id <$>
      insert_data
        (report_lines
           (generated_report "A" 1
              [ {| draw_x := 100; draw_y := 300; draw_type := 5 |};
                {| draw_x := 500; draw_y := 100; draw_type := 1 |} ]))
    = ["DEF_A01_001"; "DEF_A01_002"].
Proof.
  split; [reflexivity |].
  destruct (generated_report_read_back "A" 1
              [ {| draw_x := 100; draw_y := 300; draw_type := 5 |};
                {| draw_x := 500; draw_y := 100; draw_type := 1 |} ]
              ltac:(reflexivity)) as (-> & _ & _).
  reflexivity.
Defined.

Lemma generated_wafer_parsed_witness :
  let draws := [ {| draw_x := 100; draw_y := 300; draw_type := 5 |};
                 {| draw_x := 500; draw_y := 100; draw_type := 1 |} ] in
  Forall possible_draw draws
  ∧ ∃ t, store "/data/A-01"
           (_parse_wafer_folder "/data/A-01"
              (generate_wafer "/data" "A" 1 draws ∅)).1 = Some (Some t)
         ∧ defect_id <$> rows t = ["DEF_A01_001"; "DEF_A01_002"].
Proof.
  assert (Forall possible_draw
            [ {| draw_x := 100; draw_y := 300; draw_type := 5 |};
              {| draw_x := 500; draw_y := 100; draw_type := 1 |} ]) as Hd.
  { repeat constructor; simpl; lia. }
  split; [exact Hd |].
  pose proof (generated_wafer_parsed "/data" "A" 1 _ ∅
                ltac:(reflexivity) Hd ltac:(discriminate)) as H.
  change (Py.join "/data" (generated_wafer_name "A" 1)) with "/data/A-01" in H.
  cbv zeta in H.
  destruct (_parse_wafer_folder "/data/A-01" _) as [f' res].
  cbn [fst]. destruct H as (_ & -> & _). eexists. split; [reflexivity |]. reflexivity.
Defined.

End GeneratedSamples.

(** ** Creation of the detail store depends on the report only *)

Section CreationAgain.

Implicit Types (f : gmap string folder) (p : string) (d : folder).

Lemma create_inner_database_lookup p n f d :
  f !! p = Some d →
  _create_inner_database p n f =
  <[p := set_database (Some <$> built_table (raw_data_txt d)) d]> f.
Proof.
  intros Hd. rewrite <- (insert_id f p d) at 1 by done.
  apply create_inner_database_insert.
Qed.

(** X4: [_create_inner_database] rebuilds from the report alone: the
    result does not depend on the [database.db] that was there (its rows
    and labels are discarded), nor on the [defect_count] argument, and a
    second creation changes nothing. *)
Theorem create_depends_on_report_only
    (p : string) (n m : Z) (f : gmap string folder) :
  (∀ t, _create_inner_database p n (write_inner_db p t f)
        = _create_inner_database p m f)
  ∧ _create_inner_database p n (remove_inner_db p f)
    = _create_inner_database p m f
  ∧ _create_inner_database p n (_create_inner_database p m f)
    = _create_inner_database p m f.
Proof.
  destruct (f !! p) as [d |] eqn:Hd.
  - rewrite (create_inner_database_lookup p m f d Hd).
    unfold write_inner_db, remove_inner_db. rewrite Hd.
    split; [| split]; [intros t | ..];
      rewrite create_inner_database_insert; simpl;
      by rewrite set_database_set_database, ?insert_insert_eq.
  - unfold write_inner_db, remove_inner_db. rewrite Hd.
    rewrite !(create_inner_database_eq p _ f), Hd. simpl.
    split; [done | split; [done |]].
    by rewrite create_inner_database_insert.
Qed.

(** X5: called for a folder that does not exist, [_create_inner_database]
    makes the folder ([os.makedirs]) and leaves it without report, images or
    detail store; every other folder is as before. *)
Theorem create_makes_missing_folder
    (p : string) (n : Z) (f : gmap string folder) :
  f !! p = None →
  _create_inner_database p n f = <[p := empty_folder]> f
  ∧ store p (_create_inner_database p n f) = None.
Proof.
  intros Hp. rewrite create_inner_database_eq, Hp. simpl.
  split; [done |]. unfold store. by rewrite lookup_insert_eq.
Qed.

Lemma create_makes_missing_folder_witness :
  _create_inner_database "/data/W09" 0 ∅ = {[ "/data/W09" := empty_folder ]}.
Proof.
  apply (create_makes_missing_folder "/data/W09" 0 ∅). reflexivity.
Defined.

End CreationAgain.

(** ** Outcomes of a reconciliation *)

Section ReconcileOutcomes.

Implicit Types (w : world) (r : wafer_metadata) (f : gmap string folder).

Lemma sync_progress_scratch wafer_id folder_path w :
  scratch (_sync_progress wafer_id folder_path w) = scratch w
  ∧ next_tmp (_sync_progress wafer_id folder_path w) = next_tmp w.
Proof.
  rewrite sync_progress_eq.
  destruct (fs w !! folder_path ≫= raw_data_txt) as [content |]; [| done].
  simpl. destruct (report_lines content); [done |].
  by destruct (built_table (Some content)).
Qed.

Lemma report_Some_lookup p f content :
  report p f = Some content →
  ∃ d, f !! p = Some d ∧ raw_data_txt d = Some content.
Proof.
  unfold report. destruct (f !! p) as [d |]; [| done]. simpl. eauto.
Qed.

Lemma built_table_no_row content :
  insert_data (report_lines content) = [] → built_table (Some content) = None.
Proof.
  intros H. unfold built_table. simpl.
  destruct (report_lines content) as [| l ls]; [done |].
  rewrite H. done.
Qed.

Lemma lookup_rebuild_ne p q f : p ≠ q → rebuild p f !! q = f !! q.
Proof.
  intros Hne. unfold rebuild. destruct (f !! p); [| done].
  by rewrite lookup_insert_ne.
Qed.

(** X6: a reconciliation of an indexed unit returns [True] and leaves
    its row in one of two shapes.  Either the row is parsed
    ([parsed_status] 1, no [parse_error]) and agrees with the detail store
    on disk: the store exists, [total_defects] is its number of rows, which
    is positive, every row is unlabeled and [labeled_defects], [progress]
    and [label_status] are 0.  Or the row is marked as failed
    ([parsed_status] 2 with a [parse_error]) and its four counters are
    untouched.  Name, folder path and creation time never change. *)
Theorem reconcile_parsed_or_error
    (wafer_id : string) (w : world) (r : wafer_metadata) :
  index w !! wafer_id = Some r →
  ∃ w' r',
    sync_wafer_progress wafer_id w = (w', true)
    ∧ index w' !! wafer_id = Some r'
    ∧ wafer_name r' = wafer_name r ∧ folder_path r' = folder_path r
    ∧ create_time r' = create_time r ∧ last_operated r' = clock w
    ∧ ((parsed_status r' = 1 ∧ parse_error r' = None
        ∧ labeled_defects r' = 0 ∧ progress r' = S754_zero false
        ∧ label_status r' = 0
        ∧ ∃ t, store (folder_path r) (fs w') = Some (Some t)
               ∧ total_defects r' = count_all t ∧ 0 < count_all t
               ∧ ∀ row, row ∈ rows t → unlabeled row)
       ∨ (parsed_status r' = 2 ∧ is_Some (parse_error r')
          ∧ summary r' = summary r)).
Proof.
  intros Hr.
  pose proof (sync_wafer_progress_lookup wafer_id w r Hr) as Hl.
  unfold sync_wafer_progress in *. rewrite Hr in *. simpl in Hl.
  eexists _, _. split; [reflexivity |]. split; [exact Hl |].
  unfold synced_row.
  destruct (built_table (report (folder_path r) (fs w))) as [t |] eqn:Ht;
    simpl; repeat (split; [done |]).
  - left. repeat (split; [done |]).
    exists t.
    apply built_table_Some in Ht as Ht'.
    destruct Ht' as (content & Hraw & _).
    destruct (report_Some_lookup _ _ _ Hraw) as (d & Hd & _).
    rewrite sync_progress_fs, Hraw, store_rebuild, Ht by eauto.
    split; [done |]. split; [done |].
    split; [by eapply built_table_count_all |].
    intros row. by eapply built_table_unlabeled.
  - right. split; [done |]. split; [eauto | done].
Qed.

Lemma reconcile_parsed_or_error_witness :
  ∃ w' r',
    sync_wafer_progress "w01" synced_world = (w', true)
    ∧ index w' !! "w01" = Some r'
    ∧ parsed_status r' = 1 ∧ total_defects r' = 5.
Proof.
  destruct (reconcile_parsed_or_error "w01" synced_world _
              ltac:(vm_compute; reflexivity))
    as (w' & r' & Hs & Hl & _).
  exists w', r'. split; [exact Hs |]. split; [exact Hl |].
  revert Hs Hl. vm_compute. intros [= <-] [= <-]. done.
Defined.

(** X7: when the unit's [raw_data.txt] is missing, a reconciliation
    marks the row as failed with the message [raw_data.txt文件不存在], stamps
    it, keeps the four counters and touches no file: a detail store that is
    there stays, labels included.  The call still returns [True]. *)
Theorem reconcile_without_report
    (wafer_id : string) (w : world) (r : wafer_metadata) :
  index w !! wafer_id = Some r →
  report (folder_path r) (fs w) = None →
  ∃ w',
    sync_wafer_progress wafer_id w = (w', true)
    ∧ fs w' = fs w
    ∧ index w' =
        <[wafer_id :=
            {| wafer_name := wafer_name r; folder_path := folder_path r;
               total_defects := total_defects r;
               labeled_defects := labeled_defects r;
               progress := progress r; label_status := label_status r;
               parsed_status := 2;
               parse_error := Some "raw_data.txt文件不存在";
               last_operated := clock w; create_time := create_time r |}]>
          (index w).
Proof.
  intros Hr Hraw. unfold sync_wafer_progress. rewrite Hr.
  eexists. split; [reflexivity |].
  rewrite sync_progress_fs, sync_progress_index, Hraw.
  split; [done |].
  apply map_eq. intros k. destruct (decide (k = wafer_id)) as [-> |].
  - by rewrite lookup_alter_eq, lookup_insert_eq, Hr.
  - by rewrite lookup_alter_ne, lookup_insert_ne.
Qed.

Lemma reconcile_without_report_witness :
  ∃ w', sync_wafer_progress "w01" (set_fs ∅ synced_world) = (w', true)
        ∧ fs w' = ∅
        ∧ (parsed_status <$> index w' !! "w01") = Some 2.
Proof.
  destruct (reconcile_without_report "w01" (set_fs ∅ synced_world) _
              ltac:(vm_compute; reflexivity) ltac:(vm_compute; reflexivity))
    as (w' & Hs & Hf & Hi).
  exists w'. split; [exact Hs |]. split; [exact Hf |].
  rewrite Hi. reflexivity.
Defined.

(** X8: when [raw_data.txt] is there, is ASCII text with lines of at
    most 4300 characters, but yields no row (it is empty, holds only blank
    lines and comments, only a header, or only malformed lines), a
    reconciliation deletes the detail store, leaves none behind and
    marks the row as failed: with [raw_data.txt文件为空或格式不正确] when no
    line is left after filtering, with [内层数据库创建失败] otherwise.  The
    four counters keep their old values. *)
Theorem reconcile_report_without_rows
    (wafer_id : string) (w : world) (r : wafer_metadata) (content : string) :
  index w !! wafer_id = Some r →
  report (folder_path r) (fs w) = Some content →
  plain_report content = true →
  insert_data (report_lines content) = [] →
  ∃ w' r',
    sync_wafer_progress wafer_id w = (w', true)
    ∧ index w' !! wafer_id = Some r'
    ∧ store (folder_path r) (fs w') = None
    ∧ parsed_status r' = 2
    ∧ parse_error r' =
        Some (match report_lines content with
              | [] => "raw_data.txt文件为空或格式不正确"
              | _ => "内层数据库创建失败"
              end)
    ∧ summary r' = summary r.
Proof.
  intros Hr Hraw _ Hdata.
  pose proof (sync_wafer_progress_lookup wafer_id w r Hr) as Hl.
  unfold sync_wafer_progress in *. rewrite Hr in *. simpl in Hl.
  eexists _, _. split; [reflexivity |]. split; [exact Hl |].
  destruct (report_Some_lookup _ _ _ Hraw) as (d & Hd & _).
  rewrite sync_progress_fs, Hraw, store_rebuild, Hraw by eauto.
  unfold synced_row. rewrite (built_table_no_row _ Hdata). done.
Qed.

Lemma reconcile_report_without_rows_witness :
  let w := set_fs {[ "/data/W01" :=
                       set_database (Some (Some reviewed_table))
                         (unit_folder report_header) ]} synced_world in
  ∃ w', sync_wafer_progress "w01" w = (w', true)
        ∧ store "/data/W01" (fs w) = Some (Some reviewed_table)
        ∧ store "/data/W01" (fs w') = None
        ∧ (parse_error <$> index w' !! "w01") = Some (Some "内层数据库创建失败").
Proof.
  intros w.
  destruct (reconcile_report_without_rows "w01" w _ report_header
              ltac:(vm_compute; reflexivity) ltac:(vm_compute; reflexivity)
              ltac:(vm_compute; reflexivity) ltac:(vm_compute; reflexivity))
    as (w' & r' & Hs & Hl & Hst & _ & He & _).
  exists w'. split; [exact Hs |]. split; [reflexivity |].
  split; [exact Hst |]. rewrite Hl. simpl. by rewrite He.
Defined.

(** X9: a reconciliation of one unit leaves every other row of the
    index, every other folder, every report, the export files and the clock
    of temporary names as they were; it adds no row and removes none; for an
    id that is not indexed it changes nothing and returns [False]. *)
Theorem reconcile_frame (wafer_id : string) (w : world) :
  let w' := (sync_wafer_progress wafer_id w).1 in
  (∀ id, id ≠ wafer_id → index w' !! id = index w !! id)
  ∧ (∀ id, is_Some (index w' !! id) ↔ is_Some (index w !! id))
  ∧ (∀ q, report q (fs w') = report q (fs w))
  ∧ (∀ r q, index w !! wafer_id = Some r → q ≠ folder_path r →
            fs w' !! q = fs w !! q)
  ∧ scratch w' = scratch w ∧ next_tmp w' = next_tmp w
  ∧ (index w !! wafer_id = None →
     sync_wafer_progress wafer_id w = (w, false)).
Proof.
  unfold sync_wafer_progress.
  destruct (index w !! wafer_id) as [r |] eqn:Hr; simpl.
  - rewrite sync_progress_index.
    split; [| split; [| split; [| split; [| split; [| split]]]]].
    + intros id Hid. by rewrite lookup_alter_ne.
    + intros id. destruct (decide (id = wafer_id)) as [-> |].
      * rewrite lookup_alter_eq, Hr. simpl. split; eauto.
      * by rewrite lookup_alter_ne.
    + intros q. apply report_sync_progress.
    + intros r0 q [= <-] Hq. rewrite sync_progress_fs.
      destruct (report (folder_path r) (fs w)); [| done].
      by apply lookup_rebuild_ne.
    + apply sync_progress_scratch.
    + apply sync_progress_scratch.
    + done.
  - repeat split; done.
Qed.

End ReconcileOutcomes.

(** ** The labeling block of [save_label] *)

Section LabelWritten.

Implicit Types (w : world) (r : wafer_metadata) (d : folder) (t : table)
  (row : defect) (l : list defect).

Lemma has_column_app c cols c' :
  has_column c (cols ++ [c']) = has_column c cols || bool_decide (c = c').
Proof.
  unfold has_column. rewrite <- bool_decide_or.
  apply bool_decide_ext. by rewrite elem_of_app, list_elem_of_singleton.
Qed.

Lemma rows_ensure_label_columns t :
  rows (ensure_label_columns t) =
  if has_column "label_count" (columns t) then rows t
  else (fun row =>
          {| defect_id := defect_id row; center_x := center_x row;
             center_y := center_y row; ai_adc_type := ai_adc_type row;
             adc_type := adc_type row; severity := severity row;
             comment := comment row; label_time := label_time row;
             label_count := Some 0 |}) <$> rows t.
Proof.
  unfold ensure_label_columns.
  by repeat (destruct (has_column _ (columns t))).
Qed.

Lemma defect_id_ensure_label_columns t :
  defect_id <$> rows (ensure_label_columns t) = defect_id <$> rows t.
Proof.
  rewrite rows_ensure_label_columns.
  destruct (has_column _ _); [done |].
  rewrite <- list_fmap_compose. by apply list_fmap_ext.
Qed.

Lemma columns_ensure_label_columns t c :
  c ∈ ["severity"; "comment"; "label_time"; "label_count"] →
  has_column c (columns (ensure_label_columns t)) = true.
Proof.
  intros Hc. unfold ensure_label_columns.
  destruct (has_column "severity" (columns t)) eqn:H1;
    destruct (has_column "comment" (columns t)) eqn:H2;
    destruct (has_column "label_time" (columns t)) eqn:H3;
    destruct (has_column "label_count" (columns t)) eqn:H4;
    unfold add_label_count, add_column; simpl;
    rewrite ?has_column_app;
    repeat (apply elem_of_cons in Hc as [-> | Hc]);
    try (by apply elem_of_nil in Hc);
    rewrite ?H1, ?H2, ?H3, ?H4; simpl; by rewrite ?orb_true_r.
Qed.

(** With a primary key, the UPDATE of one id changes one position. *)
Lemma update_one_position (g : defect → defect) l (i : nat) row :
  NoDup (defect_id <$> l) → l !! i = Some row →
  (fun x => if String.eqb (defect_id x) (defect_id row) then g x else x) <$> l
  = <[i := g row]> l.
Proof.
  intros Hnd Hi. apply list_eq. intros j.
  rewrite list_lookup_fmap.
  destruct (decide (j = i)) as [-> | Hne].
  - rewrite list_lookup_insert_eq by by eapply lookup_lt_Some.
    rewrite Hi. simpl. by rewrite String.eqb_refl.
  - rewrite list_lookup_insert_ne by done.
    destruct (l !! j) as [x |] eqn:Hj; [| done]. simpl.
    destruct (String.eqb_spec (defect_id x) (defect_id row)) as [Heq | _];
      [| done].
    exfalso. apply Hne.
    eapply (NoDup_lookup _ j i); [exact Hnd | ..];
      rewrite list_lookup_fmap; [by rewrite Hj | by rewrite Hi, Heq].
Qed.

Lemma select_defect_id_ascending t :
  Sorted (fun a b => String.leb a b = true) (defect_id <$> rows t) →
  select_defect_id t = defect_id <$> rows t.
Proof.
  unfold select_defect_id.
  induction 1 as [| x l Hs IH Hx]; [done |].
  cbn [foldr]. rewrite IH.
  destruct Hx as [| y l Hxy]; [done |]. simpl. by rewrite Hxy.
Qed.

Lemma write_label_in_range p defect_index n sev com t w target :
  0 ≤ defect_index →
  select_defect_id t !! Z.to_nat defect_index = Some target →
  write_label p defect_index n sev com t w
  = set_fs (write_inner_db p
              (Some (update_label target n sev com (clock w)
                       (ensure_label_columns t))) (fs w))
      (now w).2.
Proof.
  intros Hi Hid.
  pose proof (lookup_lt_Some _ _ _ Hid) as Hlt.
  unfold write_label.
  assert (((0 <=? defect_index)
           && (defect_index <? Z.of_nat (length (select_defect_id t)))) = true)
    as ->.
  { apply andb_true_iff. split; [apply Z.leb_le | apply Z.ltb_lt]; lia. }
  rewrite Hid. done.
Qed.

Lemma write_label_store p defect_index n sev com t w d (k : nat) row :
  fs w !! p = Some d →
  0 ≤ defect_index →
  select_defect_id t !! Z.to_nat defect_index = Some (defect_id row) →
  rows (ensure_label_columns t) !! k = Some row →
  NoDup (defect_id <$> rows t) →
  store p (fs (write_label p defect_index n sev com t w))
  = Some (Some {| columns := columns (ensure_label_columns t);
                  rows := <[k := labeled_row n sev com (clock w) row]>
                            (rows (ensure_label_columns t)) |}).
Proof.
  intros Hd Hi Hid Hrow Hnd.
  rewrite (write_label_in_range p defect_index n sev com t w (defect_id row))
    by done.
  simpl. unfold store, write_inner_db. rewrite Hd, lookup_insert_eq. simpl.
  do 2 f_equal. unfold update_label. f_equal.
  apply (update_one_position (labeled_row n sev com (clock w))).
  - by rewrite defect_id_ensure_label_columns.
  - done.
Qed.

(** X10: the labeling block of [save_label] picks its target from
    [SELECT defect_id], that is from the ids in ascending order, and updates
    by id.  For a selector inside that list, on a table whose ids are
    pairwise distinct (the primary key), it adds the label columns that are
    missing and rewrites exactly the row that holds the selected id, at the
    position [k] where the table stores it: class number, severity, comment
    and time of the call are stored and [label_count] is incremented (from
    the default 0 when the column is new).  No other row changes, no row is
    added or removed, and the index is not touched.  When the table stores
    its ids in ascending order, [k] is the selector itself. *)
Theorem write_label_changes_one_row
    (p : string) (defect_index n : Z) (sev com : string)
    (t : table) (w : world) (d : folder) (k : nat) (row : defect) :
  fs w !! p = Some d →
  0 ≤ defect_index →
  select_defect_id t !! Z.to_nat defect_index = Some (defect_id row) →
  rows (ensure_label_columns t) !! k = Some row →
  NoDup (defect_id <$> rows t) →
  let w' := write_label p defect_index n sev com t w in
  store p (fs w')
  = Some (Some {| columns := columns (ensure_label_columns t);
                  rows := <[k := labeled_row n sev com (clock w) row]>
                            (rows (ensure_label_columns t)) |})
  ∧ (∀ c, c ∈ ["severity"; "comment"; "label_time"; "label_count"] →
          has_column c (columns (ensure_label_columns t)) = true)
  ∧ label_count row
    = (if has_column "label_count" (columns t)
       then rows t !! k ≫= label_count
       else Some 0)
  ∧ index w' = index w
  ∧ (∀ q, q ≠ p → fs w' !! q = fs w !! q)
  ∧ (Sorted (fun a b => String.leb a b = true) (defect_id <$> rows t) →
     k = Z.to_nat defect_index).
Proof.
  intros Hd Hi Hid Hrow Hnd w'.
  split; [by eapply write_label_store |].
  split; [apply columns_ensure_label_columns |].
  split; [| split; [| split]].
  - rewrite rows_ensure_label_columns in Hrow.
    destruct (has_column "label_count" (columns t)).
    + by rewrite Hrow.
    + rewrite list_lookup_fmap in Hrow.
      destruct (rows t !! k); by simplify_eq/=.
  - apply write_label_index.
  - intros q Hq. unfold w'.
    rewrite (write_label_in_range p defect_index n sev com t w (defect_id row))
      by done.
    simpl. unfold write_inner_db. rewrite Hd.
    by rewrite lookup_insert_ne.
  - intros Hsorted. rewrite (select_defect_id_ascending t Hsorted) in Hid.
    eapply (NoDup_lookup _ k (Z.to_nat defect_index)); [exact Hnd | | exact Hid].
    by rewrite <- defect_id_ensure_label_columns, list_lookup_fmap, Hrow.
Qed.

Lemma write_label_changes_one_row_witness :
  let t := {| columns := base_columns;
              rows := [sample_row "D2" 2 None; sample_row "D1" 1 None;
                       sample_row "D3" 3 None] |} in
  ∃ t', store "/data/W01"
          (fs (write_label "/data/W01" 0 (type_map "Stain") "high" "edge"
                 t reviewed_world)) = Some (Some t')
        ∧ rows t' !! 1%nat
          = Some {| defect_id := "D1"; center_x := 100; center_y := 200;
                    ai_adc_type := 1; adc_type := Some 3;
                    severity := Some "high"; comment := Some "edge";
                    label_time := Some 7; label_count := Some 1 |}
        ∧ (adc_type <$> rows t' !! 0%nat) = Some None
        ∧ length (rows t') = 3%nat.
Proof.
  intros t.
  destruct (write_label_changes_one_row "/data/W01" 0 (type_map "Stain")
              "high" "edge" t reviewed_world _ 1
              {| defect_id := "D1"; center_x := 100; center_y := 200;
                 ai_adc_type := 1; adc_type := None; severity := None;
                 comment := None; label_time := None; label_count := Some 0 |}
              ltac:(vm_compute; reflexivity) ltac:(lia)
              ltac:(vm_compute; reflexivity)
              ltac:(vm_compute; reflexivity)
              ltac:(apply (bool_decide_unpack _); vm_compute; exact I))
    as (Hs & _).
  eexists. split; [exact Hs |]. repeat split; reflexivity.
Defined.

(** X11: [save_label] for an indexed unit whose folder has no
    [database.db] fails with [no such table: defect_info], and the attempt
    itself leaves an empty [database.db] behind ([sqlite3.connect] creates
    it).  The index is unchanged, but the unit's export, which reported
    "no detail store" before, raises [OperationalError] from then on. *)
Theorem save_label_without_store_leaves_empty_file
    (wafer_id : string) (defect_index : Z) (adc : string)
    (sev com : option string) (w : world) (r : wafer_metadata) (d : folder) :
  index w !! wafer_id = Some r →
  fs w !! folder_path r = Some d →
  database_db d = None →
  ∃ w',
    save_label wafer_id defect_index adc sev com w
    = (w', Failure "no such table: defect_info")
    ∧ store (folder_path r) (fs w') = Some None
    ∧ index w' = index w
    ∧ (∀ q, report q (fs w') = report q (fs w))
    ∧ ∀ export_all,
        export_wafer_kfl wafer_id export_all w
        = (w, Ok (inr "内层数据库不存在"))
        ∧ export_wafer_kfl wafer_id export_all w'
          = (w', Raise (OperationalError "no such table: defect_info")).
Proof.
  intros Hr Hd Hdb. unfold save_label, connect_inner. rewrite Hr, Hd, Hdb.
  eexists. split; [reflexivity |].
  assert (store (folder_path r)
            (fs (set_fs (write_inner_db (folder_path r) None (fs w)) w))
          = Some None) as Hst.
  { simpl. unfold store, write_inner_db. by rewrite Hd, lookup_insert_eq. }
  split; [exact Hst |]. split; [done |]. split.
  - intros q. simpl. unfold report, write_inner_db. rewrite Hd.
    destruct (decide (q = folder_path r)) as [-> |].
    + by rewrite lookup_insert_eq, Hd.
    + by rewrite lookup_insert_ne.
  - intros export_all. split.
    + apply (export_wafer_kfl_no_store _ _ _ r); [done |].
      unfold store. by rewrite Hd.
    + by apply (export_wafer_kfl_no_table _ _ _ r).
Qed.

Lemma save_label_without_store_leaves_empty_file_witness :
  ∃ w',
    save_label "w02" 0 "Scratch" None None reviewed_world
    = (w', Failure "no such table: defect_info")
    ∧ store "/data/W02" (fs reviewed_world) = None
    ∧ store "/data/W02" (fs w') = Some None.
Proof.
  destruct (save_label_without_store_leaves_empty_file "w02" 0 "Scratch"
              None None reviewed_world _ _
              ltac:(vm_compute; reflexivity) ltac:(vm_compute; reflexivity)
              ltac:(reflexivity))
    as (w' & Hs & Hst & _).
  exists w'. split; [exact Hs |]. split; [reflexivity | exact Hst].
Defined.

End LabelWritten.

(** ** Ingestion, folder by folder *)

Section IngestFolder.

Variable sha256_hex : string → string.
Implicit Types (w : world) (c : load_result) (r : wafer_metadata)
  (i : gmap string wafer_metadata).

Local Arguments insert_parsed : simpl never.
Local Arguments execute_insert : simpl never.
Local Arguments _parse_wafer_folder : simpl never.
Local Arguments _sync_progress : simpl never.

Lemma load_folder_unindexed p w c :
  index w !! sha256_hex p = None →
  ¬ map_Exists (fun _ r => folder_path r = p) (index w) →
  load_folder sha256_hex p (w, c) =
  let '(f, res) := _parse_wafer_folder p (fs w) in
  let '(msg, k) := match res with
                   | Ok _ => ("9 values for 8 columns", 1)
                   | Raise e => (str_exc e, 0)
                   end in
  ({| index := <[sha256_hex p :=
                   error_row (Py.basename p) p msg (clock w + k) (clock w + k + 1)]>
                 (index w);
      fs := f; scratch := scratch w; next_tmp := next_tmp w;
      clock := clock w + k + 1 |},
   Ok {| total_processed := total_processed c + 1;
         success := success c; failed := failed c + 1 |}).
Proof.
  intros Hid Hpath.
  destruct (inner_db_exists p (fs w)) eqn:Hdb;
    [| by apply load_folder_first].
  unfold load_folder, load_try, _calculate_wafer_id.
  rewrite Hid, Hdb. simpl.
  destruct (_parse_wafer_folder p (fs w)) as [f [n | e]]; simpl.
  - change (pretty 9%nat +:+ " values for " +:+ pretty 8%nat +:+ " columns")
      with "9 values for 8 columns".
    by rewrite execute_insert_error_row.
  - rewrite execute_insert_error_row by done. by rewrite Z.add_0_r.
Qed.



(** X12: a folder that has no row in the index (and whose path no row
    holds) is never indexed as parsed by its first ingestion, with or without
    a [database.db] of its own: the iteration counts it as failed and inserts
    a row with [parsed_status] 2, [total_defects] 0 and as [parse_error] the
    message of the exception: that of [_parse_wafer_folder] when the report
    or an image is missing, else that of the INSERT whose eight columns meet
    nine values.  The detail store is whatever [_parse_wafer_folder] left. *)
Theorem new_folder_is_indexed_as_failed
    (p : string) (w : world) (c : load_result) :
  index w !! sha256_hex p = None →
  ¬ map_Exists (fun _ r => folder_path r = p) (index w) →
  ∃ w' c' r,
    load_folder sha256_hex p (w, c) = (w', Ok c')
    ∧ total_processed c' = total_processed c + 1
    ∧ failed c' = failed c + 1 ∧ success c' = success c
    ∧ index w' !! sha256_hex p = Some r
    ∧ wafer_name r = Py.basename p ∧ folder_path r = p
    ∧ parsed_status r = 2 ∧ total_defects r = 0
    ∧ parse_error r
      = Some (match (_parse_wafer_folder p (fs w)).2 with
              | Ok _ => "9 values for 8 columns"
              | Raise e => str_exc e
              end)
    ∧ fs w' = (_parse_wafer_folder p (fs w)).1
    ∧ ∀ id, id ≠ sha256_hex p → index w' !! id = index w !! id.
Proof.
  intros Hid Hpath. rewrite load_folder_unindexed by done.
  destruct (_parse_wafer_folder p (fs w)) as [f [n | e]];
    eexists _, _, _; (split; [reflexivity |]); simpl;
    rewrite lookup_insert_eq; repeat (split; [done |]);
    intros id Hne; by rewrite lookup_insert_ne.
Qed.




End IngestFolder.

(** ** Ingestion never drops an indexed unit *)

Section IndexKept.

Variable sha256_hex : string → string.
Implicit Types (w : world) (c : load_result) (r : wafer_metadata)
  (i : gmap string wafer_metadata).

Local Arguments insert_parsed : simpl never.
Local Arguments execute_insert : simpl never.
Local Arguments _parse_wafer_folder : simpl never.
Local Arguments _sync_progress : simpl never.

Lemma index_extends_refl i : index_extends i i.
Proof. intros id r Hr. eauto. Qed.

Lemma index_extends_trans i1 i2 i3 :
  index_extends i1 i2 → index_extends i2 i3 → index_extends i1 i3.
Proof.
  intros H12 H23 id r Hr.
  destruct (H12 id r Hr) as (r2 & Hr2 & Hn2 & Hp2 & Hc2).
  destruct (H23 id r2 Hr2) as (r3 & Hr3 & Hn3 & Hp3 & Hc3).
  exists r3. split; [done |]. split; [| split]; congruence.
Qed.

Lemma index_extends_alter (g : wafer_metadata → wafer_metadata) k i :
  (∀ r, wafer_name (g r) = wafer_name r ∧ folder_path (g r) = folder_path r
        ∧ create_time (g r) = create_time r) →
  index_extends i (alter g k i).
Proof.
  intros Hg id r Hr. destruct (decide (id = k)) as [-> |].
  - exists (g r). rewrite lookup_alter_eq, Hr. split; [done |]. apply Hg.
  - exists r. by rewrite lookup_alter_ne.
Qed.

Lemma index_extends_insert k x i :
  i !! k = None → index_extends i (<[k := x]> i).
Proof.
  intros Hk id r Hr. exists r.
  rewrite lookup_insert_ne by congruence. done.
Qed.

Lemma execute_insert_extends cols n vals ts i i' :
  execute_insert cols n vals ts i = Ok i' → index_extends i i'.
Proof.
  unfold execute_insert. intros H.
  repeat case_match; simplify_eq.
  apply index_extends_insert.
  match goal with
  | H : bool_decide (is_Some (i !! ?k)) = false |- _ =>
      apply bool_decide_eq_false in H;
      destruct (i !! k) eqn:E; [exfalso; apply H; eauto | done]
  end.
Qed.

Lemma sync_progress_extends wafer_id p w :
  index_extends (index w) (index (_sync_progress wafer_id p w)).
Proof.
  rewrite sync_progress_index. apply index_extends_alter.
  intros r. unfold synced_row. by destruct (built_table _).
Qed.

Lemma load_try_extends wafer_id name p w :
  index_extends (index w) (index (load_try wafer_id name p w).1).
Proof.
  unfold load_try.
  assert (∀ f n, index (insert_parsed wafer_id name p n (set_fs f w)).1
                 = index w) as Hins.
  { intros f n. by rewrite insert_parsed_raises. }
  assert (index_extends (index w)
            (index (match _parse_wafer_folder p (fs w) with
                    | (f, Raise e) => (set_fs f w, Raise e)
                    | (f, Ok total_defects) =>
                        insert_parsed wafer_id name p total_defects (set_fs f w)
                    end).1)) as Hparse.
  { destruct (_parse_wafer_folder p (fs w)) as [f [n | e]].
    - rewrite Hins. apply index_extends_refl.
    - apply index_extends_refl. }
  repeat case_match; try exact Hparse;
    first [apply sync_progress_extends | apply index_extends_refl].
Qed.

Lemma load_folder_extends p w c :
  index_extends (index w) (index (load_folder sha256_hex p (w, c)).1).
Proof.
  unfold load_folder.
  pose proof (load_try_extends (_calculate_wafer_id sha256_hex p)
                (Py.basename p) p w) as Htry.
  destruct (load_try _ _ p w) as [w1 [u | e]]; [exact Htry |].
  simpl in Htry. unfold now. cbv beta iota zeta.
  destruct (bool_decide _); simpl.
  - eapply index_extends_trans; [exact Htry |].
    apply index_extends_alter. done.
  - destruct (execute_insert _ _ _ _ _) as [idx |] eqn:He; simpl.
    + eapply index_extends_trans; [exact Htry |].
      by eapply execute_insert_extends.
    + exact Htry.
Qed.

Lemma load_loop_extends folders w c :
  index_extends (index w) (index (load_loop sha256_hex folders (w, c)).1).
Proof.
  revert w c. induction folders as [| p folders IH]; intros w c.
  - apply index_extends_refl.
  - pose proof (load_folder_extends p w c) as H.
    cbn [load_loop].
    destruct (load_folder sha256_hex p (w, c)) as [w1 [c1 | e]]; [| exact H].
    eapply index_extends_trans; [exact H | apply IH].
Qed.

(** X15: [load_wafer_folders] never drops or renames an indexed unit:
    whatever it finds on disk, and also when it is left by an exception,
    every id that was in the index is still there afterwards, with the same
    name, folder path and creation time. *)
Theorem load_keeps_indexed_units
    (root_dir : string) (recursive : bool) (w : world) :
  index_extends (index w)
    (index (load_wafer_folders sha256_hex root_dir recursive w).1).
Proof.
  unfold load_wafer_folders, load_discovered.
  pose proof (load_loop_extends (discover root_dir recursive (fs w)) w
                {| total_processed := 0; success := 0; failed := 0 |}) as H.
  destruct (load_loop _ _ _) as [w' [c | e]]; [exact H |].
  apply index_extends_refl.
Qed.

End IndexKept.

Section IngestSamples.

Lemma new_folder_is_indexed_as_failed_witness :
  ∃ w' c' r,
    load_folder (fun _ => "w01") "/data/W01"
      (fresh_world report5,
       {| total_processed := 0; success := 0; failed := 0 |}) = (w', Ok c')
    ∧ failed c' = 1
    ∧ index w' !! "w01" = Some r
    ∧ parsed_status r = 2
    ∧ parse_error r = Some "9 values for 8 columns".
Proof.
  destruct (new_folder_is_indexed_as_failed (fun _ => "w01") "/data/W01"
              (fresh_world report5)
              {| total_processed := 0; success := 0; failed := 0 |}
              ltac:(reflexivity) ltac:(apply map_Exists_empty))
    as (w' & c' & r & H & _ & Hf & _ & Hr & _ & _ & Hp & _ & He & _).
  exists w', c', r. split; [exact H |]. split; [exact Hf |].
  split; [exact Hr |]. split; [exact Hp |]. rewrite He. reflexivity.
Defined.



End IngestSamples.

(** ** Entering the inner layer *)

Section EnterInnerLayer.

Implicit Types (w : world) (r : wafer_metadata) (d : folder) (t : table)
  (f : gmap string folder) (p q : string).

Lemma raw_data_exists_report p f :
  raw_data_exists p f = bool_decide (is_Some (report p f)).
Proof. unfold raw_data_exists, report. by destruct (f !! p). Qed.

Lemma inner_db_exists_store p f :
  inner_db_exists p f = bool_decide (is_Some (store p f)).
Proof. unfold inner_db_exists, store. by destruct (f !! p). Qed.

Lemma connect_inner_store p f x :
  store p f = Some x → connect_inner p f = Ok (f, x).
Proof.
  unfold store, connect_inner. destruct (f !! p) as [d |]; [| done].
  simpl. by intros ->.
Qed.


Lemma store_write_inner_db p x f :
  is_Some (f !! p) → store p (write_inner_db p x f) = Some x.
Proof.
  intros [d Hd]. unfold store, write_inner_db.
  by rewrite Hd, lookup_insert_eq.
Qed.

Lemma report_write_inner_db p q x f :
  report q (write_inner_db p x f) = report q f.
Proof.
  unfold report, write_inner_db. destruct (f !! p) as [d |] eqn:Hd; [| done].
  destruct (decide (q = p)) as [-> |].
  - by rewrite lookup_insert_eq, Hd.
  - by rewrite lookup_insert_ne.
Qed.

Lemma lookup_write_inner_db_ne p q x f :
  q ≠ p → write_inner_db p x f !! q = f !! q.
Proof.
  intros Hne. unfold write_inner_db. destruct (f !! p); [| done].
  by rewrite lookup_insert_ne.
Qed.

Lemma lookup_create_inner_database_ne p q n f :
  q ≠ p → _create_inner_database p n f !! q = f !! q.
Proof. intros Hne. rewrite create_inner_database_eq. by rewrite lookup_insert_ne. Qed.

Lemma is_Some_lookup_create_inner_database p n f :
  is_Some (_create_inner_database p n f !! p).
Proof. rewrite create_inner_database_eq, lookup_insert_eq. eauto. Qed.

(** With a [database.db] in the folder nothing is rebuilt. *)
Lemma enter_inner_layer_store wafer_id w r x :
  index w !! wafer_id = Some r →
  is_Some (report (folder_path r) (fs w)) →
  store (folder_path r) (fs w) = Some x →
  enter_inner_layer wafer_id w =
  (w, match x with
      | None => (false, "内层数据库表结构不完整")
      | Some t => if count_all t =? 0 then (false, "内层数据库没有缺陷数据")
                  else (true, "成功进入内层标注")
      end).
Proof.
  intros Hr Hraw Hst. unfold enter_inner_layer. rewrite Hr.
  rewrite raw_data_exists_report, inner_db_exists_store, Hst.
  rewrite !bool_decide_eq_true_2 by eauto. simpl.
  rewrite (connect_inner_store _ _ x Hst), set_fs_fs.
  destruct x as [t |]; [| done]. by destruct (count_all t =? 0).
Qed.

(** Without it the store is rebuilt from the report. *)
Lemma enter_inner_layer_no_store wafer_id w r content :
  index w !! wafer_id = Some r →
  report (folder_path r) (fs w) = Some content →
  store (folder_path r) (fs w) = None →
  enter_inner_layer wafer_id w =
  match built_table (Some content) with
  | Some t =>
      (set_fs (rebuild (folder_path r) (fs w)) w, (true, "成功进入内层标注"))
  | None =>
      (set_fs (write_inner_db (folder_path r) None (fs w)) w,
       (false, "内层数据库表结构不完整"))
  end.
Proof.
  intros Hr Hraw Hst. unfold enter_inner_layer. rewrite Hr.
  rewrite raw_data_exists_report, inner_db_exists_store, Hst, Hraw.
  rewrite bool_decide_eq_true_2, bool_decide_eq_false_2
    by (try apply is_Some_None; eauto).
  simpl. fold (report (folder_path r) (fs w)). rewrite Hraw.
  destruct (report_Some_lookup _ _ _ Hraw) as (d & Hd & Hdraw).
  assert (database_db d = None) as Hdb.
  { unfold store in Hst. by rewrite Hd in Hst. }
  set (n := if Z.of_nat (length (report_lines content)) >? 0
            then Z.of_nat (length (report_lines content)) - 1 else 0).
  rewrite (create_inner_database_lookup _ n _ d Hd), Hdraw.
  unfold rebuild, write_inner_db. rewrite Hd, Hdraw.
  destruct (built_table (Some content)) as [t |] eqn:Ht; simpl.
  - unfold connect_inner. rewrite lookup_insert_eq. simpl.
    pose proof (built_table_count_all _ _ Ht) as Hpos.
    assert ((count_all t =? 0) = false) as -> by lia.
    done.
  - unfold connect_inner. rewrite lookup_insert_eq. simpl.
    unfold write_inner_db. rewrite lookup_insert_eq. simpl.
    rewrite insert_insert_eq. by rewrite (set_database_None_id d Hdb).
Qed.

Lemma enter_inner_layer_answers wafer_id w w' ok msg :
  enter_inner_layer wafer_id w = (w', (ok, msg)) →
  ok = true ∨ msg = "内层数据库没有缺陷数据" ∨ msg = "内层数据库表结构不完整" →
  ∃ r content, index w !! wafer_id = Some r
               ∧ report (folder_path r) (fs w) = Some content.
Proof.
  intros He Hans. unfold enter_inner_layer in He.
  destruct (index w !! wafer_id) as [r |] eqn:Hr.
  2: { injection He as <- <- <-. by destruct Hans as [? | [? | ?]]. }
  rewrite raw_data_exists_report in He.
  destruct (report (folder_path r) (fs w)) as [content |] eqn:Hraw; [by eauto |].
  rewrite bool_decide_eq_false_2 in He by apply is_Some_None. simpl in He.
  injection He as <- <- <-. by destruct Hans as [? | [? | ?]].
Qed.

(** X16: an answer of [enter_inner_layer] about the detail store is true
    of the store the call leaves, and a call that gives one leaves the index
    alone.  Whenever the call answers success, [内层数据库没有缺陷数据] or
    [内层数据库表结构不完整], the unit is indexed and has its report, the
    index and the clock are as before the call, and the answer is success
    exactly when the store now holds the table with at least one row,
    [内层数据库没有缺陷数据] when it holds the table without a row and
    [内层数据库表结构不完整] when the file holds no table.  When a
    [database.db] was there before the call, no file has changed either:
    rows and labels of the store stay. *)
Theorem enter_answer_describes_store
    (wafer_id : string) (w w' : world) (ok : bool) (msg : string) :
  enter_inner_layer wafer_id w = (w', (ok, msg)) →
  ok = true ∨ msg = "内层数据库没有缺陷数据" ∨ msg = "内层数据库表结构不完整" →
  ∃ r,
    index w !! wafer_id = Some r
    ∧ is_Some (report (folder_path r) (fs w))
    ∧ index w' = index w ∧ clock w' = clock w
    ∧ (is_Some (store (folder_path r) (fs w)) → w' = w)
    ∧ ((ok, msg) = (true, "成功进入内层标注")
       ∧ (∃ t, store (folder_path r) (fs w') = Some (Some t) ∧ rows t ≠ [])
       ∨ (ok, msg) = (false, "内层数据库没有缺陷数据")
         ∧ (∃ t, store (folder_path r) (fs w') = Some (Some t) ∧ rows t = [])
       ∨ (ok, msg) = (false, "内层数据库表结构不完整")
         ∧ store (folder_path r) (fs w') = Some None).
Proof.
  intros He Hans.
  destruct (enter_inner_layer_answers _ _ _ _ _ He Hans) as (r & content & Hr & Hraw).
  exists r. split; [done |]. split; [by eauto |].
  destruct (store (folder_path r) (fs w)) as [x |] eqn:Hst.
  - rewrite (enter_inner_layer_store wafer_id w r x) in He by eauto.
    injection He as <- Hres.
    split; [done |]. split; [done |]. split; [done |].
    rewrite Hst. destruct x as [t |].
    + unfold count_all in Hres.
      destruct (rows t) as [| row l] eqn:Hrows; simpl in Hres;
        injection Hres as <- <-.
      * right. left. split; [done |]. exists t. by rewrite Hrows.
      * left. split; [done |]. exists t. by rewrite Hrows.
    + injection Hres as <- <-. right. right. done.
  - rewrite (enter_inner_layer_no_store wafer_id w r content) in He by done.
    destruct (report_Some_lookup _ _ _ Hraw) as (d & Hd & _).
    destruct (built_table (Some content)) as [t |] eqn:Ht;
      injection He as <- <- <-; simpl.
    + split; [done |]. split; [done |]. split; [by intros [? ?] |].
      left. split; [done |]. exists t.
      rewrite store_rebuild, Hraw, Ht by eauto. split; [done |].
      by apply built_table_Some in Ht as (_ & _ & _ & _ & _ & _ & ?).
    + split; [done |]. split; [done |]. split; [by intros [? ?] |].
      right. right. split; [done |].
      by rewrite store_write_inner_db by eauto.
Qed.

Lemma enter_answer_describes_store_witness :
  enter_inner_layer "w01" reviewed_world
  = (reviewed_world, (true, "成功进入内层标注"))
  ∧ ∃ t, store "/data/W01" (fs reviewed_world) = Some (Some t) ∧ rows t ≠ [].
Proof.
  assert (enter_inner_layer "w01" reviewed_world
          = (reviewed_world, (true, "成功进入内层标注"))) as He
    by (vm_compute; reflexivity).
  split; [exact He |].
  destruct (enter_answer_describes_store "w01" reviewed_world _ _ _ He
              (or_introl eq_refl))
    as (r & Hr & _ & _ & _ & _ & Hans).
  assert (folder_path r = "/data/W01") as Hp
    by (revert Hr; vm_compute; by intros [= <-]).
  rewrite Hp in Hans.
  destruct Hans as [[_ Ht] | [[Hc _] | [Hc _]]]; [exact Ht | done | done].
Defined.

(** X17: when the folder holds no [database.db], [enter_inner_layer]
    rebuilds the store from the report, and an answer about the store then
    tells what the rebuild left.  Whenever such a call answers success or
    [内层数据库表结构不完整] (it never answers [内层数据库没有缺陷数据]), the
    index, every report and every other folder are as before; after success
    the store holds the table with the five base columns and at least one
    row, with pairwise distinct ids and no label on any row; after the other
    answer an empty [database.db] is left behind.  For a report of ASCII
    text with lines of at most 4300 characters the store left is the one the
    report yields, and the call succeeds exactly when it yields one. *)
Theorem enter_rebuilds_missing_store
    (wafer_id : string) (w w' : world) (r : wafer_metadata)
    (ok : bool) (msg : string) :
  index w !! wafer_id = Some r →
  store (folder_path r) (fs w) = None →
  enter_inner_layer wafer_id w = (w', (ok, msg)) →
  ok = true ∨ msg = "内层数据库没有缺陷数据" ∨ msg = "内层数据库表结构不完整" →
  index w' = index w
  ∧ (∀ q, report q (fs w') = report q (fs w))
  ∧ (∀ q, q ≠ folder_path r → fs w' !! q = fs w !! q)
  ∧ msg ≠ "内层数据库没有缺陷数据"
  ∧ (ok = true →
     ∃ t, store (folder_path r) (fs w') = Some (Some t)
          ∧ columns t = base_columns ∧ rows t ≠ []
          ∧ NoDup (defect_id <$> rows t)
          ∧ ∀ row, row ∈ rows t → unlabeled row)
  ∧ (ok = false → store (folder_path r) (fs w') = Some None)
  ∧ (∀ content, report (folder_path r) (fs w) = Some content →
       plain_report content = true →
       store (folder_path r) (fs w') = Some (built_table (Some content))
       ∧ (ok = true ↔ is_Some (built_table (Some content)))).
Proof.
  intros Hr Hst He Hans.
  destruct (enter_inner_layer_answers _ _ _ _ _ He Hans)
    as (r0 & content & Hr0 & Hraw).
  assert (r0 = r) as -> by congruence.
  rewrite (enter_inner_layer_no_store wafer_id w r content) in He by done.
  destruct (report_Some_lookup _ _ _ Hraw) as (d & Hd & _).
  destruct (built_table (Some content)) as [t |] eqn:Ht;
    injection He as <- <- <-; simpl.
  - split; [done |].
    split; [intros q; apply report_rebuild |].
    split; [intros q Hq; by apply lookup_rebuild_ne |].
    split; [done |].
    assert (store (folder_path r) (rebuild (folder_path r) (fs w))
            = Some (Some t)) as Hst'.
    { rewrite store_rebuild, Hraw, Ht by eauto. done. }
    split; [| split; [done |]].
    + intros _. exists t. split; [exact Hst' |].
      pose proof (built_table_Some _ _ Ht) as (_ & _ & _ & _ & Hc & _ & Hne).
      pose proof (built_table_rows _ _ Ht) as [Hnd _].
      repeat (split; [done |]). intros row. by eapply built_table_unlabeled.
    + intros c Hc _. rewrite Hraw in Hc. injection Hc as <-.
      rewrite Ht. split; [exact Hst' |]. split; eauto.
  - split; [done |].
    split; [intros q; apply report_write_inner_db |].
    split; [intros q Hq; by apply lookup_write_inner_db_ne |].
    split; [done |].
    assert (store (folder_path r) (write_inner_db (folder_path r) None (fs w))
            = Some None) as Hst'.
    { by rewrite store_write_inner_db by eauto. }
    split; [done |]. split; [done |].
    intros c Hc _. rewrite Hraw in Hc. injection Hc as <-.
    rewrite Ht. split; [exact Hst' |].
    split; [done | by intros [? ?]].
Qed.

Lemma enter_rebuilds_missing_store_witness :
  ∃ w',
    enter_inner_layer "w02" reviewed_world = (w', (true, "成功进入内层标注"))
    ∧ store "/data/W02" (fs reviewed_world) = None
    ∧ store "/data/W02" (fs w') = Some (built_table (Some report5)).
Proof.
  pose (w' := (enter_inner_layer "w02" reviewed_world).1).
  assert (enter_inner_layer "w02" reviewed_world
          = (w', (true, "成功进入内层标注"))) as He
    by (vm_compute; reflexivity).
  exists w'. split; [exact He |]. split; [vm_compute; reflexivity |].
  destruct (enter_rebuilds_missing_store "w02" reviewed_world w' _ true _
              ltac:(vm_compute; reflexivity) ltac:(vm_compute; reflexivity)
              He (or_introl eq_refl))
    as (_ & _ & _ & _ & _ & _ & Hb).
  apply (Hb report5); vm_compute; reflexivity.
Defined.




End EnterInnerLayer.

(** ** Reading the defects back *)

Section ReadDefects.

Implicit Types (w : world) (r : wafer_metadata) (d : folder) (t : table)
  (row : defect).

Lemma ai_type_map_type_map (adc : string) :
  type_map adc ≠ 0 → ai_type_map (type_map adc) = Some adc.
Proof.
  unfold type_map.
  destruct (String.eqb_spec adc "Particle") as [-> | _]; [done |].
  destruct (String.eqb_spec adc "Scratch") as [-> | _]; [done |].
  destruct (String.eqb_spec adc "Stain") as [-> | _]; [done |].
  destruct (String.eqb_spec adc "Pinhole") as [-> | _]; [done |].
  destruct (String.eqb_spec adc "Other") as [-> | _]; [done |].
  intros H. by destruct H.
Qed.

Lemma get_wafer_data_store wafer_id w r t :
  index w !! wafer_id = Some r →
  store (folder_path r) (fs w) = Some (Some t) →
  get_wafer_data wafer_id w =
  (w, WaferData (view_of (columns t) <$> rows t)
        (wafer_name r) (folder_path r) 0 1).
Proof.
  intros Hr Hst. unfold get_wafer_data.
  by rewrite Hr, (connect_inner_store _ _ _ Hst), set_fs_fs.
Qed.

(** X20: what the labeling block of [save_label] stores is what
    [get_wafer_data] shows for the class.  The block selects its target in
    the list of ids in ascending order, [get_wafer_data] lists the rows in
    the order of the table, so the labeled row is shown at the position [k]
    where the table stores the selected id, which need not be the selector.
    For one of the five class names, the view at [k] carries that name as
    [adc_type], also when it equals the predicted class, and the incremented
    [label_count].  The severity and the comment are stored but never shown:
    the view always carries the empty string for both. *)
Theorem get_wafer_data_shows_saved_class
    (wafer_id : string) (defect_index : Z) (adc sev com : string)
    (t : table) (w : world) (r : wafer_metadata) (d : folder)
    (k : nat) (row : defect) :
  index w !! wafer_id = Some r →
  fs w !! folder_path r = Some d →
  0 ≤ defect_index →
  select_defect_id t !! Z.to_nat defect_index = Some (defect_id row) →
  rows (ensure_label_columns t) !! k = Some row →
  NoDup (defect_id <$> rows t) →
  type_map adc ≠ 0 →
  let w' := write_label (folder_path r) defect_index (type_map adc)
              sev com t w in
  ∃ views v,
    get_wafer_data wafer_id w'
    = (w', WaferData views (wafer_name r) (folder_path r) 0 1)
    ∧ length views = length (rows t)
    ∧ views !! k = Some v
    ∧ view_id v = defect_id row
    ∧ view_adc_type v = adc
    ∧ view_label_count v = Z.succ <$> label_count row
    ∧ view_severity v = "" ∧ view_comment v = "".
Proof.
  intros Hr Hd Hi Hid Hrow Hnd Hadc w'.
  pose proof (write_label_store (folder_path r) defect_index (type_map adc)
                sev com t w d k row Hd Hi Hid Hrow Hnd) as Hst.
  fold w' in Hst.
  assert (index w' !! wafer_id = Some r) as Hr'.
  { unfold w'. by rewrite write_label_index. }
  rewrite (get_wafer_data_store wafer_id w' r _ Hr' Hst). cbn [columns rows].
  eexists _, _. split; [reflexivity |].
  split.
  { rewrite length_fmap, length_insert.
    rewrite <- (length_fmap defect_id (rows (ensure_label_columns t))).
    by rewrite defect_id_ensure_label_columns, length_fmap. }
  split.
  { rewrite list_lookup_fmap, list_lookup_insert_eq
      by by eapply lookup_lt_Some.
    reflexivity. }
  unfold view_of, labeled_row. cbn.
  rewrite (columns_ensure_label_columns t "label_count") by set_solver.
  split; [done |]. split; [| done].
  rewrite ai_type_map_type_map by done. cbn.
  assert ((type_map adc =? 0) = false) as -> by lia. done.
Qed.

Lemma get_wafer_data_shows_saved_class_witness :
  let t := {| columns := base_columns;
              rows := [sample_row "D2" 2 None; sample_row "D1" 2 None;
                       sample_row "D3" 3 None] |} in
  ∃ views v,
    (get_wafer_data "w01"
       (write_label "/data/W01" 0 (type_map "Scratch") "high" "edge"
          t reviewed_world)).2
    = WaferData views "W01" "/data/W01" 0 1
    ∧ views !! 1%nat = Some v
    ∧ view_id v = "D1"
    ∧ view_ai_adc_type v = "Scratch" ∧ view_adc_type v = "Scratch"
    ∧ view_severity v = "".
Proof.
  intros t.
  destruct (get_wafer_data_shows_saved_class "w01" 0 "Scratch" "high" "edge"
              t reviewed_world _ _ 1
              {| defect_id := "D1"; center_x := 100; center_y := 200;
                 ai_adc_type := 2; adc_type := None; severity := None;
                 comment := None; label_time := None; label_count := Some 0 |}
              ltac:(vm_compute; reflexivity) ltac:(vm_compute; reflexivity)
              ltac:(lia) ltac:(vm_compute; reflexivity)
              ltac:(vm_compute; reflexivity)
              ltac:(apply (bool_decide_unpack _); vm_compute; exact I)
              ltac:(vm_compute; discriminate))
    as (views & v & Hg & _ & Hv & Hi & Ha & _ & Hs & _).
  exists views, v. cbv zeta in Hg. cbn [folder_path wafer_name] in Hg.
  rewrite Hg. cbn [snd].
  split; [reflexivity |]. split; [exact Hv |]. split; [exact Hi |].
  split; [| split; [exact Ha | exact Hs]].
  revert Hg Hv. vm_compute. intros [= <-] [= <-]. reflexivity.
Defined.



End ReadDefects.

(** ** The status at the two ends *)

Section StatusEnds.

(** X22: the status that [_sync_progress] derives from the two counts is
    always 0, 1 or 2; it is 0 (not started) exactly when no row is labeled,
    2 (complete) whenever every row of a non-empty table is labeled, and 1
    (in progress) only when some row is labeled. *)
Theorem label_status_at_the_ends (labeled total : Z) :
  0 ≤ labeled →
  (label_status_of labeled total = Ok 0 ↔ labeled = 0)
  ∧ (0 < total → labeled = total → label_status_of labeled total = Ok 2)
  ∧ (label_status_of labeled total = Ok 1 → 0 < labeled)
  ∧ (∀ s, label_status_of labeled total = Ok s → s = 0 ∨ s = 1 ∨ s = 2).
Proof.
  intros Hl. split; [by apply label_status_not_started |].
  split; [intros Ht ->; by apply label_status_all_labeled |].
  unfold label_status_of.
  destruct (compute_progress labeled total) as [p |]; simpl; [| done].
  unfold derive_label_status.
  destruct (py_eq_int p 100); [split; [done | intros s [= <-]; auto] |].
  destruct (labeled >? 0) eqn:Hgt.
  - split; [lia | intros s [= <-]; auto].
  - split; [done | intros s [= <-]; auto].
Qed.

Lemma label_status_at_the_ends_witness :
  label_status_of 0 5 = Ok 0 ∧ label_status_of 5 5 = Ok 2.
Proof.
  destruct (label_status_at_the_ends 0 5 ltac:(lia)) as ([_ H0] & _).
  destruct (label_status_at_the_ends 5 5 ltac:(lia)) as (_ & H2 & _).
  split; [apply H0; reflexivity | apply H2; [lia | reflexivity]].
Defined.

End StatusEnds.

(** ** The entries of a batch archive *)

Section BatchArchive.

Implicit Types (w : world) (ids files : list string) (a b s cur : string).

Lemma basename_go_no_slash cur s :
  all_chars no_slash s = true → Py.basename_go cur s = String.rev cur +:+ s.
Proof.
  revert cur. induction s as [| c s IH]; intros cur; simpl.
  - intros _. by rewrite str_app_nil_r.
  - unfold no_slash at 1. intros [Hc Hs]%andb_true_iff.
    destruct (Ascii.eqb c "/"); [done |].
    rewrite IH by done. by rewrite str_rev_cons, str_app_assoc.
Qed.

Lemma basename_go_slash cur a s :
  Py.basename_go cur (a +:+ String "/" s) = Py.basename_go "" s.
Proof.
  revert cur. induction a as [| c a IH]; intros cur.
  - done.
  - rewrite str_app_cons.
    change (Py.basename_go cur (String c (a +:+ String "/" s)))
      with (if Ascii.eqb c "/" then Py.basename_go "" (a +:+ String "/" s)
            else Py.basename_go (String c cur) (a +:+ String "/" s)).
    destruct (Ascii.eqb c "/"); apply IH.
Qed.

Lemma endswith_slash_inv a :
  Py.endswith_slash a = true → ∃ a', a = a' +:+ String "/" "".
Proof.
  unfold Py.endswith_slash. intros H.
  destruct (String.rev a) as [| c s] eqn:Hrev; [done |].
  apply Ascii.eqb_eq in H as ->.
  exists (String.rev s).
  by rewrite <- (str_rev_involutive a), Hrev, str_rev_cons.
Qed.

(** [os.path.basename(os.path.join(a, b)) == b] for a name without slash *)
Lemma basename_join a b :
  all_chars no_slash b = true → Py.basename (Py.join a b) = b.
Proof.
  intros Hb. unfold Py.join, Py.basename.
  assert (Py.startswith "/" b = false) as ->.
  { destruct b as [| c b]; [done |]. simpl in *.
    unfold no_slash in Hb. by destruct (Ascii.eqb c "/"). }
  assert (Py.basename_go "" b = b) as Hbb
    by by rewrite basename_go_no_slash.
  destruct (String.eqb_spec a "") as [-> | _]; simpl.
  - done.
  - destruct (Py.endswith_slash a) eqn:He.
    + destruct (endswith_slash_inv a He) as [a' ->].
      by rewrite str_app_assoc, str_app_cons, str_app_nil_l, basename_go_slash.
    + change (a +:+ "/" +:+ b) with (a +:+ String "/" b).
      by rewrite basename_go_slash.
Qed.

Lemma exportableb_true w id : exportableb w id = true ↔ exportable w id.
Proof.
  unfold exportableb, exportable. split.
  - destruct (index w !! id) as [r |]; [| done].
    destruct (store (folder_path r) (fs w)) as [[t |] |] eqn:Hs; [| done..].
    intros _. by exists r, t.
  - intros (r & t & -> & ->). done.
Qed.

Lemma exportableb_ext w w' id :
  index w' = index w → fs w' = fs w → exportableb w' id = exportableb w id.
Proof. unfold exportableb. by intros -> ->. Qed.

Lemma all_chars_export_name w id r :
  index w !! id = Some r →
  all_chars no_slash (wafer_name r) = true →
  all_chars no_slash (export_name w id) = true.
Proof.
  intros Hr Hn. unfold export_name. rewrite Hr. simpl.
  by rewrite all_chars_app, Hn.
Qed.

Lemma batch_loop_files temp_dir ids files w :
  (∀ id, id ∈ ids → ¬ export_raises w id) →
  (∀ id r, id ∈ ids → index w !! id = Some r →
           all_chars no_slash (wafer_name r) = true) →
  ∃ w',
    batch_loop temp_dir ids files w
    = (w', Ok (files ++ ((fun id => Py.join temp_dir (export_name w id))
                           <$> filter (fun id => exportableb w id = true) ids)))
    ∧ index w' = index w ∧ fs w' = fs w.
Proof.
  revert files w. induction ids as [| id ids IH]; intros files w Hno Hnames.
  - exists w. simpl. by rewrite app_nil_r.
  - cbn [batch_loop].
    destruct (export_cases w id) as [Hex | [Hra | [error He]]].
    + destruct Hex as (r & t & Hr & Hs).
      rewrite (export_wafer_kfl_table id false w r t Hr Hs).
      cbv beta iota zeta.
      set (path := Py.join (mkdtemp w).1 (wafer_name r +:+ "_defects.kfl")).
      set (w1 := set_scratch _ (mkdtemp w).2).
      set (dst := Py.join temp_dir (Py.basename path)).
      assert (dst = Py.join temp_dir (export_name w id)) as Hdst.
      { unfold dst, path. rewrite basename_join.
        - unfold export_name. by rewrite Hr.
        - rewrite all_chars_app, (Hnames id r) by (done || by left). done. }
      set (w2 := set_scratch _ w1).
      assert (index w2 = index w) as Hi2 by done.
      assert (fs w2 = fs w) as Hf2 by done.
      destruct (IH (files ++ [dst]) w2) as (w' & Hloop & Hi' & Hf').
      { intros id' Hid' Hra. apply (Hno id'); [by right |].
        by apply (export_raises_ext w w2 id' Hi2 Hf2). }
      { intros id' r' Hid'. rewrite Hi2. apply Hnames. by right. }
      exists w'. rewrite Hloop.
      split; [| split; congruence].
      rewrite filter_cons_True
        by (apply exportableb_true; by exists r, t).
      rewrite fmap_cons, <- app_assoc, Hdst. simpl.
      rewrite (list_filter_iff (fun id => exportableb w2 id = true)
                 (fun id => exportableb w id = true))
        by (intros id'; by rewrite (exportableb_ext w w2)).
      rewrite (list_fmap_ext (fun id => Py.join temp_dir (export_name w2 id))
                 (fun id => Py.join temp_dir (export_name w id))); [done |].
      intros _ id' _. unfold export_name. by rewrite Hi2.
    + exfalso. apply (Hno id); [by left | done].
    + rewrite (He false).
      destruct (IH files w) as (w' & Hloop & Hi' & Hf').
      { intros id' Hid'. apply Hno. by right. }
      { intros id' r' Hid'. apply Hnames. by right. }
      exists w'. rewrite Hloop. split; [| done].
      rewrite filter_cons_False; [done |].
      intros (r & t & Hr & Hs)%exportableb_true.
      pose proof (export_wafer_kfl_table _ false _ _ _ Hr Hs) as Heq.
      rewrite (He false) in Heq. simpl in Heq. congruence.
Qed.

(** X23: when no export of the batch raises and the units' names hold
    no slash, [batch_export_kfl] skips every id that cannot be exported and
    touches neither index nor folders: it returns the batch error exactly
    when no id of the list is exportable, and otherwise an archive with one
    entry per exportable id, in the order of the request, named
    [<wafer_name>_defects.kfl]. *)
Theorem batch_export_one_entry_per_unit (ids : list string) (w : world) :
  (∀ id, id ∈ ids → ¬ export_raises w id) →
  (∀ id r, id ∈ ids → index w !! id = Some r →
           all_chars no_slash (wafer_name r) = true) →
  ∃ w' res,
    batch_export_kfl ids w = (w', Ok res)
    ∧ index w' = index w ∧ fs w' = fs w
    ∧ match filter (fun id => exportableb w id = true) ids with
      | [] => res = inr "没有找到可导出的晶圆"
      | exported =>
          ∃ zip_file entries,
            res = inl zip_file
            ∧ scratch w' !! zip_file = Some (ZipFile entries)
            ∧ entries.*1 = export_name w <$> exported
      end.
Proof.
  intros Hno Hnames. unfold batch_export_kfl.
  destruct (mkdtemp w) as [temp_dir w0] eqn:Hmk.
  assert (index w0 = index w ∧ fs w0 = fs w) as [Hi0 Hf0].
  { unfold mkdtemp in Hmk. by injection Hmk as <- <-. }
  destruct (batch_loop_files temp_dir ids [] w0) as (w' & Hloop & Hi & Hf).
  { intros id Hid Hra. apply (Hno id Hid).
    by apply (export_raises_ext w w0 id Hi0 Hf0). }
  { intros id r Hid. rewrite Hi0. by apply Hnames. }
  rewrite Hloop. cbn [app].
  rewrite (list_filter_iff (fun id => exportableb w0 id = true)
             (fun id => exportableb w id = true))
    by (intros id'; by rewrite (exportableb_ext w w0)).
  assert (∀ id, export_name w0 id = export_name w id) as Hname.
  { intros id. unfold export_name. by rewrite Hi0. }
  assert (∀ id', id' ∈ filter (fun id => exportableb w id = true) ids →
                 exportable w id' ∧ id' ∈ ids) as Hall.
  { intros id' [Hex Hin]%list_elem_of_filter.
    split; [by apply exportableb_true | done]. }
  destruct (filter (fun id => exportableb w id = true) ids)
    as [| id exported].
  - eexists _, _. split; [reflexivity |]. split; [congruence |].
    split; [congruence | done].
  - set (exported' := id :: exported) in *.
    assert (∀ sc : gmap string scratch_file,
              (zip_entry sc <$>
                 ((fun id => Py.join temp_dir (export_name w0 id)) <$> exported')).*1
              = export_name w <$> exported') as Hent.
    { intros sc. rewrite <- !list_fmap_compose.
      apply list_fmap_ext. intros k id' Hk%list_elem_of_lookup_2. simpl.
      rewrite Hname.
      destruct (Hall id' Hk) as [(r & t & Hr & _) Hin].
      apply basename_join. eapply all_chars_export_name; eauto. }
    assert ((fun id => Py.join temp_dir (export_name w0 id)) <$> exported'
            ≠ []) as Hne by done.
    destruct ((fun id => Py.join temp_dir (export_name w0 id)) <$> exported')
      as [| file files] eqn:Hfiles; [done |].
    eexists _, _. split; [reflexivity |]. cbn [index fs scratch set_scratch].
    split; [congruence |]. split; [congruence |].
    eexists _, _. split; [reflexivity |].
    split; [by rewrite lookup_insert_eq |].
    apply Hent.
Qed.

End BatchArchive.

Section BatchSamples.

Lemma batch_export_one_entry_per_unit_witness :
  ∃ w' zip_file entries,
    batch_export_kfl ["w01"; "w02"] reviewed_world = (w', Ok (inl zip_file))
    ∧ scratch w' !! zip_file = Some (ZipFile entries)
    ∧ entries.*1 = ["W01_defects.kfl"].
Proof.
  destruct (batch_export_one_entry_per_unit ["w01"; "w02"] reviewed_world)
    as (w' & res & Hb & _ & _ & Hm).
  - intros id Hin (r & Hr & Hs).
    apply elem_of_cons in Hin as [-> | Hin];
      [| apply list_elem_of_singleton in Hin as ->];
      vm_compute in Hr; injection Hr as <-; vm_compute in Hs; discriminate.
  - intros id r Hin Hr.
    apply elem_of_cons in Hin as [-> | Hin];
      [| apply list_elem_of_singleton in Hin as ->];
      vm_compute in Hr; injection Hr as <-; reflexivity.
  - change (filter (fun id => exportableb reviewed_world id = true)
              ["w01"; "w02"]) with ["w01"] in Hm.
    destruct Hm as (zip_file & entries & -> & Hs & He).
    exists w', zip_file, entries. split; [exact Hb |]. split; [exact Hs |].
    rewrite He. reflexivity.
Defined.

End BatchSamples.

(** ** The count [_parse_wafer_folder] returns *)

Section ParsedCount.

Implicit Types (f : gmap string folder) (p : string) (d : folder)
  (data rs : list defect).

Lemma length_insert_or_replace (x : defect) rs :
  (length (insert_or_replace x rs) ≤ S (length rs))%nat.
Proof.
  unfold insert_or_replace. rewrite length_app. simpl.
  pose proof (length_filter (fun r' => defect_id r' ≠ defect_id x) rs). lia.
Qed.

Lemma length_executemany_insert data rs :
  (length (executemany_insert data rs) ≤ length rs + length data)%nat.
Proof.
  revert rs. induction data as [| x data IH]; intros rs; simpl; [lia |].
  pose proof (IH (insert_or_replace x rs)).
  pose proof (length_insert_or_replace x rs). lia.
Qed.

Lemma length_omap_le {A B} (g : A → option B) (l : list A) :
  (length (omap g l) ≤ length l)%nat.
Proof.
  induction l as [| a l IH]; [done |].
  change (omap g (a :: l))
    with (match g a with Some y => y :: omap g l | None => omap g l end).
  destruct (g a); simpl; lia.
Qed.

Lemma length_report_lines content :
  (length (report_lines content) ≤ length (Py.readlines content))%nat.
Proof.
  unfold report_lines.
  etrans; [apply length_filter |]. by rewrite length_fmap.
Qed.

Lemma built_table_length content t :
  built_table (Some content) = Some t →
  count_all t ≤ Z.of_nat (length (Py.readlines content)) - 1.
Proof.
  intros Ht. apply built_table_Some in Ht
    as (content' & [= <-] & Hne & _ & _ & Hrows & _).
  unfold count_all. rewrite Hrows.
  pose proof (length_executemany_insert
                (insert_data (report_lines content)) []) as H1.
  pose proof (length_omap_le parse_line (tail (report_lines content))) as H2.
  pose proof (length_report_lines content) as H3.
  unfold insert_data in *.
  destruct (report_lines content) as [| l ls]; [done |].
  simpl in *. lia.
Qed.

(** X24: for a folder with both images and a report of ASCII text,
    [_parse_wafer_folder] returns the number of lines of the report minus
    one, whatever the lines hold: for a report of [k] lines, each ended by
    LF or by CR LF, it returns [k - 1], blank lines, comments and malformed
    lines counted.  The detail store it leaves never has more rows than
    that; for an empty report the returned count is -1 and no store is
    left. *)
Theorem parse_wafer_folder_count_bounds_store
    (p : string) (f : gmap string folder) (d : folder) (content : string) :
  f !! p = Some d →
  raw_data_txt d = Some content →
  bright_field_png d = true → dark_field_png d = true →
  ascii_text content = true →
  ∃ f' count,
    _parse_wafer_folder p f = (f', Ok count)
    ∧ count = Z.of_nat (length (Py.readlines content)) - 1
    ∧ (∀ ls, content = text_of_lines ls →
             Forall (fun l => all_chars line_char l.1 = true) ls →
             count = Z.of_nat (length ls) - 1)
    ∧ (∀ t, store p f' = Some (Some t) → count_all t ≤ count)
    ∧ (content = "" → count = -1 ∧ store p f' = None).
Proof.
  intros Hd Hraw Hb Hk _.
  pose proof (parse_wafer_folder_insert p d f) as Hp.
  rewrite (insert_id f p d Hd) in Hp.
  rewrite Hp, Hraw, Hb, Hk. cbn [negb orb].
  eexists _, _. split; [reflexivity |]. split; [reflexivity |].
  split.
  { intros ls -> Hls. rewrite readlines_text_of_lines by done.
    by rewrite length_fmap. }
  unfold store. rewrite lookup_insert_eq. cbn.
  split.
  - destruct (built_table (Some content)) as [t' |] eqn:Ht; [| done].
    intros t [= <-]. by apply built_table_length.
  - intros ->. split; [done |]. done.
Qed.

Lemma parse_wafer_folder_count_bounds_store_witness :
  ∃ f',
    _parse_wafer_folder "/data/W01"
      {[ "/data/W01" :=
           unit_folder
             (text_of_lines [(report_header, true); ("D1,100,200,1", true);
                             ("", false); ("X,1,2", false)]) ]}
    = (f', Ok 3)
    ∧ ∀ t, store "/data/W01" f' = Some (Some t) → count_all t ≤ 3.
Proof.
  set (ls := [(report_header, true); ("D1,100,200,1", true);
              ("", false); ("X,1,2", false)]).
  assert (({[ "/data/W01" := unit_folder (text_of_lines ls) ]}
             : gmap string folder) !! "/data/W01"
          = Some (unit_folder (text_of_lines ls))) as Hd
    by (vm_compute; reflexivity).
  destruct (parse_wafer_folder_count_bounds_store "/data/W01" _ _
              (text_of_lines ls) Hd eq_refl eq_refl eq_refl
              ltac:(vm_compute; reflexivity))
    as (f' & count & Hp & _ & Hc & Hle & _).
  assert (count = 3) as ->.
  { rewrite (Hc ls eq_refl); [reflexivity |].
    repeat constructor. }
  exists f'. split; [exact Hp | exact Hle].
Defined.

End ParsedCount.

(** ** Every generated wafer keeps its own folder *)

Section GeneratedFolders.

Implicit Types (f : gmap string folder) (base_path wafer_type q : string)
  (i j : N) (draws : list (list draw)) (ds : list draw).

Lemma generated_wafer_name_inj wafer_type :
  Inj (=) (=) (generated_wafer_name wafer_type).
Proof.
  intros i j Heq. unfold generated_wafer_name in Heq.
  do 2 apply String.app_inj in Heq.
  by apply zero_padded_inj in Heq.
Qed.

Lemma startswith_generated_wafer_name wafer_type i j :
  Py.startswith "/" (generated_wafer_name wafer_type i)
  = Py.startswith "/" (generated_wafer_name wafer_type j).
Proof. unfold generated_wafer_name. by destruct wafer_type. Qed.

Lemma generated_folder_inj base_path wafer_type i j :
  Py.join base_path (generated_wafer_name wafer_type i)
  = Py.join base_path (generated_wafer_name wafer_type j) →
  i = j.
Proof.
  unfold Py.join.
  rewrite (startswith_generated_wafer_name wafer_type i j).
  destruct (Py.startswith "/" (generated_wafer_name wafer_type j)).
  - apply generated_wafer_name_inj.
  - destruct (_ || _); intros Heq.
    + apply String.app_inj in Heq.
      by apply generated_wafer_name_inj in Heq.
    + do 2 apply String.app_inj in Heq.
      by apply generated_wafer_name_inj in Heq.
Qed.

Lemma generate_loop_lookup_other base_path wafer_type i draws f q :
  (∀ j, (i ≤ j)%N →
        q ≠ Py.join base_path (generated_wafer_name wafer_type j)) →
  generate_loop base_path wafer_type i draws f !! q = f !! q.
Proof.
  revert i f. induction draws as [| ds draws IH]; intros i f Hq; [done |].
  simpl. rewrite IH by (intros j Hj; apply Hq; lia).
  unfold generate_wafer. rewrite lookup_insert_ne; [done |].
  intros Heq. by apply (Hq i).
Qed.

Lemma generate_loop_lookup base_path wafer_type i draws f (k : nat) ds :
  draws !! k = Some ds →
  let wafer_dir :=
    Py.join base_path (generated_wafer_name wafer_type (i + N.of_nat k)) in
  generate_loop base_path wafer_type i draws f !! wafer_dir
  = Some {| raw_data_txt :=
              Some (generated_report wafer_type (i + N.of_nat k) ds);
            bright_field_png := true; dark_field_png := true;
            database_db := f !! wafer_dir ≫= database_db |}.
Proof.
  revert i f k. induction draws as [| d draws IH]; intros i f k Hk; [done |].
  destruct k as [| k]; simpl in Hk.
  - injection Hk as ->. cbv zeta. rewrite N.add_0_r. simpl.
    rewrite generate_loop_lookup_other.
    + unfold generate_wafer. by rewrite lookup_insert_eq.
    + intros j Hj Heq. apply generated_folder_inj in Heq. lia.
  - cbv zeta. simpl generate_loop.
    replace (i + N.of_nat (S k))%N with (N.succ i + N.of_nat k)%N by lia.
    rewrite (IH (N.succ i) _ k Hk).
    unfold generate_wafer at 1. rewrite lookup_insert_ne; [done |].
    intros Heq. apply generated_folder_inj in Heq. lia.
Qed.

(** X25: [generate_wafer_data] gives every wafer a folder of its own:
    after the call the folder of the [k]-th wafer holds both images and
    exactly the report written for that wafer (no later iteration overwrites
    it), a [database.db] that was there is left as it was, and a folder whose
    path is not one of the wafer folders is not touched. *)
Theorem generate_wafer_data_folders
    (base_path wafer_prefix : string) (draws : list (list draw))
    (f : gmap string folder) (k : nat) (ds : list draw) :
  draws !! k = Some ds →
  let i := N.of_nat (S k) in
  let wafer_dir := Py.join base_path (generated_wafer_name wafer_prefix i) in
  let f' := generate_wafer_data base_path wafer_prefix draws f in
  f' !! wafer_dir
  = Some {| raw_data_txt := Some (generated_report wafer_prefix i ds);
            bright_field_png := true; dark_field_png := true;
            database_db := f !! wafer_dir ≫= database_db |}
  ∧ ∀ q, (∀ j, q ≠ Py.join base_path (generated_wafer_name wafer_prefix j)) →
         f' !! q = f !! q.
Proof.
  intros Hk i wafer_dir f'. split.
  - unfold f', generate_wafer_data, wafer_dir, i.
    replace (N.of_nat (S k)) with (1 + N.of_nat k)%N by lia.
    by apply generate_loop_lookup.
  - intros q Hq. apply generate_loop_lookup_other. auto.
Qed.

Lemma generate_wafer_data_folders_witness :
  let d1 := {| draw_x := 100; draw_y := 300; draw_type := 5 |} in
  let d2 := {| draw_x := 500; draw_y := 100; draw_type := 1 |} in
  report "/data/A-02" (generate_wafer_data "/data" "A" [[d1]; [d2; d1]] ∅)
  = Some (generated_report "A" 2 [d2; d1]).
Proof.
  intros d1 d2.
  destruct (generate_wafer_data_folders "/data" "A" [[d1]; [d2; d1]] ∅ 1
              [d2; d1] eq_refl) as [H _].
  change (Py.join "/data" (generated_wafer_name "A" (N.of_nat 2)))
    with "/data/A-02" in H.
  unfold report. rewrite H. reflexivity.
Defined.

End GeneratedFolders.
